(** * hhof: document repository, enrichment pipeline and range scraper

    A shallow embedding of [backend/csv_repository.py],
    [backend/llm_processor.py], [backend/llm_service.py] and
    [backend/eurlex_scraper.py], and the properties the specification
    states about them. *)

From stdpp Require Import gmap strings list fin_maps.
From Equations Require Import Equations.
From Stdlib Require Import ZArith NArith Lia Sorted.

Set Warnings "-abstract-large-number".

Open Scope N_scope.

(** ** Python strings

    A Python [str] is a sequence of Unicode code points; [len] counts code
    points, so a [str] is a list of code points here. *)

Module PyStr.

Definition char := N.
Definition str := list N.

(** Code points of a string literal of this file (the file is UTF-8). *)
Definition byte_of (a : Ascii.ascii) : N := Ascii.N_of_ascii a.

Fixpoint bytes_of (s : string) : list N :=
  match s with
  | EmptyString => []
  | String a s' => byte_of a :: bytes_of s'
  end.

Fixpoint utf8_decode (bs : list N) : str :=
  match bs with
  | [] => []
  | b0 :: r0 =>
    if b0 <? 192 then b0 :: utf8_decode r0
    else match r0 with
    | [] => [b0]
    | b1 :: r1 =>
      if b0 <? 224 then ((b0 - 192) * 64 + (b1 - 128)) :: utf8_decode r1
      else match r1 with
      | [] => [b0; b1]
      | b2 :: r2 =>
        if b0 <? 240
        then ((b0 - 224) * 4096 + (b1 - 128) * 64 + (b2 - 128)) :: utf8_decode r2
        else match r2 with
        | [] => [b0; b1; b2]
        | b3 :: r3 =>
          ((b0 - 240) * 262144 + (b1 - 128) * 4096 + (b2 - 128) * 64 + (b3 - 128))
            :: utf8_decode r3
        end
      end
    end
  end.

Definition u (s : string) : str := utf8_decode (bytes_of s).

(** [len(s)] *)
Definition len (s : str) : nat := length s.

(** [str.isspace] on one code point: the code points CPython's
    [_PyUnicode_IsWhitespace] accepts. *)
Definition isspace (c : char) : bool :=
  ((9 <=? c) && (c <=? 13)) || ((28 <=? c) && (c <=? 32))
  || (c =? 133) || (c =? 160) || (c =? 5760)
  || ((8192 <=? c) && (c <=? 8202))
  || (c =? 8232) || (c =? 8233) || (c =? 8239) || (c =? 8287) || (c =? 12288).

Fixpoint lstrip_by (p : char -> bool) (s : str) : str :=
  match s with
  | [] => []
  | c :: s' => if p c then lstrip_by p s' else s
  end.

Definition rstrip_by (p : char -> bool) (s : str) : str :=
  reverse (lstrip_by p (reverse s)).

Definition strip_by (p : char -> bool) (s : str) : str :=
  rstrip_by p (lstrip_by p s).

(** [s.strip()] *)
Definition strip (s : str) : str := strip_by isspace s.

(** [s.strip(chars)] *)
Definition strip_chars (chars : str) (s : str) : str :=
  strip_by (fun c => bool_decide (c ∈ chars)) s.

(** [str.lower] on one code point, for the Basic Latin and Latin-1
    Supplement blocks: A-Z, and the capital letters U+00C0-U+00DE except the
    multiplication sign U+00D7.  Every text of the classification tables
    lies in these two blocks; other code points are left as they are. *)
Definition lower_char (c : char) : char :=
  if (65 <=? c) && (c <=? 90) then c + 32
  else if (192 <=? c) && (c <=? 222) && negb (c =? 215) then c + 32
  else c.

Definition lower (s : str) : str := map lower_char s.

(** [s.startswith(p)] *)
Fixpoint startswith (p s : str) : bool :=
  match p, s with
  | [], _ => true
  | _ :: _, [] => false
  | a :: p', b :: s' => (a =? b) && startswith p' s'
  end.

(** [p in s] *)
Fixpoint contains (p s : str) : bool :=
  startswith p s ||
  match s with
  | [] => false
  | _ :: s' => contains p s'
  end.

(** [s.replace(old, new)] for a non-empty [old]: the leftmost occurrence is
    replaced and the scan resumes after it; [skip] counts the characters of
    a replaced occurrence still to be passed over. *)
Fixpoint replace_from (old new : str) (skip : nat) (s : str) : str :=
  match s with
  | [] => []
  | c :: s' =>
    match skip with
    | S k => replace_from old new k s'
    | O =>
      if startswith old s
      then new ++ replace_from old new (pred (length old)) s'
      else c :: replace_from old new 0 s'
    end
  end.

Definition replace (old new s : str) : str := replace_from old new 0 s.

(** [s.split(sep, 1)] for a one-character [sep] that occurs in [s]:
    the parts before and after the first occurrence. *)
Fixpoint split_once (sep : char) (s : str) : str * str :=
  match s with
  | [] => ([], [])
  | c :: s' =>
    if c =? sep then ([], s')
    else let '(a, b) := split_once sep s' in (c :: a, b)
  end.

(** [s.split(sep)] for a one-character [sep] *)
Fixpoint split (sep : char) (s : str) : list str :=
  match s with
  | [] => [[]]
  | c :: s' =>
    if c =? sep then [] :: split sep s'
    else match split sep s' with
         | [] => [[c]]
         | w :: ws => (c :: w) :: ws
         end
  end.

(** [sep.join(l)] *)
Fixpoint join (sep : str) (l : list str) : str :=
  match l with
  | [] => []
  | [x] => x
  | x :: l' => x ++ sep ++ join sep l'
  end.

(** [s[:n]] for a non-negative [n], [s[-n:]] for a positive [n] *)
Definition prefix_of (n : nat) (s : str) : str := take n s.
Definition suffix_of (n : nat) (s : str) : str := drop (length s - n) s.

(** Truth value of a [str] *)
Definition nonempty (s : str) : bool :=
  match s with [] => false | _ => true end.

End PyStr.

Import PyStr.

(** ** Python values of a document record

    The values the ingesters and the enrichment pipeline put in a record:
    [None], strings, lists of strings (themes, keywords), naive datetimes and
    dates.  A datetime is its proleptic ordinal day (day 1 is 0001-01-01)
    and the time of day in microseconds; comparison is lexicographic. *)

Module Py.

Record datetime := DateTime { dt_day : positive; dt_time : N }.

Definition datetime_min : datetime := DateTime 1 0.

Definition datetime_ltb (a b : datetime) : bool :=
  (dt_day a <? dt_day b)%positive
  || ((dt_day a =? dt_day b)%positive && (dt_time a <? dt_time b)).

Definition datetime_leb (a b : datetime) : bool := negb (datetime_ltb b a).

Inductive pyval :=
  | PNone
  | PStr (s : str)
  | PList (l : list str)
  | PDateTime (d : datetime)
  | PDate (day : positive).

#[global] Instance datetime_eq_dec : EqDecision datetime.
Proof. solve_decision. Defined.

#[global] Instance pyval_eq_dec : EqDecision pyval.
Proof. solve_decision. Defined.

(** [bool(v)] *)
Definition truthy (v : pyval) : bool :=
  match v with
  | PNone => false
  | PStr s => nonempty s
  | PList l => match l with [] => false | _ => true end
  | PDateTime _ | PDate _ => true
  end.

(** A list is the one value of this fragment that cannot be a set member. *)
Definition hashable (v : pyval) : bool :=
  match v with PList _ => false | _ => true end.

(** [d.get(k)] *)
Definition get (d : gmap string pyval) (k : string) : pyval :=
  default PNone (d !! k).

(** The two [strftime]/[strptime] formats of the repository. *)
Inductive fmt := DATE_FORMAT | DATE_ONLY_FORMAT.

(** The library functions the code calls and this development does not
    look into: formatting and parsing of times, and [str(v)] of a value
    that is neither a string nor [None].  A parser returns [None] where
    Python raises [ValueError]. *)
Class Runtime := {
  strftime_datetime : datetime -> str;
  strftime_date : positive -> str;
  strptime_datetime : str -> option datetime;
  strptime_date : str -> option positive;
  repr : pyval -> str
}.

(** [t.strftime(f)]; the date-only format shows the day alone. *)
Definition strftime `{Runtime} (f : fmt) (t : datetime) : str :=
  match f with
  | DATE_FORMAT => strftime_datetime t
  | DATE_ONLY_FORMAT => strftime_date (dt_day t)
  end.

(** [datetime.strptime(s, f)]; the date-only format yields midnight. *)
Definition strptime `{Runtime} (f : fmt) (s : str) : option datetime :=
  match f with
  | DATE_FORMAT => strptime_datetime s
  | DATE_ONLY_FORMAT => (fun day => DateTime day 0) <$> strptime_date s
  end.

Definition py_str `{Runtime} (v : pyval) : str :=
  match v with
  | PStr s => s
  | PNone => u "None"
  | _ => repr v
  end.

End Py.

Import Py.

(** ** A runtime to evaluate examples with

    Times are written the way [datetime.isoformat] writes them, with zero
    padding, and exactly that form is read back; the calendar arithmetic is
    CPython's [_ymd2ord] and [_ord2ymd]. *)

Module IsoRuntime.

Definition is_leap (y : N) : bool :=
  (y mod 4 =? 0) && (negb (y mod 100 =? 0) || (y mod 400 =? 0)).

Definition days_in_month (y m : N) : N :=
  if m =? 2 then (if is_leap y then 29 else 28)
  else if (m =? 4) || (m =? 6) || (m =? 9) || (m =? 11) then 30
  else 31.

Definition days_before_month (y m : N) : N :=
  nth (N.to_nat m) [0; 0; 31; 59; 90; 120; 151; 181; 212; 243; 273; 304; 334] 0
  + (if (2 <? m) && is_leap y then 1 else 0).

Definition days_before_year (y : N) : N :=
  let y := y - 1 in y * 365 + y / 4 - y / 100 + y / 400.

Definition ymd2ord (y m d : N) : N :=
  days_before_year y + days_before_month y m + d.

Definition ord2ymd (n : N) : N * N * N :=
  let n := n - 1 in
  let n400 := n / 146097 in let n := n mod 146097 in
  let n100 := n / 36524 in let n := n mod 36524 in
  let n4 := n / 1461 in let n := n mod 1461 in
  let n1 := n / 365 in let n := n mod 365 in
  let year := n400 * 400 + 1 + n100 * 100 + n4 * 4 + n1 in
  if (n1 =? 4) || (n100 =? 4) then (year - 1, 12, 31)
  else
    let leapyear := (n1 =? 3) && (negb (n4 =? 24) || (n100 =? 3)) in
    let month := (n + 50) / 32 in
    let preceding := days_before_month (if leapyear then 4 else 1) month in
    if n <? preceding
    then (year, month - 1,
          n - (preceding - days_in_month (if leapyear then 4 else 1) (month - 1)) + 1)
    else (year, month, n - preceding + 1).

Fixpoint digits (width : nat) (n : N) : str :=
  match width with
  | O => []
  | S w => digits w (n / 10) ++ [48 + n mod 10]
  end.

Fixpoint number (acc : N) (s : str) : option N :=
  match s with
  | [] => Some acc
  | c :: s' =>
      if (48 <=? c) && (c <=? 57) then number (acc * 10 + (c - 48)) s'
      else None
  end.

Definition write_date (day : positive) : str :=
  let '(y, m, d) := ord2ymd (Npos day) in
  digits 4 y ++ [45] ++ digits 2 m ++ [45] ++ digits 2 d.

Definition write_time (t : N) : str :=
  let s := t / 1000000 in
  digits 2 (s / 3600) ++ [58] ++ digits 2 (s / 60 mod 60) ++ [58]
    ++ digits 2 (s mod 60).

Definition read_date (s : str) : option positive :=
  match s with
  | [y1; y2; y3; y4; 45; m1; m2; 45; d1; d2] =>
      y ← number 0 [y1; y2; y3; y4];
      m ← number 0 [m1; m2];
      d ← number 0 [d1; d2];
      if (1 <=? y) && (1 <=? m) && (m <=? 12) && (1 <=? d)
         && (d <=? days_in_month y m)
      then match ymd2ord y m d with Npos p => Some p | N0 => None end
      else None
  | _ => None
  end.

Definition read_time (s : str) : option N :=
  match s with
  | [h1; h2; 58; m1; m2; 58; s1; s2] =>
      h ← number 0 [h1; h2];
      m ← number 0 [m1; m2];
      s ← number 0 [s1; s2];
      if (h <=? 23) && (m <=? 59) && (s <=? 59)
      then Some ((h * 3600 + m * 60 + s) * 1000000)
      else None
  | _ => None
  end.

Definition write_datetime (t : datetime) : str :=
  write_date (dt_day t) ++ [32] ++ write_time (dt_time t).

Definition read_datetime (s : str) : option datetime :=
  day ← read_date (take 10 s);
  match drop 10 s with
  | 32 :: r => t ← read_time r; Some (DateTime day t)
  | _ => None
  end.

Definition show (v : pyval) : str :=
  match v with
  | PNone => u "None"
  | PStr s => s
  | PList l => [91] ++ join (u ", ") ((fun s => [39] ++ s ++ [39]) <$> l) ++ [93]
  | PDateTime t => write_datetime t
  | PDate day => write_date day
  end.

Definition runtime : Runtime :=
  {| strftime_datetime := write_datetime; strftime_date := write_date;
     strptime_datetime := read_datetime; strptime_date := read_date;
     repr := show |}.

End IsoRuntime.

(** ** The document repository (csv_repository.py)

    The CSV file is seen through [csv.DictReader]: a list of rows, each a
    dictionary from column names to strings.  The header of the file is
    [fieldnames], as [_create_csv_file] and [_write_all_documents] write it,
    and the csv module reads back the strings it wrote. *)

Module Repo.

Abbreviation doc := (gmap string pyval).
Abbreviation row := (gmap string str).
Abbreviation store := (list row).

Definition NEWLINE_ESCAPE : str := [92; 110].
Definition CARRIAGE_RETURN_ESCAPE : str := [92; 114].

Definition fieldnames : list string :=
  ["id"; "source"; "date"; "url"; "typologie"; "ministre";
   "titre"; "abstract"; "content"; "language"; "summary"; "themes";
   "applicability"; "keywords"; "processing_status";
   "created_at"; "updated_at"; "processed"]%string.

Definition text_fields : list string :=
  ["titre"; "abstract"; "summary"; "applicability"]%string.

Definition _escape_newlines (text : str) : str :=
  replace [13] CARRIAGE_RETURN_ESCAPE (replace [10] NEWLINE_ESCAPE text).

Definition _unescape_newlines (text : str) : str :=
  replace CARRIAGE_RETURN_ESCAPE [13] (replace NEWLINE_ESCAPE [10] text).

(** A cell of a row; a column the row does not have reads as empty. *)
Definition field (r : row) (k : string) : str := default [] (r !! k).

Section WithRuntime.
Context `{Runtime}.

(** *** Reading *)

Definition parse_list (v : pyval) : pyval :=
  match v with
  | PStr ((_ :: _) as s) =>
      PList (List.filter nonempty (strip <$> split 44 s))
  | PList l => PList l
  | _ => PList []
  end.

Definition parse_date (v : pyval) : pyval :=
  match v with
  | PStr ((_ :: _) as s) =>
      match strptime DATE_ONLY_FORMAT (prefix_of 10 s) with
      | Some t => PDate (dt_day t)
      | None => v
      end
  | _ => v
  end.

Definition parse_datetime (v : pyval) : pyval :=
  match v with
  | PStr ((_ :: _) as s) =>
      match strptime DATE_FORMAT s with
      | Some t => PDateTime t
      | None =>
          match strptime DATE_ONLY_FORMAT (prefix_of 10 s) with
          | Some t => PDateTime (DateTime (dt_day t) 0)
          | None => v
          end
      end
  | _ => v
  end.

Definition unescape_value (v : pyval) : pyval :=
  match v with
  | PStr ((_ :: _) as s) => PStr (_unescape_newlines s)
  | _ => v
  end.

Definition _parse_doc (d : doc) : doc :=
  let d := foldr (alter unescape_value) d text_fields in
  let d := <["keywords" := parse_list (get d "keywords")]> d in
  let d := <["themes" := parse_list (get d "themes")]> d in
  let d := alter parse_date "date" d in
  foldr (alter parse_datetime) d ["created_at"; "updated_at"; "processed"]%string.

Definition raw_doc (r : row) : doc := PStr <$> r.

Definition _read_all_documents (parse : bool) (st : store) : list doc :=
  (fun r => if parse then _parse_doc (raw_doc r) else raw_doc r) <$> st.

(** *** Writing *)

(** What [csv.writer] puts in a cell. *)
Definition cell (v : pyval) : str :=
  match v with
  | PNone => []
  | _ => py_str v
  end.

(** [DictWriter.writerow]: a key outside [fieldnames] raises [ValueError],
    a missing one is written as the empty [restval]. *)
Definition writer_row (d : doc) : option row :=
  if bool_decide (Forall (fun k => k ∈ fieldnames) (map_to_list d).*1)
  then Some (list_to_map ((fun f => (f, cell (get d f))) <$> fieldnames))
  else None.

(** [_write_all_documents]: the rows go to a temporary file that replaces
    the CSV file at the end, so a failure leaves the file as it was.
    [disk] tells whether the file system lets the write through. *)
Definition _write_all_documents (disk : bool) (documents : list doc)
  : option store :=
  if disk then mapM writer_row documents else None.

Definition exists_ (st : store) (document_id : pyval) : bool :=
  existsb (fun d => bool_decide (get d "id" = document_id))
          (_read_all_documents false st).

Definition escape_value (v : pyval) : pyval :=
  match v with
  | PStr s => PStr (_escape_newlines (strip s))
  | _ => v
  end.

Definition path_value (v : pyval) : pyval :=
  if truthy v
  then let content_value := py_str v in
       if bool_decide (500 < len content_value)%nat then PStr []
       else PStr content_value
  else v.

Definition format_date (key : string) (value : pyval) : pyval :=
  match value with
  | PDateTime t =>
      if bool_decide (key = "date"%string)
      then PStr (strftime DATE_ONLY_FORMAT t)
      else PStr (strftime DATE_FORMAT t)
  | PDate day => PStr (strftime DATE_ONLY_FORMAT (DateTime day 0))
  | _ => value
  end.

Definition join_value (v : pyval) : pyval :=
  match v with
  | PList l => PStr (join (u ", ") l)
  | _ => v
  end.

(** [doc['processing_status'] == 'processed' and not doc.get('processed')] *)
Definition needs_processed_stamp (d : doc) : bool :=
  bool_decide (get d "processing_status" = PStr (u "processed"))
  && negb (truthy (get d "processed")).

Definition blank_document : doc :=
  list_to_map ((fun f => (f, PStr [])) <$> fieldnames).

(** [_prepare_doc_for_write]; [None] is the [ValueError] of a record
    without an id, [now] the reading of the clock. *)
Definition _prepare_doc_for_write (now : datetime) (doc_data : doc)
  : option doc :=
  if negb (truthy (get doc_data "id")) then None
  else
    let doc_data := foldr (alter escape_value) doc_data text_fields in
    let doc_data := alter path_value "content" doc_data in
    let doc_data := map_imap (fun k v => Some (format_date k v)) doc_data in
    let doc_data := alter join_value "keywords" doc_data in
    let doc_data := alter join_value "themes" doc_data in
    let document := doc_data ∪ blank_document in
    let now_str := PStr (strftime DATE_FORMAT now) in
    let document :=
      <["processing_status" :=
          default (PStr (u "pending")) (doc_data !! "processing_status")]>
        document in
    let document :=
      match document !! "date" with
      | None => <["date" := PStr []]> document
      | Some _ => document
      end in
    let document :=
      <["created_at" := default now_str (document !! "created_at")]>
        document in
    let document := <["updated_at" := now_str]> document in
    Some (if needs_processed_stamp document
          then <["processed" := now_str]> document
          else document).

(** *** Operations

    Every operation takes the rows of the file and returns its result with
    the rows the file holds afterwards. *)

Definition create (disk : bool) (now : datetime) (st : store)
  (doc_data : doc) : option doc * store :=
  if exists_ st (get doc_data "id") then (None, st)
  else if bool_decide (doc_data !! "id" = None) then (None, st)
  else
    match _prepare_doc_for_write now doc_data with
    | None => (None, st)
    | Some document =>
        match (if disk then writer_row document else None) with
        | Some r => (Some document, st ++ [r])
        | None => (None, st)
        end
    end.

(** The loop of [bulk_create] over the batch.  [clock i] is the reading of
    the clock while record [i] is prepared.  The result is [None] where
    [doc_id in existing_ids] raises [TypeError] for a list, which no
    handler of [bulk_create] catches.  A record that reaches
    [_prepare_doc_for_write] has an id, so the handlers around that call
    count no record of this fragment. *)
Fixpoint bulk_loop (clock : nat -> datetime) (i : nat) (docs_data : list doc)
  (created_docs : list doc) (skipped : nat) (existing_ids : list pyval)
  : option (list doc * nat) :=
  match docs_data with
  | [] => Some (created_docs, skipped)
  | doc_data :: rest =>
      let doc_id := get doc_data "id" in
      if negb (truthy doc_id)
      then bulk_loop clock (S i) rest created_docs (S skipped) existing_ids
      else if negb (hashable doc_id) then None
      else if bool_decide (doc_id ∈ existing_ids)
      then bulk_loop clock (S i) rest created_docs (S skipped) existing_ids
      else
        match _prepare_doc_for_write (clock i) doc_data with
        | Some document =>
            bulk_loop clock (S i) rest (created_docs ++ [document]) skipped
                      (existing_ids ++ [doc_id])
        | None =>
            bulk_loop clock (S i) rest created_docs (S skipped) existing_ids
        end
  end.

Definition bulk_create (disk : bool) (clock : nat -> datetime) (st : store)
  (docs_data : list doc) : option ((nat * nat) * store) :=
  let existing_ids :=
    (fun d => get d "id") <$> _read_all_documents false st in
  '(created_docs, skipped) ← bulk_loop clock 0 docs_data [] 0%nat existing_ids;
  match created_docs with
  | [] => Some ((0, skipped)%nat, st)
  | _ :: _ =>
      let existing_docs := _read_all_documents false st in
      let all_docs := existing_docs ++ created_docs in
      match _write_all_documents disk all_docs with
      | Some st' => Some ((length created_docs, skipped), st')
      | None => Some ((0, skipped + length created_docs)%nat, st)
      end
  end.

Definition safe_sort_key (d : doc) : datetime :=
  match d !! "created_at" with
  | Some (PDateTime created_at) => created_at
  | _ => datetime_min
  end.

(** [list.sort(key=..., reverse=True)]: a stable sort, records with equal
    keys keep the order they had. *)
Fixpoint insert_desc {A} (key : A -> datetime) (x : A) (l : list A) : list A :=
  match l with
  | [] => [x]
  | y :: l' =>
      if datetime_ltb (key x) (key y) then y :: insert_desc key x l'
      else x :: l
  end.

Definition sort_desc {A} (key : A -> datetime) (l : list A) : list A :=
  foldr (insert_desc key) [] l.

(** [get_all(skip, limit)] for non-negative [skip] and [limit] *)
Definition get_all (st : store) (skip limit : nat) : list doc :=
  let documents := sort_desc safe_sort_key (_read_all_documents true st) in
  take limit (drop skip documents).

Definition get_by_id (st : store) (document_id : str) : option doc :=
  snd <$> list_find (fun d => get d "id" = PStr document_id)
                    (_read_all_documents true st).

(** [update_document]; [t1] is the reading of the clock inside
    [_prepare_doc_for_write], [t2] the later one of [update_document]
    itself.  Every exception ends in [return False]. *)
Definition update_document (disk : bool) (t1 t2 : datetime) (st : store)
  (document_id : str) (updates : doc) : bool * store :=
  let documents := _read_all_documents false st in
  match list_find (fun d => get d "id" = PStr document_id) documents with
  | None => (false, st)
  | Some (i, d) =>
      match _prepare_doc_for_write t1 (updates ∪ d) with
      | None => (false, st)
      | Some prepared_updates =>
          let d :=
            filter (fun kv => (kv.1 ∉ ["id"; "created_at"]%string)
                              ∧ (kv.1 ∈ fieldnames)) prepared_updates ∪ d in
          let now_str := PStr (strftime DATE_FORMAT t2) in
          let d := <["updated_at" := now_str]> d in
          let d :=
            if needs_processed_stamp d then <["processed" := now_str]> d
            else d in
          match _write_all_documents disk (<[i := d]> documents) with
          | Some st' => (true, st')
          | None => (false, st)
          end
      end
  end.

Definition update_processing_status (disk : bool) (t1 t2 : datetime)
  (st : store) (document_id : str) (status : str) : bool * store :=
  update_document disk t1 t2 st document_id
    {["processing_status" := PStr status]}.

End WithRuntime.

End Repo.

(** ** The text-generation service (llm_service.py)

    The provider is a capability behind [LLMService.generate]; a call
    returns the text of the completion, or [None] where it raises.
    [classify] stands for the structured theme request of
    [_classify_themes] together with the validation of its answer against
    [ThemeClassification]; [None] is any failure on that path. *)

Module Service.

Inductive response_format := Text | Json.

Class LLMService := {
  generate : str -> option str -> response_format -> option str;
  classify : str -> str -> str -> str -> option (list str)
}.

(** [count_tokens]: one token for four characters. *)
Definition count_tokens (text : str) : nat := (len text / 4)%nat.

End Service.

Import Service.

(** ** The enrichment pipeline (llm_processor.py) *)

Module Processor.

Import Repo.

Definition APPLICABILITY_CATEGORIES : list (str * list str) :=
  Eval vm_compute in
  [ (u "information",
     [u "Directive européenne"; u "Circulaire"; u "Instruction"; u "Normes";
      u "Communiqué"; u "Avis"; u "Recommandation";
      u "Décision ou résumé de décisions"; u "Rapport"]);
    (u "obligation",
     [u "Loi"; u "Règlement"; u "Décret"; u "Arrêté"; u "Convention"]);
    (u "jurisprudence",
     [u "Arrêt"; u "Décision"; u "Cour de cassation";
      u "Conseil constitutionnel";
      u "Cour de justice de l'union européenne";
      u "Tribunal de l'union européenne"]) ].

(** [APPLICABILITY_CATEGORIES[category]], [None] for a missing key *)
Fixpoint lookup_category (table : list (str * list str)) (category : str)
  : option (list str) :=
  match table with
  | [] => None
  | (c, types) :: table' =>
      if bool_decide (c = category) then Some types
      else lookup_category table' category
  end.

Definition TRUNCATION_MARKER : str :=
  [10; 10] ++ u "[... DOCUMENT TRONQUÉ POUR LIMITER LE CONTEXTE ...]".

Definition ELISION_MARKER : str := [10; 10] ++ u "[...]" ++ [10; 10].

Definition DEFAULT_THEMES : list str := [u "Articles & Guides"].

(** [content[:10000] + marker + content[-5000:]] for a long content *)
Definition excerpt (content : str) : str :=
  if bool_decide (15000 < len content)%nat
  then prefix_of 10000 content ++ ELISION_MARKER ++ suffix_of 5000 content
  else content.

(** The cleaning of the answer: surrounding quote characters (double and
    single) are stripped, then whitespace. *)
Definition clean_response (response : str) : str :=
  strip (strip_chars [34; 39] (strip response)).

(** The loop over [valid_types] with its [break] *)
Definition match_type (valid_types : list str) (doc_type_response : str)
  : option str :=
  List.find (fun valid_type =>
               bool_decide (lower valid_type = lower doc_type_response))
            valid_types.

(** The detection of a bare category name, in the order of the source *)
Definition fallback_category (response_lower : str) : option str :=
  List.find (fun category => contains category response_lower)
            [u "obligation"; u "jurisprudence"; u "information"].

(** What [_classify_applicability] makes of the text [generate] returned *)
Definition classification_of (response : str) : str :=
  let response := clean_response response in
  let parsed :=
    if contains [47] response then
      let '(part0, part1) := split_once 47 response in
      let category := strip (lower part0) in
      let doc_type_response := strip part1 in
      match lookup_category APPLICABILITY_CATEGORIES category with
      | Some valid_types =>
          match match_type valid_types doc_type_response with
          | Some matched_type => Some (category ++ [47] ++ matched_type)
          | None => Some (category ++ [47] ++ hd [] valid_types)
          end
      | None => None
      end
    else None in
  match parsed with
  | Some result => result
  | None =>
      match fallback_category (lower response) with
      | Some category =>
          category ++ [47]
            ++ hd [] (default [] (lookup_category APPLICABILITY_CATEGORIES category))
      | None => u "information/Avis"
      end
  end.

Section WithService.
Context `{Runtime} `{LLMService}.

(** [self.one_shot_limit_tokens], a number of tokens *)
Variable one_shot_limit_tokens : nat.

Definition SUMMARY_SYSTEM_PROMPT : str :=
  u "Tu es un expert juridique spécialisé dans l'analyse de documents légaux.
Ta tâche est de produire un résumé TRÈS COURT et précis en une seule phrase.".

Definition summary_prompt (content : str) (d : doc) : str :=
  let doc_type := default (PStr (u "document")) (d !! "typologie") in
  let source := default (PStr (u "inconnu")) (d !! "source") in
  u "Analyse ce document juridique et produis un résumé ULTRA-COURT.

**Type de document**: "
    ++ py_str doc_type
    ++ u "
**Source**: "
    ++ py_str source
    ++ u "

**Contenu**:
"
    ++ content
    ++ u "

**Instructions CRITIQUES**:
1. Produis UN RÉSUMÉ EN UNE SEULE PHRASE de maximum 500 caractères
2. Capture UNIQUEMENT l'idée principale du document
3. Sois extrêmement concis et direct
4. Évite les mots inutiles et les formules de politesse
5. Va droit au but

Exemple de format attendu:
"
    ++ [34]
    ++ u "Décret sur la protection des travailleurs contre les risques électriques"
    ++ [34]
    ++ u "
"
    ++ [34]
    ++ u "Directive européenne relative aux équipements de protection individuelle"
    ++ [34]
    ++ u "

Résumé (max 500 caractères):".

Definition _summarize_document_content (content : str) (d : doc)
  : option str :=
  response ← generate (summary_prompt content d) (Some SUMMARY_SYSTEM_PROMPT) Text;
  let summary := strip response in
  Some (if bool_decide (500 < len summary)%nat
        then prefix_of 497 summary ++ u "..."
        else summary).

Definition _generate_one_shot_summary (content : str) (d : doc)
  : option str :=
  let content_tokens := count_tokens content in
  let TARGET_TOKEN_LIMIT := one_shot_limit_tokens in
  let MAX_CHAR_LIMIT := (TARGET_TOKEN_LIMIT * 4)%nat in
  let content_to_summarize :=
    if bool_decide (TARGET_TOKEN_LIMIT < content_tokens)%nat
    then prefix_of MAX_CHAR_LIMIT content ++ TRUNCATION_MARKER
    else content in
  _summarize_document_content content_to_summarize d.

Definition APPLICABILITY_SYSTEM_PROMPT : str :=
  u "Tu es un expert en classification de documents juridiques.
Ta tâche est de classifier le document selon son applicabilité juridique et d'identifier son type précis.".

Definition types_text : str :=
  join [10]
    (flat_map (fun '(category, doc_types) =>
                 (fun dt => u "- " ++ category ++ [47] ++ dt) <$> doc_types)
              APPLICABILITY_CATEGORIES).

Definition applicability_prompt (content : str) (d : doc) : str :=
  let titre := default (PStr (u "Sans titre")) (d !! "titre") in
  let doc_type := default (PStr (u "inconnu")) (d !! "typologie") in
  let abstract := default (PStr []) (d !! "abstract") in
  u "Classifie ce document juridique selon son applicabilité ET son type précis.

**Titre**: "
    ++ py_str titre
    ++ u "
**Type déclaré**: "
    ++ py_str doc_type
    ++ u "
**Résumé**: "
    ++ py_str abstract
    ++ u "

**Contenu** (extrait):
"
    ++ content
    ++ u "

**Classifications possibles** (catégorie/type):
"
    ++ types_text
    ++ u "

**Instructions**:
1. Analyse le contenu et le type de document
2. Identifie la catégorie d'applicabilité:
- **information**: Document informatif sans force contraignante
- **obligation**: Texte juridiquement contraignant créant des obligations
- **jurisprudence**: Décision de justice ou interprétation judiciaire

3. Identifie le type de document précis parmi la liste fournie

4. Réponds UNIQUEMENT avec le format: catégorie/type
Exemples: "
    ++ [34]
    ++ u "obligation/Règlement"
    ++ [34]
    ++ u ", "
    ++ [34]
    ++ u "information/Circulaire"
    ++ [34]
    ++ u ", "
    ++ [34]
    ++ u "jurisprudence/Arrêt"
    ++ [34]
    ++ u "

Classification (catégorie/type):".

Definition _classify_applicability (content : str) (d : doc) : option str :=
  let content := excerpt content in
  response ← generate (applicability_prompt content d)
                      (Some APPLICABILITY_SYSTEM_PROMPT) Text;
  Some (classification_of response).

Definition _classify_themes (content : str) (d : doc) : list str :=
  let content := excerpt content in
  let titre := default (PStr (u "Sans titre")) (d !! "titre") in
  let doc_type := default (PStr (u "inconnu")) (d !! "typologie") in
  let abstract := default (PStr []) (d !! "abstract") in
  default DEFAULT_THEMES
    (classify content (py_str titre) (py_str doc_type) (py_str abstract)).

(** [read_content_from_file]; [fs] is the content of the readable files. *)
Definition read_content_from_file (fs : str -> option str) (filepath : pyval)
  : option str :=
  match filepath with
  | PStr ((_ :: _) as path) => fs path
  | _ => None
  end.

(** The three generated fields, or [None] where a generation call raises *)
Definition enrichment (content : str) (d : doc) : option doc :=
  summary ← _generate_one_shot_summary content d;
  applicability ← _classify_applicability content d;
  let themes := _classify_themes content d in
  Some ({[ "summary" := PStr summary;
           "applicability" := PStr applicability;
           "themes" := PList themes;
           "keywords" := PNone;
           "processing_status" := PStr (u "processed") ]} : doc).

Definition process_document (fs : str -> option str) (disk : bool)
  (t1 t2 : datetime) (st : store) (document_id : str) : bool * store :=
  match get_by_id st document_id with
  | None => (false, st)
  | Some d =>
      if bool_decide (d = ∅) then (false, st)
      else
        let content_path := get d "content" in
        if negb (truthy content_path) then (false, st)
        else
          match read_content_from_file fs content_path with
          | None => (false, st)
          | Some content =>
              if negb (nonempty content) then (false, st)
              else
                match enrichment content d with
                | Some updates =>
                    update_document disk t1 t2 st document_id updates
                | None =>
                    (false,
                     (update_processing_status disk t1 t2 st document_id
                        (u "error")).2)
                end
          end
  end.

End WithService.

End Processor.

(** ** The range scraper (eurlex_scraper.py)

    [scrape_daily_view] fetches a page; what it returns for a day is given
    by [daily_view].  The calls made and the pauses taken are recorded in
    the order they happen. *)

Module Scraper.

Import Repo.

Inductive Series := L | C.

(** An argument [date_from] or [date_to]: absent, a text or a datetime *)
Inductive date_arg :=
  | ANone
  | AStr (s : str)
  | ADateTime (t : datetime).

Inductive event :=
  | ScrapeDailyView (series : Series) (scrape_details : bool)
                    (target_date : datetime)
  | Sleep (seconds : N).

(** [t + timedelta(days=1)] *)
Definition next_day (t : datetime) : datetime :=
  DateTime (Pos.succ (dt_day t)) (dt_time t).

Section WithNetwork.
Context `{Runtime}.
Variable daily_view : Series -> bool -> datetime -> list doc.

(** The [while current_date <= end_date] loop *)
Equations? range_loop (series : Series) (scrape_details : bool)
  (current_date end_date : datetime) (all_documents : list doc)
  (trace : list event) : list doc * list event
  by wf (S (Pos.to_nat (dt_day end_date)) - Pos.to_nat (dt_day current_date))%nat lt :=
  range_loop series scrape_details current_date end_date all_documents trace
    with Sumbool.sumbool_of_bool (datetime_leb current_date end_date) := {
    | left Hle =>
        range_loop series scrape_details (next_day current_date) end_date
          (all_documents ++ daily_view series scrape_details current_date)
          (trace ++ [ScrapeDailyView series scrape_details current_date]
                 ++ (if datetime_ltb current_date end_date
                     then [Sleep 2] else []))
    | right _ => (all_documents, trace) }.
Proof.
  unfold datetime_leb, datetime_ltb in Hle.
  destruct current_date as [cd ct], end_date as [ed et]; simpl in *.
  apply negb_true_iff, orb_false_iff in Hle as [Hlt _].
  apply Pos.ltb_ge in Hlt. lia.
Qed.

(** The parsing of one bound; [None] is the early [return []]. *)
Definition parse_bound (default_date : datetime) (a : date_arg)
  : option datetime :=
  match a with
  | ANone => Some default_date
  | AStr s => strptime DATE_ONLY_FORMAT s
  | ADateTime t => Some t
  end.

(** [scrape_date_range]; [now] is the reading of the clock. *)
Definition scrape_date_range (now : datetime) (series : Series)
  (scrape_details : bool) (date_from date_to : date_arg)
  : list doc * list event :=
  match parse_bound now date_from with
  | None => ([], [])
  | Some start_date =>
      match parse_bound start_date date_to with
      | None => ([], [])
      | Some end_date =>
          let '(start_date, end_date) :=
            if datetime_ltb end_date start_date
            then (end_date, start_date) else (start_date, end_date) in
          range_loop series scrape_details start_date end_date [] []
      end
  end.

End WithNetwork.

End Scraper.

(** ** The other operations of the repository (csv_repository.py) *)

Module Queries.

Import Repo.

Section WithRuntime.
Context `{Runtime}.

(** The test of [get_pending_for_processing] on one record;
    [path_exists] is [os.path.exists]. *)
Definition is_pending (path_exists : str -> bool) (d : doc) : bool :=
  bool_decide (get d "processing_status" = PStr (u "pending"))
  && truthy (get d "content")
  && match get d "content" with
     | PStr p => path_exists p
     | _ => false
     end.

(** [get_pending_for_processing(limit)] for a non-negative [limit] *)
Definition get_pending_for_processing (path_exists : str -> bool)
  (st : store) (limit : nat) : list doc :=
  let documents := _read_all_documents true st in
  let pending := List.filter (is_pending path_exists) documents in
  take limit pending.

Definition count_by_source (st : store) (source : str) : nat :=
  let documents := _read_all_documents false st in
  length (List.filter (fun d => bool_decide (get d "source" = PStr source))
                      documents).

(** [delete_documents]: nothing catches what [_write_all_documents]
    raises, so the result is [None] where the write fails; the file is
    then what it was. *)
Definition delete_documents (disk : bool) (st : store)
  (document_ids : list str) : option (nat * store) :=
  match document_ids with
  | [] => Some (0%nat, st)
  | _ :: _ =>
      let id_set := PStr <$> document_ids in
      let documents := _read_all_documents false st in
      let remaining :=
        List.filter (fun d => negb (bool_decide (get d "id" ∈ id_set)))
                    documents in
      let deleted := (length documents - length remaining)%nat in
      if (0 <? deleted)%nat
      then st' ← _write_all_documents disk remaining; Some (deleted, st')
      else Some (deleted, st)
  end.

End WithRuntime.

End Queries.

(** ** Recent records (csv_repository.py, [get_recent]) *)

Module Recent.

Import Repo.

Section WithRuntime.
Context `{Runtime}.

(** The test of the loop on one record: a value that is not a date is
    passed over; a datetime cannot be compared with the cutoff date, which
    raises [TypeError] ([None]). *)
Definition recent_test (cutoff_date : positive) (d : doc) : option bool :=
  match get d "date" with
  | PDate doc_date => Some (cutoff_date <=? doc_date)%positive
  | PDateTime _ => None
  | _ => Some false
  end.

Fixpoint recent_loop (cutoff_date : positive) (documents : list doc)
  : option (list doc) :=
  match documents with
  | [] => Some []
  | d :: rest =>
      match recent_test cutoff_date d, recent_loop cutoff_date rest with
      | Some keep, Some recent => Some (if keep then d :: recent else recent)
      | _, _ => None
      end
  end.

(** The key of the sort; every record of [recent] has a date. *)
Definition date_key (d : doc) : datetime :=
  match get d "date" with
  | PDate doc_date => DateTime doc_date 0
  | _ => datetime_min
  end.

(** [get_recent(days, limit)] for non-negative [days] and [limit]; [now]
    is the reading of the clock.  The subtraction raises [OverflowError]
    when it leaves the calendar. *)
Definition get_recent (now : datetime) (st : store) (days limit : nat)
  : option (list doc) :=
  if bool_decide (Z.pos (dt_day now) - Z.of_nat days < 1)%Z then None
  else
    let cutoff_date := Z.to_pos (Z.pos (dt_day now) - Z.of_nat days) in
    let documents := _read_all_documents true st in
    recent ← recent_loop cutoff_date documents;
    Some (take limit (sort_desc date_key recent)).

End WithRuntime.

End Recent.

(** ** Chunks of a text (llm_service.py, [chunk_text]) *)

Module Chunking.

Import Service.

(** [text.split(sep)] for a non-empty [sep]: the text is scanned from the
    left, [part] holds the part being read, in reverse, and [skip] counts
    the characters of an occurrence of [sep] still to be passed over. *)
Fixpoint split_from (sep : str) (skip : nat) (part : str) (s : str)
  : list str :=
  match s with
  | [] => [reverse part]
  | c :: s' =>
      match skip with
      | S k => split_from sep k part s'
      | O =>
          if startswith sep s
          then reverse part :: split_from sep (pred (length sep)) [] s'
          else split_from sep 0 (c :: part) s'
      end
  end.

Definition split_str (sep : str) (s : str) : list str :=
  split_from sep 0 [] s.

Definition PARAGRAPH_BREAK : str := [10; 10].

(** The chunks closed so far, with the current one added when it is not
    empty *)
Definition closed (chunks : list str) (current_chunk : list str) : list str :=
  match current_chunk with
  | [] => chunks
  | _ :: _ => chunks ++ [join PARAGRAPH_BREAK current_chunk]
  end.

(** The loop over the paragraphs *)
Fixpoint chunk_loop (max_chunk_tokens : Z) (paragraphs : list str)
  (chunks : list str) (current_chunk : list str) (current_tokens : nat)
  : list str * list str :=
  match paragraphs with
  | [] => (chunks, current_chunk)
  | para :: rest =>
      let para_tokens := count_tokens para in
      if (max_chunk_tokens <? Z.of_nat (current_tokens + para_tokens))%Z
      then chunk_loop max_chunk_tokens rest (closed chunks current_chunk)
                      [para] para_tokens
      else chunk_loop max_chunk_tokens rest chunks (current_chunk ++ [para])
                      (current_tokens + para_tokens)
  end.

Definition chunk_text (text : str) (max_chunk_tokens : Z) : list str :=
  let paragraphs := split_str PARAGRAPH_BREAK text in
  let '(chunks, current_chunk) :=
    chunk_loop max_chunk_tokens paragraphs [] [] 0 in
  closed chunks current_chunk.

End Chunking.

(** ** The typology of a JORF act (jorf_scraper.py, document_types.py) *)

Module Jorf.

(** The values of [JORFTypology] *)
Definition AVIS : str := u "Avis".
Definition DECRET : str := u "Décret".
Definition ARRETE : str := u "Arrêté".
Definition DECISION : str := u "Décision".
Definition INFORMATION : str := u "Information".
Definition COMMUNICATION : str := u "Communication".
Definition ANNONCE : str := u "Annonce".
Definition AUTRE : str := u "Autre".

Definition _determine_typology (full_text : str) : str :=
  match List.find (fun typo => contains typo full_text)
                  [DECRET; ARRETE; DECISION; AVIS] with
  | Some typo => typo
  | None =>
      if contains (u "Demandes de changement de nom") full_text
      then ANNONCE
      else if existsb (fun x => contains x full_text)
                [u "Commissions et organes"; u "Documents et publications";
                 u "Informations diverses"]
      then INFORMATION
      else if contains (u "Avis relatif à") full_text
              || contains (u "Avis de") full_text
      then COMMUNICATION
      else AUTRE
  end.

End Jorf.

(** * Properties *)

(** ** Facts about strings *)

Section StrFacts.

Lemma startswith_single (c : char) (s : str) :
  startswith [c] s = match s with [] => false | x :: _ => c =? x end.
Proof. destruct s as [|x s]; simpl; [done|]. by rewrite andb_true_r. Qed.

Lemma contains_single_elem (c : char) (s : str) :
  contains [c] s = true <-> c ∈ s.
Proof.
  induction s as [|x s IH].
  - simpl. split; [done|]. by intros ?%elem_of_nil.
  - cbn [contains]. rewrite startswith_single, orb_true_iff, IH, elem_of_cons.
    rewrite N.eqb_eq. done.
Qed.

Lemma split_once_app (c : char) (a b : str) :
  c ∉ a -> split_once c (a ++ c :: b) = (a, b).
Proof.
  induction a as [|x a IH]; intros Hnot; simpl.
  - by rewrite N.eqb_refl.
  - apply not_elem_of_cons in Hnot as [Hne Hnot].
    destruct (N.eqb_spec x c) as [->|_]; [done|].
    by rewrite IH.
Qed.

Lemma elem_of_split_first (c : char) (s : str) :
  c ∈ s -> exists a b, s = a ++ c :: b /\ c ∉ a.
Proof.
  induction s as [|x s IH]; [by intros ?%elem_of_nil|].
  intros Hin. destruct (decide (x = c)) as [->|Hne].
  - exists [], s. split; [done|]. apply not_elem_of_nil.
  - apply elem_of_cons in Hin as [->|Hin]; [done|].
    destruct (IH Hin) as (a & b & -> & Hnot).
    exists (x :: a), b. split; [done|].
    apply not_elem_of_cons. split; [congruence|done].
Qed.

Lemma find_first_match {A B} `{EqDecision B} (f : A -> B) (y : B)
  (l : list A) (t : A) :
  NoDup (f <$> l) -> t ∈ l -> f t = y ->
  List.find (fun v => bool_decide (f v = y)) l = Some t.
Proof.
  induction l as [|x l IH]; [by intros _ ?%elem_of_nil|].
  rewrite fmap_cons, NoDup_cons. intros [Hx Hnd] Hin Hy. simpl.
  apply elem_of_cons in Hin as [->|Hin].
  - by rewrite bool_decide_eq_true_2.
  - rewrite bool_decide_eq_false_2; [by apply IH|].
    intros Hfx. apply Hx. rewrite Hfx, <- Hy.
    by apply list_elem_of_fmap_2.
Qed.

Lemma find_no_match {A B} `{EqDecision B} (f : A -> B) (y : B) (l : list A) :
  (forall t, t ∈ l -> f t <> y) ->
  List.find (fun v => bool_decide (f v = y)) l = None.
Proof.
  induction l as [|x l IH]; [done|]. intros Hno. simpl.
  rewrite bool_decide_eq_false_2; [|apply Hno; left].
  apply IH. intros t Ht. apply Hno. by right.
Qed.

End StrFacts.

(** ** Applicability classification *)

Module ApplicabilityFacts.

Import Processor.

(** The cleaned answer reads [a/b], [a] being the text before the first
    slash. *)
Definition has_form (response a b : str) : Prop :=
  clean_response response = a ++ [47] ++ b /\ 47 ∉ a.

(** No reading [a/b] of the cleaned answer names a category. *)
Definition unparseable (response : str) : Prop :=
  forall a b, has_form response a b ->
    lookup_category APPLICABILITY_CATEGORIES (strip (lower a)) = None.

Definition mentions (category response : str) : bool :=
  contains category (lower (clean_response response)).

Lemma classification_of_form (response a b : str) :
  has_form response a b ->
  classification_of response =
    match lookup_category APPLICABILITY_CATEGORIES (strip (lower a)) with
    | Some valid_types =>
        strip (lower a) ++ [47]
          ++ default (hd [] valid_types) (match_type valid_types (strip b))
    | None =>
        match fallback_category (lower (clean_response response)) with
        | Some category =>
            category ++ [47]
              ++ hd [] (default [] (lookup_category APPLICABILITY_CATEGORIES category))
        | None => u "information/Avis"
        end
    end.
Proof.
  intros [Hclean Hnot]. unfold classification_of.
  assert (contains [47] (clean_response response) = true) as ->.
  { apply contains_single_elem. rewrite Hclean. set_solver. }
  rewrite Hclean at 1. simpl app at 1. rewrite split_once_app by done.
  destruct (lookup_category _ _) as [valid_types|]; [|done].
  by destruct (match_type _ _).
Qed.

Lemma classification_of_unparseable (response : str) :
  unparseable response ->
  classification_of response =
    match fallback_category (lower (clean_response response)) with
    | Some category =>
        category ++ [47]
          ++ hd [] (default [] (lookup_category APPLICABILITY_CATEGORIES category))
    | None => u "information/Avis"
    end.
Proof.
  intros Hun.
  destruct (contains [47] (clean_response response)) eqn:Hslash.
  - apply contains_single_elem, elem_of_split_first in Hslash
      as (a & b & Hclean & Hnot).
    rewrite (classification_of_form response a b) by done.
    by rewrite (Hun a b).
  - unfold classification_of. by rewrite Hslash.
Qed.

Lemma no_slash_unparseable (response : str) :
  contains [47] (clean_response response) = false -> unparseable response.
Proof.
  intros Hno a b [Hclean _]. exfalso.
  assert (contains [47] (clean_response response) = true); [|congruence].
  apply contains_single_elem. rewrite Hclean. set_solver.
Qed.

Lemma valid_types_nodup (category : str) (valid_types : list str) :
  lookup_category APPLICABILITY_CATEGORIES category = Some valid_types ->
  NoDup (lower <$> valid_types).
Proof.
  unfold APPLICABILITY_CATEGORIES. cbn [lookup_category].
  repeat case_bool_decide; intros Heq; try discriminate Heq;
    injection Heq as <-; apply (bool_decide_unpack _); vm_compute; exact I.
Qed.

(** C3, as the code has it: an answer [obligation/Règlement] is kept; an
    answer [category/type] naming a category keeps the category and takes
    the subtype of its list that equals [type] up to case, or the first
    subtype of the list when none does; an answer that cannot be read so
    and mentions jurisprudence, and does not mention obligation, becomes
    jurisprudence with its first subtype; one that mentions no category
    becomes [information/Avis]. *)
Theorem applicability_of_response :
  classification_of (u "obligation/Règlement") = u "obligation/Règlement"
  /\ (forall response a b valid_types,
        has_form response a b ->
        lookup_category APPLICABILITY_CATEGORIES (strip (lower a))
          = Some valid_types ->
        (forall t, t ∈ valid_types -> lower t = lower (strip b) ->
           classification_of response = strip (lower a) ++ [47] ++ t)
        /\ ((forall t, t ∈ valid_types -> lower t <> lower (strip b)) ->
           classification_of response
             = strip (lower a) ++ [47] ++ hd [] valid_types))
  /\ (forall response,
        unparseable response ->
        mentions (u "jurisprudence") response = true ->
        mentions (u "obligation") response = false ->
        classification_of response = u "jurisprudence/Arrêt")
  /\ (forall response,
        unparseable response ->
        mentions (u "obligation") response = false ->
        mentions (u "jurisprudence") response = false ->
        mentions (u "information") response = false ->
        classification_of response = u "information/Avis").
Proof.
  split; [by vm_compute|]. split; [|split].
  - intros response a b valid_types Hform Hlookup.
    rewrite (classification_of_form response a b Hform), Hlookup. split.
    + intros t Hin Hlow. unfold match_type.
      rewrite (find_first_match lower (lower (strip b)) valid_types t);
        eauto using valid_types_nodup.
    + intros Hno. unfold match_type. by rewrite find_no_match.
  - intros response Hun Hj Ho.
    rewrite classification_of_unparseable by done.
    unfold mentions in *. unfold fallback_category. cbn [List.find].
    rewrite Ho, Hj. by vm_compute.
  - intros response Hun Ho Hj Hi.
    rewrite classification_of_unparseable by done.
    unfold mentions in *. unfold fallback_category. cbn [List.find].
    by rewrite Ho, Hj, Hi.
Qed.

Lemma applicability_of_response_witness :
  classification_of (u "Obligation/règlement") = u "obligation/Règlement"
  /\ classification_of (u "obligation/Ordonnance") = u "obligation/Loi"
  /\ classification_of (u "Il s'agit de jurisprudence") = u "jurisprudence/Arrêt"
  /\ classification_of (u "Je ne sais pas") = u "information/Avis".
Proof.
  destruct applicability_of_response as (_ & Hform & Hjur & Hnone).
  split; [|split; [|split]].
  - refine (proj1 (Hform (u "Obligation/règlement") (u "Obligation")
                     (u "règlement") _ _ _) (u "Règlement") _ _).
    + split; [by vm_compute|]. by apply (bool_decide_unpack _); vm_compute.
    + by vm_compute.
    + by apply (bool_decide_unpack _); vm_compute.
    + by vm_compute.
  - refine (proj2 (Hform (u "obligation/Ordonnance") (u "obligation")
                     (u "Ordonnance")
                     [u "Loi"; u "Règlement"; u "Décret"; u "Arrêté";
                      u "Convention"] _ _) _).
    + split; [by vm_compute|]. by apply (bool_decide_unpack _); vm_compute.
    + by vm_compute.
    + apply Forall_forall. by apply (bool_decide_unpack _); vm_compute.
  - apply Hjur; [apply no_slash_unparseable| |]; by vm_compute.
  - apply Hnone; [apply no_slash_unparseable| | |]; by vm_compute.
Defined.

(** The claim as written fails: an answer that mentions obligation before
    the code looks for jurisprudence is stored as an obligation. *)
Lemma applicability_jurisprudence_counterexample :
  unparseable (u "obligation ou jurisprudence")
  /\ mentions (u "jurisprudence") (u "obligation ou jurisprudence") = true
  /\ classification_of (u "obligation ou jurisprudence") = u "obligation/Loi"
  /\ classification_of (u "obligation ou jurisprudence")
       <> u "jurisprudence/Arrêt".
Proof.
  split; [apply no_slash_unparseable; by vm_compute|].
  split; [by vm_compute|]. split; [by vm_compute|].
  by apply (bool_decide_unpack _); vm_compute.
Qed.

End ApplicabilityFacts.

(** ** One-shot summary *)

Module SummaryFacts.

Import Processor.

(** The text [_generate_one_shot_summary] puts in the prompt. *)
Definition sent_content (limit : nat) (content : str) : str :=
  if bool_decide (limit < count_tokens content)%nat
  then prefix_of (limit * 4) content ++ TRUNCATION_MARKER
  else content.

Lemma truncated_prefix_length (limit : nat) (content : str) :
  (limit < count_tokens content)%nat ->
  len (prefix_of (limit * 4) content) = (limit * 4)%nat.
Proof.
  unfold count_tokens, len, prefix_of. intros Hlt.
  rewrite length_take. apply Nat.min_l.
  pose proof (Nat.div_mod_eq (length content) 4). lia.
Qed.


Definition constant_service (response : str) : LLMService :=
  {| generate := fun _ _ _ => Some response;
     classify := fun _ _ _ _ => None |}.



End SummaryFacts.

(** ** Range scraping *)

Module RangeFacts.

Import Repo Scraper.

(** [n] consecutive days from [t] on, at the time of day of [t] *)
Fixpoint days_from (t : datetime) (n : nat) : list datetime :=
  match n with
  | O => []
  | S n' => t :: days_from (next_day t) n'
  end.

(** One call per day, a pause of two seconds between two days *)
Fixpoint day_trace (series : Series) (scrape_details : bool)
  (days : list datetime) : list event :=
  match days with
  | [] => []
  | d :: days' =>
      ScrapeDailyView series scrape_details d
        :: match days' with
           | [] => []
           | _ :: _ => Sleep 2 :: day_trace series scrape_details days'
           end
  end.

Section WithNetwork.
Context `{Runtime}.
Variable daily_view : Series -> bool -> datetime -> list doc.

Lemma range_loop_unfold series sd cur en acc tr :
  range_loop daily_view series sd cur en acc tr =
  if datetime_leb cur en
  then range_loop daily_view series sd (next_day cur) en
         (acc ++ daily_view series sd cur)
         (tr ++ [ScrapeDailyView series sd cur]
             ++ (if datetime_ltb cur en then [Sleep 2] else []))
  else (acc, tr).
Proof.
  rewrite range_loop_equation_1.
  destruct (Sumbool.sumbool_of_bool (datetime_leb cur en)) as [E|E].
  - rewrite range_loop_clause_1_equation_1. by rewrite E.
  - rewrite range_loop_clause_1_equation_2. by rewrite E.
Qed.

Lemma datetime_ltb_same_time (a b : datetime) :
  dt_time a = dt_time b ->
  datetime_ltb a b = (dt_day a <? dt_day b)%positive.
Proof.
  intros Ht. unfold datetime_ltb. rewrite Ht, N.ltb_irrefl, andb_false_r.
  apply orb_false_r.
Qed.

Lemma range_loop_days series sd (n : nat) :
  forall cur en acc tr,
    dt_time cur = dt_time en ->
    (Pos.to_nat (dt_day en) + 1 = Pos.to_nat (dt_day cur) + n)%nat ->
    range_loop daily_view series sd cur en acc tr
    = (acc ++ flat_map (daily_view series sd) (days_from cur n),
       tr ++ day_trace series sd (days_from cur n)).
Proof.
  induction n as [|n IH]; intros cur en acc tr Ht Hn;
    rewrite range_loop_unfold; unfold datetime_leb;
    rewrite (datetime_ltb_same_time en cur) by done.
  - rewrite (proj2 (Pos.ltb_lt _ _)) by lia. simpl.
    by rewrite !app_nil_r.
  - rewrite (proj2 (Pos.ltb_ge _ _)) by lia. cbn [negb].
    rewrite (datetime_ltb_same_time cur en) by done.
    rewrite IH; [|done|simpl; lia].
    cbn [days_from flat_map day_trace]. rewrite <- !app_assoc. f_equal.
    destruct n as [|n].
    + rewrite (proj2 (Pos.ltb_ge _ _)) by lia. done.
    + rewrite (proj2 (Pos.ltb_lt _ _)) by lia. done.
Qed.

End WithNetwork.

Lemma days_from_length (t : datetime) (n : nat) :
  length (days_from t n) = n.
Proof. revert t. induction n as [|n IH]; intros t; simpl; [done|]. by rewrite IH. Qed.

Lemma days_from_last (t : datetime) (n : nat) :
  last (days_from t (S n))
  = Some (DateTime (Pos.of_nat (Pos.to_nat (dt_day t) + n)) (dt_time t)).
Proof.
  revert t. induction n as [|n IH]; intros [d tm].
  - simpl. by rewrite Nat.add_0_r, Pos2Nat.id.
  - change (days_from (DateTime d tm) (S (S n)))
      with (DateTime d tm :: days_from (next_day (DateTime d tm)) (S n)).
    rewrite last_cons, IH. simpl. do 2 f_equal. lia.
Qed.



End RangeFacts.

(** ** The repository *)

Module RepoFacts.

Import Repo.

Section WithRuntime.
Context `{Runtime}.

Lemma get_raw_doc (r : row) (k : string) :
  get (raw_doc r) k = from_option PStr PNone (r !! k).
Proof. unfold get, raw_doc. rewrite lookup_fmap. by destruct (r !! k). Qed.

Lemma raw_id_matches (r : row) (document_id : str) :
  get (raw_doc r) "id" = PStr document_id <-> r !! "id" = Some document_id.
Proof.
  rewrite get_raw_doc. destruct (r !! "id") as [s|]; simpl; [|done].
  split; congruence.
Qed.

Lemma find_raw_absent (st : store) (document_id : str) :
  Forall (fun r : row => r !! "id" <> Some document_id) st ->
  list_find (fun d => get d "id" = PStr document_id)
            (_read_all_documents false st) = None.
Proof.
  intros Habs. apply list_find_None. unfold _read_all_documents.
  apply Forall_fmap. eapply Forall_impl; [exact Habs|].
  intros r Hr. simpl. by rewrite raw_id_matches.
Qed.

End WithRuntime.

(** C8: for an id that no stored record carries, [update_document] returns
    false and the rows of the file are what they were. *)
Theorem update_document_absent `{Runtime} (disk : bool) (t1 t2 : datetime)
  (st : store) (document_id : str) (updates : doc) :
  Forall (fun r : row => r !! "id" <> Some document_id) st ->
  update_document disk t1 t2 st document_id updates = (false, st).
Proof.
  intros Habs. unfold update_document. by rewrite find_raw_absent.
Qed.

Lemma update_document_absent_witness :
  @update_document IsoRuntime.runtime true (DateTime 738946 0)
    (DateTime 738946 1000000)
    [ {[ "id" := u "32024R0001"; "titre" := u "Règlement" ]} ]
    (u "32024R0002") {[ "titre" := PStr (u "Autre") ]}
  = (false, [ {[ "id" := u "32024R0001"; "titre" := u "Règlement" ]} ]).
Proof.
  apply (@update_document_absent IsoRuntime.runtime).
  apply (bool_decide_unpack _). by vm_compute.
Defined.

End RepoFacts.

(** ** Listing by creation time *)

Module SortFacts.

Import Repo.

Definition dt_le (a b : datetime) : Prop := datetime_leb a b = true.

Ltac dt_cases :=
  unfold dt_le, datetime_leb, datetime_ltb in *; simpl in *;
  repeat match goal with
         | |- context [(?a <? ?b)%positive] => destruct (Pos.ltb_spec a b)
         | |- context [(?a =? ?b)%positive] => destruct (Pos.eqb_spec a b)
         | |- context [?a <? ?b] => destruct (N.ltb_spec a b)
         | H : context [(?a <? ?b)%positive] |- _ => destruct (Pos.ltb_spec a b)
         | H : context [(?a =? ?b)%positive] |- _ => destruct (Pos.eqb_spec a b)
         | H : context [?a <? ?b] |- _ => destruct (N.ltb_spec a b)
         end;
  simpl in *; try done; try lia.

Lemma dt_le_trans (a b c : datetime) : dt_le a b -> dt_le b c -> dt_le a c.
Proof. destruct a, b, c. intros Hab Hbc. dt_cases. Qed.

Lemma dt_le_of_not_lt (a b : datetime) : datetime_ltb a b = false -> dt_le b a.
Proof. unfold dt_le, datetime_leb. by intros ->. Qed.

Lemma dt_lt_le (a b : datetime) : datetime_ltb a b = true -> dt_le a b.
Proof. destruct a, b. intros Hab. dt_cases. Qed.

Lemma dt_lt_not_le (a b : datetime) : datetime_ltb a b = true -> ~ dt_le b a.
Proof. unfold dt_le, datetime_leb. by intros ->. Qed.

Section Sorting.
Context {A : Type} (key : A -> datetime).

(** [x] may stand before [y] in a list sorted newest first. *)
Definition newer (x y : A) : Prop := dt_le (key y) (key x).

Lemma insert_desc_perm (x : A) (l : list A) : insert_desc key x l ≡ₚ x :: l.
Proof.
  induction l as [|y l IH]; simpl; [done|].
  destruct (datetime_ltb (key x) (key y)); [|done].
  by rewrite IH, Permutation_swap.
Qed.

Lemma sort_desc_perm (l : list A) : sort_desc key l ≡ₚ l.
Proof.
  induction l as [|x l IH]; simpl; [done|].
  by rewrite insert_desc_perm, IH.
Qed.

Lemma insert_desc_sorted (x : A) (l : list A) :
  StronglySorted newer l -> StronglySorted newer (insert_desc key x l).
Proof.
  induction 1 as [|y l Hsorted IH Hall]; simpl.
  - by repeat constructor.
  - destruct (datetime_ltb (key x) (key y)) eqn:Hlt.
    + constructor; [done|].
      rewrite insert_desc_perm. constructor; [|done].
      by apply dt_lt_le.
    + constructor; [by constructor|].
      assert (newer x y) as Hxy by by apply dt_le_of_not_lt.
      constructor; [done|].
      eapply Forall_impl; [exact Hall|].
      intros z Hyz. unfold newer in *. by eapply dt_le_trans.
Qed.

Lemma sort_desc_sorted (l : list A) : StronglySorted newer (sort_desc key l).
Proof.
  induction l as [|x l IH]; simpl; [constructor|].
  by apply insert_desc_sorted.
Qed.

Lemma sorted_lookup (l : list A) (i j : nat) (a b : A) :
  StronglySorted newer l -> (i < j)%nat ->
  l !! i = Some a -> l !! j = Some b -> newer a b.
Proof.
  intros Hsorted. revert i j.
  induction Hsorted as [|x l Hsorted IH Hall]; intros i j Hij Hi Hj; [done|].
  destruct j as [|j]; [lia|]. simpl in Hj.
  destruct i as [|i]; simpl in Hi.
  - injection Hi as ->. rewrite Forall_forall in Hall.
    apply Hall. by eapply list_elem_of_lookup_2.
  - apply (IH i j); [lia|done|done].
Qed.

End Sorting.

(** The creation time of a record read from the file, where it parsed *)
Definition created_at_of (d : doc) : option datetime :=
  match d !! "created_at" with
  | Some (PDateTime t) => Some t
  | _ => None
  end.

Lemma safe_sort_key_created_at (d : doc) :
  safe_sort_key d = default datetime_min (created_at_of d).
Proof.
  unfold safe_sort_key, created_at_of.
  by destruct (d !! "created_at") as [[]|].
Qed.

(** C7, as the code has it: [get_all] sorts the records read from the file
    by creation time, newest first, and returns the slice from [skip] to
    [skip + limit] of that sequence; a record whose creation time is
    missing or did not parse stands after every record whose creation time
    is later than [datetime.min], the key the code gives it. *)
Theorem get_all_sorted_slice `{Runtime} (st : store) (skip limit : nat) :
  exists sorted : list doc,
    get_all st skip limit = take limit (drop skip sorted)
    /\ sorted ≡ₚ _read_all_documents true st
    /\ (forall i j di dj ti tj,
          (i < j)%nat -> sorted !! i = Some di -> sorted !! j = Some dj ->
          created_at_of di = Some ti -> created_at_of dj = Some tj ->
          datetime_leb tj ti = true)
    /\ (forall i j di dj tj,
          sorted !! i = Some di -> sorted !! j = Some dj ->
          created_at_of di = None -> created_at_of dj = Some tj ->
          datetime_ltb datetime_min tj = true ->
          (j < i)%nat).
Proof.
  exists (sort_desc safe_sort_key (_read_all_documents true st)).
  split; [done|]. split; [apply sort_desc_perm|].
  pose proof (sort_desc_sorted safe_sort_key (_read_all_documents true st))
    as Hsorted.
  split.
  - intros i j di dj ti tj Hij Hi Hj Hti Htj.
    pose proof (sorted_lookup _ _ i j di dj Hsorted Hij Hi Hj) as Hnew.
    unfold newer in Hnew. rewrite !safe_sort_key_created_at in Hnew.
    by rewrite Hti, Htj in Hnew.
  - intros i j di dj tj Hi Hj Hnone Htj Hlate.
    destruct (decide (j < i)%nat) as [|Hge]; [done|]. exfalso.
    assert (i <> j) as Hne by (intros ->; congruence).
    pose proof (sorted_lookup _ _ i j di dj Hsorted ltac:(lia) Hi Hj) as Hnew.
    unfold newer in Hnew. rewrite !safe_sort_key_created_at in Hnew.
    rewrite Hnone, Htj in Hnew. simpl in Hnew.
    by apply (dt_lt_not_le _ _ Hlate).
Qed.

Definition listing_example : store :=
  [ {[ "id" := u "A"; "created_at" := u "inconnu" ]};
    {[ "id" := u "B"; "created_at" := u "2024-03-01 08:00:00" ]};
    {[ "id" := u "C"; "created_at" := u "2024-03-02 08:00:00" ]} ].

Lemma get_all_sorted_slice_witness :
  (fun d => get d "id") <$> @get_all IsoRuntime.runtime listing_example 0 3
  = [PStr (u "C"); PStr (u "B"); PStr (u "A")]
  /\ exists sorted : list doc,
       @get_all IsoRuntime.runtime listing_example 1 1
         = take 1 (drop 1 sorted)
       /\ sorted ≡ₚ @_read_all_documents IsoRuntime.runtime true listing_example.
Proof.
  split; [by vm_compute|].
  destruct (@get_all_sorted_slice IsoRuntime.runtime listing_example 1 1)
    as (sorted & Hslice & Hperm & _).
  by exists sorted.
Defined.

(** The claim as written fails: a creation time that parses to
    [datetime.min] has the key of an unparsable one, and the sort keeps
    the two in file order. *)
Lemma get_all_min_counterexample :
  let st : store :=
    [ {[ "id" := u "A"; "created_at" := u "inconnu" ]};
      {[ "id" := u "B"; "created_at" := u "0001-01-01 00:00:00" ]} ] in
  exists dA dB,
    @get_all IsoRuntime.runtime st 0 2 = [dA; dB]
    /\ dA !! "created_at" = Some (PStr (u "inconnu"))
    /\ dB !! "created_at" = Some (PDateTime datetime_min).
Proof.
  intros st. eexists _, _. split; [reflexivity|]. split; by vm_compute.
Qed.

End SortFacts.

(** ** Preparing and writing a record *)

Module PrepareFacts.

Import Repo.

Lemma lookup_keyed_map {V} (g : string -> V) (l : list string) (k : string) :
  (list_to_map ((fun f => (f, g f)) <$> l) : gmap string V) !! k
  = if bool_decide (k ∈ l) then Some (g k) else None.
Proof.
  induction l as [|f l IH].
  - change (list_to_map ((fun f => (f, g f)) <$> [])) with (∅ : gmap string V).
    rewrite lookup_empty. by case_bool_decide as Hin; [apply elem_of_nil in Hin|].
  - rewrite fmap_cons, list_to_map_cons.
    destruct (decide (f = k)) as [->|Hne].
    + rewrite lookup_insert_eq. rewrite bool_decide_eq_true_2; [done|by left].
    + rewrite lookup_insert_ne, IH by done.
      apply (f_equal (fun b : bool => if b then Some (g k) else None)).
      apply bool_decide_ext. rewrite elem_of_cons. split; [by right|].
      by intros [?|?].
Qed.

Lemma lookup_foldr_alter {V} (f : V -> V) (ks : list string)
  (d : gmap string V) (k : string) :
  NoDup ks ->
  foldr (alter f) d ks !! k
  = if bool_decide (k ∈ ks) then f <$> d !! k else d !! k.
Proof.
  induction 1 as [|x ks Hx Hnd IH]; simpl.
  - done.
  - rewrite lookup_alter. destruct (decide (x = k)) as [->|Hxk].
    + rewrite IH, bool_decide_eq_false_2 by done.
      rewrite bool_decide_eq_true_2; [done|by left].
    + rewrite IH.
      apply (f_equal (fun b : bool => if b then f <$> d !! k else d !! k)).
      apply bool_decide_ext. rewrite elem_of_cons. split; [by right|].
      by intros [?|?].
Qed.

Lemma fieldnames_nodup : NoDup fieldnames.
Proof. apply (bool_decide_unpack _). by vm_compute. Qed.

Lemma text_fields_nodup : NoDup text_fields.
Proof. apply (bool_decide_unpack _). by vm_compute. Qed.

(** The keys of a dictionary are columns of the file. *)
Definition known_keys {V} (m : gmap string V) : Prop :=
  forall k, is_Some (m !! k) -> k ∈ fieldnames.

Section WithRuntime.
Context `{Runtime}.

Lemma blank_lookup (k : string) :
  blank_document !! k
  = if bool_decide (k ∈ fieldnames) then Some (PStr []) else None.
Proof. exact (lookup_keyed_map (fun _ => PStr []) fieldnames k). Qed.

(** What the formatting steps make of the value under key [k] *)
Definition normalise (k : string) (v : pyval) : pyval :=
  let v := if bool_decide (k ∈ text_fields) then escape_value v else v in
  let v := if bool_decide (k = "content"%string) then path_value v else v in
  let v := format_date k v in
  let v := if bool_decide (k = "keywords"%string) then join_value v else v in
  if bool_decide (k = "themes"%string) then join_value v else v.

Definition staged (d : doc) : doc :=
  alter join_value "themes"
    (alter join_value "keywords"
       (map_imap (fun k v => Some (format_date k v))
          (alter path_value "content"
             (foldr (alter escape_value) d text_fields)))).

Lemma lookup_alter_at {V} (f : V -> V) (i j : string) (m : gmap string V) :
  alter f i m !! j = (if bool_decide (j = i) then f else id) <$> m !! j.
Proof.
  rewrite lookup_alter. destruct (decide (i = j)) as [->|Hne].
  - by rewrite bool_decide_eq_true_2.
  - rewrite bool_decide_eq_false_2 by congruence. by rewrite option_fmap_id.
Qed.

Lemma staged_lookup (d : doc) (k : string) :
  staged d !! k = normalise k <$> d !! k.
Proof.
  unfold staged, normalise.
  rewrite !lookup_alter_at, map_lookup_imap, lookup_alter_at.
  rewrite lookup_foldr_alter by apply text_fields_nodup.
  destruct (d !! k) as [v|]; simpl; [|by repeat case_bool_decide].
  by repeat case_bool_decide.
Qed.

(** The rest of [_prepare_doc_for_write], from [document.update] on *)
Definition finish (now : datetime) (doc_data : doc) : doc :=
  let document := doc_data ∪ blank_document in
  let now_str := PStr (strftime DATE_FORMAT now) in
  let document :=
    <["processing_status" :=
        default (PStr (u "pending")) (doc_data !! "processing_status")]>
      document in
  let document :=
    match document !! "date" with
    | None => <["date" := PStr []]> document
    | Some _ => document
    end in
  let document :=
    <["created_at" := default now_str (document !! "created_at")]>
      document in
  let document := <["updated_at" := now_str]> document in
  if needs_processed_stamp document
  then <["processed" := now_str]> document
  else document.

Lemma prepare_unfold (now : datetime) (d : doc) :
  _prepare_doc_for_write now d
  = if truthy (get d "id") then Some (finish now (staged d)) else None.
Proof. unfold _prepare_doc_for_write. by destruct (truthy (get d "id")). Qed.

Lemma base_lookup (d : doc) (k : string) :
  (d ∪ blank_document) !! k
  = match d !! k with
    | Some v => Some v
    | None => if bool_decide (k ∈ fieldnames) then Some (PStr []) else None
    end.
Proof.
  rewrite lookup_union, blank_lookup.
  destruct (d !! k); simpl; [|by case_bool_decide].
  by case_bool_decide.
Qed.

(** The document before the stamp of [processed] *)
Definition unstamped (now : datetime) (d : doc) : doc :=
  <["updated_at" := PStr (strftime DATE_FORMAT now)]>
    (<["created_at" := default (PStr []) (d !! "created_at")]>
       (<["processing_status" :=
            default (PStr (u "pending")) (d !! "processing_status")]>
          (d ∪ blank_document))).

Lemma finish_unstamped (now : datetime) (d : doc) :
  finish now d
  = if needs_processed_stamp (unstamped now d)
    then <["processed" := PStr (strftime DATE_FORMAT now)]> (unstamped now d)
    else unstamped now d.
Proof.
  unfold finish, unstamped.
  assert ((<["processing_status" :=
              default (PStr (u "pending")) (d !! "processing_status")]>
             (d ∪ blank_document)) !! "date"
          = Some (default (PStr []) (d !! "date"))) as Hdate.
  { rewrite lookup_insert_ne by done. rewrite base_lookup.
    by destruct (d !! "date"). }
  rewrite Hdate.
  assert ((<["processing_status" :=
              default (PStr (u "pending")) (d !! "processing_status")]>
             (d ∪ blank_document)) !! "created_at"
          = Some (default (PStr []) (d !! "created_at"))) as Hcreated.
  { rewrite lookup_insert_ne by done. rewrite base_lookup.
    by destruct (d !! "created_at"). }
  by rewrite Hcreated.
Qed.

Lemma unstamped_lookup (now : datetime) (d : doc) (k : string) :
  unstamped now d !! k
  = if bool_decide (k = "updated_at"%string)
    then Some (PStr (strftime DATE_FORMAT now))
    else if bool_decide (k = "processing_status"%string)
    then Some (default (PStr (u "pending")) (d !! k))
    else match d !! k with
         | Some v => Some v
         | None => if bool_decide (k ∈ fieldnames) then Some (PStr []) else None
         end.
Proof.
  unfold unstamped.
  case_bool_decide as Hu; [subst; by rewrite lookup_insert_eq|].
  rewrite lookup_insert_ne by done.
  destruct (decide (k = "created_at"%string)) as [->|Hc].
  { rewrite lookup_insert_eq. simpl. by destruct (d !! "created_at"). }
  rewrite lookup_insert_ne by done.
  case_bool_decide as Hp; [subst; by rewrite lookup_insert_eq|].
  rewrite lookup_insert_ne by done. apply base_lookup.
Qed.

Lemma finish_lookup (now : datetime) (d : doc) (k : string) :
  finish now d !! k
  = if bool_decide (k = "processed"%string)
       && needs_processed_stamp (unstamped now d)
    then Some (PStr (strftime DATE_FORMAT now))
    else unstamped now d !! k.
Proof.
  rewrite finish_unstamped.
  destruct (needs_processed_stamp (unstamped now d)).
  - case_bool_decide as Hk; simpl.
    + subst. by rewrite lookup_insert_eq.
    + by rewrite lookup_insert_ne.
  - by rewrite andb_false_r.
Qed.

Lemma needs_stamp_unstamped (now : datetime) (d : doc) :
  needs_processed_stamp (unstamped now d)
  = bool_decide (default (PStr (u "pending")) (d !! "processing_status")
                 = PStr (u "processed"))
    && negb (truthy (default (PStr []) (d !! "processed"))).
Proof.
  unfold needs_processed_stamp, get. rewrite !unstamped_lookup. simpl.
  by destruct (d !! "processed").
Qed.

Lemma in_fieldnames (k : string) :
  bool_decide (k ∈ fieldnames) = true -> k ∈ fieldnames.
Proof. apply bool_decide_eq_true. Qed.

(** A prepared record has every column, and the keys it was given. *)
Lemma finish_lookup_extra (now : datetime) (d : doc) (k : string) :
  k ∉ fieldnames -> finish now d !! k = d !! k.
Proof.
  intros Hk. rewrite finish_lookup, unstamped_lookup.
  assert (k <> "processed"%string) as Hp
    by (intros ->; apply Hk, in_fieldnames; by vm_compute).
  assert (k <> "updated_at"%string) as Hu
    by (intros ->; apply Hk, in_fieldnames; by vm_compute).
  assert (k <> "processing_status"%string) as Hs
    by (intros ->; apply Hk, in_fieldnames; by vm_compute).
  rewrite !(bool_decide_eq_false_2 (k = _)) by done.
  rewrite (bool_decide_eq_false_2 (k ∈ fieldnames)) by done.
  cbn [andb]. by destruct (d !! k).
Qed.

Lemma finish_lookup_known (now : datetime) (d : doc) (k : string) :
  k ∈ fieldnames -> is_Some (finish now d !! k).
Proof.
  intros Hk. rewrite finish_lookup, unstamped_lookup.
  rewrite (bool_decide_eq_true_2 (k ∈ fieldnames)) by done.
  destruct (bool_decide (k = "processed"%string)
            && needs_processed_stamp (unstamped now d)); [by eauto|].
  destruct (bool_decide (k = "updated_at"%string)); [by eauto|].
  destruct (bool_decide (k = "processing_status"%string)); [by eauto|].
  destruct (d !! k); by eauto.
Qed.

Lemma finish_known_keys (now : datetime) (d : doc) :
  known_keys d -> known_keys (finish now d).
Proof.
  intros Hd k Hk. destruct (decide (k ∈ fieldnames)) as [|Hno]; [done|].
  rewrite finish_lookup_extra in Hk by done. by apply Hd.
Qed.

Lemma staged_known_keys (d : doc) : known_keys d -> known_keys (staged d).
Proof.
  intros Hd k Hk. apply Hd. rewrite staged_lookup in Hk.
  by apply fmap_is_Some in Hk.
Qed.

(** *** Writing a row *)

Lemma writer_row_known (d : doc) :
  known_keys d ->
  writer_row d
  = Some (list_to_map ((fun f => (f, cell (get d f))) <$> fieldnames)).
Proof.
  intros Hd. unfold writer_row. rewrite bool_decide_eq_true_2; [done|].
  apply Forall_forall. intros k Hk.
  apply list_elem_of_fmap in Hk as ([k' v] & -> & Hkv).
  apply elem_of_map_to_list in Hkv. apply Hd. by eexists.
Qed.

Lemma writer_row_unknown (d : doc) (k : string) :
  is_Some (d !! k) -> k ∉ fieldnames -> writer_row d = None.
Proof.
  intros [v Hv] Hk. unfold writer_row. rewrite bool_decide_eq_false_2; [done|].
  rewrite Forall_forall. intros Hall. apply Hk, Hall.
  apply list_elem_of_fmap. exists (k, v). split; [done|].
  by apply elem_of_map_to_list.
Qed.

Lemma writer_row_Some (d : doc) (r : row) :
  writer_row d = Some r ->
  known_keys d
  /\ forall k, r !! k
       = if bool_decide (k ∈ fieldnames) then Some (cell (get d k)) else None.
Proof.
  intros Hw. assert (known_keys d) as Hd.
  { intros k Hk. destruct (decide (k ∈ fieldnames)) as [|Hno]; [done|].
    by rewrite (writer_row_unknown d k) in Hw. }
  split; [done|]. rewrite writer_row_known in Hw by done.
  assert (r = list_to_map ((fun f => (f, cell (get d f))) <$> fieldnames))
    as -> by congruence.
  intros k. exact (lookup_keyed_map (fun f => cell (get d f)) fieldnames k).
Qed.

Lemma writer_row_field (d : doc) (r : row) (k : string) :
  writer_row d = Some r -> k ∈ fieldnames -> field r k = cell (get d k).
Proof.
  intros Hw Hk. apply writer_row_Some in Hw as [_ Hr].
  unfold field. by rewrite Hr, bool_decide_eq_true_2.
Qed.

End WithRuntime.

End PrepareFacts.

(** ** Updating a record *)

Module UpdateFacts.

Import Repo PrepareFacts RepoFacts.

Section WithRuntime.
Context `{Runtime}.

(** The record [update_document] writes in place of the row [r] *)
Definition updated_doc (t1 t2 : datetime) (r : row) (updates : doc) : doc :=
  let d :=
    filter (fun kv => (kv.1 ∉ ["id"; "created_at"]%string)
                      /\ (kv.1 ∈ fieldnames))
           (finish t1 (staged (updates ∪ raw_doc r))) ∪ raw_doc r in
  let now_str := PStr (strftime DATE_FORMAT t2) in
  let d := <["updated_at" := now_str]> d in
  if needs_processed_stamp d then <["processed" := now_str]> d else d.

Lemma find_raw_row (st : store) (document_id : str) (i : nat) (d : doc) :
  list_find (fun d => get d "id" = PStr document_id)
            (_read_all_documents false st) = Some (i, d) ->
  exists r, st !! i = Some r /\ d = raw_doc r
            /\ r !! "id" = Some document_id.
Proof.
  intros (Hi & Hid & _)%list_find_Some.
  unfold _read_all_documents in Hi. rewrite list_lookup_fmap in Hi.
  destruct (st !! i) as [r|]; [|done]. injection Hi as <-.
  exists r. split; [done|]. split; [done|]. by apply raw_id_matches.
Qed.

Lemma update_document_found (disk : bool) (t1 t2 : datetime) (st : store)
  (document_id : str) (updates : doc) (i : nat) (r : row) :
  list_find (fun d => get d "id" = PStr document_id)
            (_read_all_documents false st) = Some (i, raw_doc r) ->
  update_document disk t1 t2 st document_id updates
  = if truthy (get (updates ∪ raw_doc r) "id")
    then match _write_all_documents disk
                 (<[i := updated_doc t1 t2 r updates]>
                    (_read_all_documents false st)) with
         | Some st' => (true, st')
         | None => (false, st)
         end
    else (false, st).
Proof.
  intros Hfind. unfold update_document. rewrite Hfind, prepare_unfold.
  by destruct (truthy (get (updates ∪ raw_doc r) "id")).
Qed.

Lemma written_row (disk : bool) (documents : list doc) (st' : store)
  (i : nat) (d : doc) :
  _write_all_documents disk documents = Some st' ->
  documents !! i = Some d ->
  exists r', st' !! i = Some r' /\ writer_row d = Some r'.
Proof.
  unfold _write_all_documents. destruct disk; [|done].
  intros Hall%mapM_Some Hd.
  destruct (Forall2_lookup_l _ _ _ _ _ Hall Hd) as (r' & Hr' & Hw).
  by exists r'.
Qed.

Lemma written_length (disk : bool) (documents : list doc) (st' : store) :
  _write_all_documents disk documents = Some st' ->
  length st' = length documents.
Proof.
  unfold _write_all_documents. destruct disk; [|done].
  intros Hall%mapM_Some. symmetry. by eapply Forall2_length.
Qed.

Lemma write_known (documents : list doc) :
  Forall known_keys documents ->
  is_Some (_write_all_documents true documents).
Proof.
  intros Hall. unfold _write_all_documents. apply mapM_is_Some.
  eapply Forall_impl; [exact Hall|]. intros d Hd. simpl.
  rewrite writer_row_known by done. by eexists.
Qed.

Lemma raw_doc_known (r : row) : known_keys r -> known_keys (raw_doc r).
Proof.
  intros Hr k Hk. apply Hr. unfold raw_doc in Hk.
  rewrite lookup_fmap in Hk. by apply fmap_is_Some in Hk.
Qed.

(** The merge of the prepared fields into the row *)
Lemma merged_lookup (p d : doc) (k : string) :
  (filter (fun kv => (kv.1 ∉ ["id"; "created_at"]%string)
                     /\ (kv.1 ∈ fieldnames)) p ∪ d) !! k
  = if bool_decide ((k ∉ ["id"; "created_at"]%string) /\ k ∈ fieldnames)
    then p !! k ∪ d !! k else d !! k.
Proof.
  rewrite lookup_union, map_lookup_filter.
  destruct (p !! k) as [v|]; simpl.
  - case_guard as Hg; simpl in Hg.
    + by rewrite bool_decide_eq_true_2.
    + rewrite bool_decide_eq_false_2 by done. simpl. by destruct (d !! k).
  - case_bool_decide; by destruct (d !! k).
Qed.

Lemma updated_doc_known (t1 t2 : datetime) (r : row) (updates : doc) :
  known_keys r -> known_keys (updated_doc t1 t2 r updates).
Proof.
  intros Hr. unfold updated_doc.
  assert (known_keys
            (<["updated_at" := PStr (strftime DATE_FORMAT t2)]>
               (filter (fun kv => (kv.1 ∉ ["id"; "created_at"]%string)
                                  /\ (kv.1 ∈ fieldnames))
                       (finish t1 (staged (updates ∪ raw_doc r)))
                  ∪ raw_doc r))) as Hknown.
  { intros k Hk. destruct (decide (k = "updated_at"%string)) as [->|Hne].
    - apply in_fieldnames. by vm_compute.
    - rewrite lookup_insert_ne, merged_lookup in Hk by done.
      case_bool_decide as Hc; [by destruct Hc|].
      by apply (raw_doc_known r Hr). }
  destruct (needs_processed_stamp _); [|done].
  intros k Hk. destruct (decide (k = "processed"%string)) as [->|Hne].
  - apply in_fieldnames. by vm_compute.
  - rewrite lookup_insert_ne in Hk by done. by apply Hknown.
Qed.

Lemma cell_raw (r : row) (k : string) : cell (get (raw_doc r) k) = field r k.
Proof. rewrite get_raw_doc. unfold field. by destruct (r !! k). Qed.

Lemma get_finish_known (now : datetime) (d : doc) (k : string) :
  k ∈ fieldnames -> finish now d !! k = Some (get (finish now d) k).
Proof.
  intros Hk. unfold get.
  by destruct (finish_lookup_known now d k Hk) as [v ->].
Qed.

Lemma needs_stamp_insert_updated (d : doc) (v : pyval) :
  needs_processed_stamp (<["updated_at" := v]> d) = needs_processed_stamp d.
Proof.
  unfold needs_processed_stamp, get. by rewrite !lookup_insert_ne.
Qed.

Lemma needs_stamp_merged (p d : doc) :
  is_Some (p !! "processing_status") -> is_Some (p !! "processed") ->
  needs_processed_stamp
    (filter (fun kv => (kv.1 ∉ ["id"; "created_at"]%string)
                       /\ (kv.1 ∈ fieldnames)) p ∪ d)
  = needs_processed_stamp p.
Proof.
  intros [s Hs] [t Ht]. unfold needs_processed_stamp, get.
  rewrite !merged_lookup.
  rewrite (bool_decide_eq_true_2
             (("processing_status"%string ∉ ["id"; "created_at"]%string) /\ _))
    by (split; apply (bool_decide_unpack _); by vm_compute).
  rewrite (bool_decide_eq_true_2
             (("processed"%string ∉ ["id"; "created_at"]%string) /\ _))
    by (split; apply (bool_decide_unpack _); by vm_compute).
  rewrite Hs, Ht.
  by destruct (d !! "processing_status"), (d !! "processed").
Qed.

Lemma updated_doc_get (t1 t2 : datetime) (r : row) (updates : doc)
  (k : string) :
  k ∈ fieldnames ->
  let p := finish t1 (staged (updates ∪ raw_doc r)) in
  get (updated_doc t1 t2 r updates) k
  = if bool_decide (k ∈ ["id"; "created_at"]%string) then get (raw_doc r) k
    else if bool_decide (k = "updated_at"%string)
    then PStr (strftime DATE_FORMAT t2)
    else if bool_decide (k = "processed"%string) && needs_processed_stamp p
    then PStr (strftime DATE_FORMAT t2)
    else get p k.
Proof.
  intros Hk p. unfold updated_doc. fold p.
  rewrite needs_stamp_insert_updated, needs_stamp_merged
    by (apply finish_lookup_known, in_fieldnames; by vm_compute).
  assert (get (<["updated_at" := PStr (strftime DATE_FORMAT t2)]>
                 (filter (fun kv => (kv.1 ∉ ["id"; "created_at"]%string)
                                    /\ (kv.1 ∈ fieldnames)) p ∪ raw_doc r)) k
          = if bool_decide (k ∈ ["id"; "created_at"]%string)
            then get (raw_doc r) k
            else if bool_decide (k = "updated_at"%string)
            then PStr (strftime DATE_FORMAT t2)
            else get p k) as Hget.
  { unfold get. case_bool_decide as Hid.
    - rewrite lookup_insert_ne
        by (intros <-; revert Hid; apply (bool_decide_unpack _); by vm_compute).
      rewrite merged_lookup, bool_decide_eq_false_2; [done|]. by intros [? _].
    - case_bool_decide as Hu; [subst; by rewrite lookup_insert_eq|].
      rewrite lookup_insert_ne, merged_lookup by done.
      rewrite bool_decide_eq_true_2 by done.
      unfold p. rewrite (get_finish_known t1 _ k Hk).
      by destruct (raw_doc r !! k). }
  destruct (needs_processed_stamp p); [|by rewrite andb_false_r].
  rewrite andb_true_r. unfold get at 1.
  destruct (decide (k = "processed"%string)) as [->|Hne].
  - rewrite lookup_insert_eq. by vm_compute.
  - rewrite lookup_insert_ne by done. fold (get (<["updated_at" := PStr (strftime DATE_FORMAT t2)]>
                 (filter (fun kv => (kv.1 ∉ ["id"; "created_at"]%string)
                                    /\ (kv.1 ∈ fieldnames)) p ∪ raw_doc r)) k).
    rewrite Hget. by rewrite (bool_decide_eq_false_2 (k = "processed"%string)).
Qed.

(** What a successful update is: the first row with the id is replaced by
    the row of [updated_doc]. *)
Lemma update_document_true (disk : bool) (t1 t2 : datetime) (st st' : store)
  (document_id : str) (updates : doc) :
  update_document disk t1 t2 st document_id updates = (true, st') ->
  exists i r r',
    st !! i = Some r /\ r !! "id" = Some document_id
    /\ st' !! i = Some r'
    /\ writer_row (updated_doc t1 t2 r updates) = Some r'
    /\ length st' = length st.
Proof.
  intros Hupd.
  destruct (list_find (fun d => get d "id" = PStr document_id)
                      (_read_all_documents false st))
    as [[i d]|] eqn:Hfind.
  2: { unfold update_document in Hupd. by rewrite Hfind in Hupd. }
  destruct (find_raw_row st document_id i d Hfind) as (r & Hr & -> & Hid).
  rewrite (update_document_found disk t1 t2 st document_id updates i r Hfind)
    in Hupd.
  destruct (truthy _); [|done].
  destruct (_write_all_documents _ _) as [rows|] eqn:Hw; [|done].
  injection Hupd as <-.
  assert (i < length (_read_all_documents false st))%nat as Hi.
  { unfold _read_all_documents. rewrite length_fmap.
    by eapply lookup_lt_Some. }
  destruct (written_row disk _ rows i (updated_doc t1 t2 r updates) Hw)
    as (r' & Hr' & Hrow); [by apply list_lookup_insert_eq|].
  exists i, r, r'. repeat split; try done.
  rewrite (written_length _ _ _ Hw), length_insert.
  unfold _read_all_documents. by rewrite length_fmap.
Qed.

End WithRuntime.

End UpdateFacts.

(** ** Reading an example off *)

Module ExampleFacts.

Import Repo.

(** The cell of column [k] in row [i] of the file *)
Definition cell_at (st : store) (i : nat) (k : string) : str :=
  default [] (st !! i ≫= fun r : row => r !! k).

Lemma field_cell_at (st : store) (i : nat) (r : row) (k : string) :
  st !! i = Some r -> field r k = cell_at st i k.
Proof. intros Hr. unfold cell_at. by rewrite Hr. Qed.

Lemma succeeded {A} (p : bool * A) : p.1 = true -> p = (true, p.2).
Proof. destruct p as [b a]. simpl. by intros ->. Qed.

End ExampleFacts.

(** ** The processed timestamp *)

Module TimestampFacts.

Import Repo PrepareFacts RepoFacts UpdateFacts ExampleFacts.

Section WithRuntime.
Context `{Runtime}.

Lemma prepared_status (t1 : datetime) (m : doc) :
  get (finish t1 (staged m)) "processing_status"
  = default (PStr (u "pending"))
      (normalise "processing_status" <$> m !! "processing_status").
Proof.
  unfold get. rewrite finish_lookup, unstamped_lookup, staged_lookup.
  by vm_compute.
Qed.

Lemma prepared_processed (t1 : datetime) (m : doc) :
  get (finish t1 (staged m)) "processed"
  = if needs_processed_stamp (unstamped t1 (staged m))
    then PStr (strftime DATE_FORMAT t1)
    else default (PStr []) (normalise "processed" <$> m !! "processed").
Proof.
  unfold get. rewrite finish_lookup, unstamped_lookup, staged_lookup.
  change (bool_decide ("processed"%string = "processed"%string)) with true.
  cbn [andb]. destruct (needs_processed_stamp _); [done|].
  change (bool_decide ("processed"%string = "updated_at"%string)) with false.
  change (bool_decide ("processed"%string = "processing_status"%string))
    with false.
  cbn match. by destruct (m !! "processed").
Qed.

Lemma merged_processed (r : row) (updates : doc) :
  updates !! "processed" = None ->
  default (PStr [])
    (normalise "processed" <$> (updates ∪ raw_doc r) !! "processed")
  = PStr (field r "processed").
Proof.
  intros Hno. rewrite lookup_union_r by done.
  unfold raw_doc, field. rewrite lookup_fmap.
  by destruct (r !! "processed").
Qed.

Lemma unstamped_needs_stamp (t1 : datetime) (r : row) (updates : doc) :
  updates !! "processed" = None ->
  needs_processed_stamp (unstamped t1 (staged (updates ∪ raw_doc r)))
  = bool_decide (get (finish t1 (staged (updates ∪ raw_doc r)))
                     "processing_status" = PStr (u "processed"))
    && negb (nonempty (field r "processed")).
Proof.
  intros Hno. rewrite needs_stamp_unstamped, prepared_status.
  rewrite !staged_lookup, merged_processed by done. done.
Qed.

Lemma prepared_needs_stamp (t1 : datetime) (r : row) (updates : doc) :
  updates !! "processed" = None ->
  needs_processed_stamp (finish t1 (staged (updates ∪ raw_doc r)))
  = bool_decide (get (finish t1 (staged (updates ∪ raw_doc r)))
                     "processing_status" = PStr (u "processed"))
    && negb (nonempty (field r "processed"))
    && negb (nonempty (strftime DATE_FORMAT t1)).
Proof.
  intros Hno. unfold needs_processed_stamp at 1.
  rewrite prepared_processed, unstamped_needs_stamp, merged_processed by done.
  destruct (bool_decide _); [|done].
  destruct (field r "processed"); [|done]. done.
Qed.

End WithRuntime.


Definition stamp_example : store :=
  [ {[ "id" := u "A"; "titre" := u "Avis"; "processing_status" := u "pending";
       "created_at" := u "2024-03-01 08:00:00"; "processed" := [] ]} ].

Definition stamp_updates : doc :=
  {[ "processing_status" := PStr (u "processed") ]}.

Definition stamp_once : store :=
  (@update_document IsoRuntime.runtime true (DateTime 738947 32400000000)
     (DateTime 738947 32401000000) stamp_example (u "A") stamp_updates).2.

Definition stamp_twice : store :=
  (@update_document IsoRuntime.runtime true (DateTime 738948 0)
     (DateTime 738948 1000000) stamp_once (u "A") stamp_updates).2.


Definition overwrite_example : store :=
  [ {[ "id" := u "A"; "processing_status" := u "processed";
       "processed" := u "2024-03-01 08:00:00" ]} ].

Definition overwrite_result : bool * store :=
  @update_document IsoRuntime.runtime true (DateTime 738948 0)
    (DateTime 738948 0) overwrite_example (u "A")
    {[ "processed" := PStr (u "1999-01-01 00:00:00") ]}.


End TimestampFacts.

(** ** Bulk creation *)

Module BulkFacts.

Import Repo PrepareFacts RepoFacts UpdateFacts ExampleFacts.

(** The ids of the rows of the file, and of the records of a batch *)
Definition store_ids (st : store) : list pyval :=
  (fun r : row => get (raw_doc r) "id") <$> st.

Definition batch_ids (batch : list doc) : list pyval :=
  (fun d : doc => get d "id") <$> batch.

(** Record [d], at index [i] of the batch, is to be skipped: it has no
    id, or its id is in the file, or an earlier record of the batch has
    the same id. *)
Definition skipped_record (ids : list pyval) (batch : list doc) (i : nat)
  (d : doc) : Prop :=
  truthy (get d "id") = false
  \/ get d "id" ∈ ids
  \/ get d "id" ∈ batch_ids (take i batch).

#[global] Instance skipped_record_dec ids batch i d :
  Decision (skipped_record ids batch i d).
Proof. unfold skipped_record. apply _. Defined.

(** The records from index [i] on that are not to be skipped, with their
    indices, in batch order *)
Fixpoint accepted_from (ids : list pyval) (batch : list doc) (i : nat)
  (rest : list doc) : list (nat * doc) :=
  match rest with
  | [] => []
  | d :: rest' =>
      if decide (skipped_record ids batch i d)
      then accepted_from ids batch (S i) rest'
      else (i, d) :: accepted_from ids batch (S i) rest'
  end.

Definition accepted (st : store) (batch : list doc) : list (nat * doc) :=
  accepted_from (store_ids st) batch 0 batch.

Section WithRuntime.
Context `{Runtime}.

Definition prepared (clock : nat -> datetime) (p : nat * doc)
  (document : doc) : Prop :=
  _prepare_doc_for_write (clock p.1) p.2 = Some document.

Lemma read_ids (st : store) :
  (fun d : doc => get d "id") <$> _read_all_documents false st = store_ids st.
Proof.
  unfold _read_all_documents, store_ids. by rewrite <- list_fmap_compose.
Qed.

Lemma bulk_loop_accepts (clock : nat -> datetime) (ids : list pyval)
  (batch : list doc) (rest : list doc) :
  forall pre created skipped existing,
    batch = pre ++ rest ->
    (forall x, truthy x = true ->
       x ∈ existing <-> x ∈ ids \/ x ∈ batch_ids pre) ->
    Forall (fun d : doc => hashable (get d "id") = true) rest ->
    exists documents,
      bulk_loop clock (length pre) rest created skipped existing
      = Some (created ++ documents,
              (skipped + (length rest - length documents))%nat)
      /\ Forall2 (prepared clock)
           (accepted_from ids batch (length pre) rest) documents
      /\ (length documents <= length rest)%nat.
Proof.
  induction rest as [|d rest IH]; intros pre created skipped existing
    Hbatch Hinv Hhash.
  { exists []. simpl. rewrite app_nil_r, Nat.add_0_r.
    split; [done|]. split; [constructor|done]. }
  apply Forall_cons in Hhash as [Hd Hhash].
  assert (batch = (pre ++ [d]) ++ rest) as Hbatch'
    by (by rewrite <- app_assoc).
  assert (take (length pre) batch = pre) as Htake
    by (by rewrite Hbatch, take_app_length).
  assert (length (pre ++ [d]) = S (length pre)) as Hlen
    by (rewrite length_app; simpl; lia).
  cbn [bulk_loop accepted_from].
  destruct (truthy (get d "id")) eqn:Htruthy; cbn [negb].
  2: { (* no id *)
    destruct (IH (pre ++ [d]) created (S skipped) existing Hbatch')
      as (documents & Hloop & Hacc & Hle); [|done|].
    { intros x Hx. rewrite Hinv by done. unfold batch_ids.
      rewrite fmap_app, elem_of_app. simpl. rewrite list_elem_of_singleton.
      split; [tauto|]. intros [?|[?| ->]]; [tauto|tauto|congruence]. }
    rewrite Hlen in Hloop, Hacc. exists documents.
    rewrite decide_True by (by left).
    split; [|split; [done|simpl; lia]].
    rewrite Hloop. do 2 f_equal. simpl. lia. }
  rewrite Hd. cbn [negb].
  destruct (decide (get d "id" ∈ existing)) as [Hin|Hnotin].
  - (* an id already seen *)
    rewrite bool_decide_eq_true_2 by done.
    destruct (IH (pre ++ [d]) created (S skipped) existing Hbatch')
      as (documents & Hloop & Hacc & Hle); [|done|].
    { intros x Hx. rewrite Hinv by done. unfold batch_ids.
      rewrite fmap_app, elem_of_app. simpl. rewrite list_elem_of_singleton.
      split; [tauto|]. intros [?|[?| ->]]; [tauto|tauto|].
      by apply Hinv. }
    rewrite Hlen in Hloop, Hacc. exists documents.
    rewrite decide_True.
    2: { right. rewrite Htake. by apply Hinv. }
    split; [|split; [done|simpl; lia]].
    rewrite Hloop. do 2 f_equal. simpl. lia.
  - (* a new id *)
    rewrite bool_decide_eq_false_2 by done.
    rewrite prepare_unfold, Htruthy.
    destruct (IH (pre ++ [d])
                (created ++ [finish (clock (length pre)) (staged d)])
                skipped (existing ++ [get d "id"]) Hbatch')
      as (documents & Hloop & Hacc & Hle); [|done|].
    { intros x Hx. rewrite elem_of_app, Hinv by done. unfold batch_ids.
      rewrite fmap_app, !elem_of_app. simpl.
      rewrite !list_elem_of_singleton. tauto. }
    rewrite Hlen in Hloop, Hacc.
    exists (finish (clock (length pre)) (staged d) :: documents).
    rewrite decide_False.
    2: { unfold skipped_record. rewrite Htake.
         intros [?|Hseen]; [congruence|].
         apply Hnotin. by apply Hinv. }
    split; [|split].
    + rewrite Hloop, <- app_assoc. done.
    + constructor; [|done]. unfold prepared. simpl.
      by rewrite prepare_unfold, Htruthy.
    + simpl. lia.
Qed.

End WithRuntime.

(** X1: [bulk_create] on a batch whose ids can be set members: the records
    that are not to be skipped are prepared in batch order; the two counts
    add up to the length of the batch; when the write goes through, the
    file holds its former rows and the prepared records, and the created
    count is their number; when it fails, or when there is nothing to
    write, nothing is created and the file is what it was. *)
Theorem bulk_create_accounting `{Runtime} (disk : bool)
  (clock : nat -> datetime) (st : store) (batch : list doc) :
  Forall (fun d : doc => hashable (get d "id") = true) batch ->
  exists documents created skipped st',
    Forall2 (prepared clock) (accepted st batch) documents
    /\ bulk_create disk clock st batch = Some ((created, skipped), st')
    /\ (created + skipped = length batch)%nat
    /\ match documents,
             _write_all_documents disk
               (_read_all_documents false st ++ documents) with
       | [], _ => created = 0%nat /\ st' = st
       | _ :: _, Some rows => created = length documents /\ st' = rows
       | _ :: _, None => created = 0%nat /\ st' = st
       end.
Proof.
  intros Hhash.
  destruct (bulk_loop_accepts clock (store_ids st) batch batch [] [] 0%nat
              (store_ids st) eq_refl) as (documents & Hloop & Hacc & Hle);
    [|done|].
  { intros x _. unfold batch_ids. simpl. rewrite elem_of_nil. tauto. }
  simpl in Hloop. unfold bulk_create. rewrite read_ids, Hloop.
  cbn [mbind option_bind]. exists documents.
  destruct documents as [|document documents].
  - exists 0%nat, (length batch - 0)%nat, st. repeat split; [done|lia].
  - destruct (_write_all_documents disk _) as [rows|] eqn:Hw.
    + eexists _, _, _. split; [done|]. split; [done|].
      split; [simpl in *; lia|done].
    + eexists _, _, _. split; [done|]. split; [done|].
      split; [simpl in *; lia|done].
Qed.

Definition bulk_example : list doc :=
  [ {[ "id" := PStr (u "A"); "titre" := PStr (u "Avis") ]};
    {[ "titre" := PStr (u "sans id") ]};
    {[ "id" := PStr (u "A"); "titre" := PStr (u "double") ]};
    {[ "id" := PStr (u "B"); "titre" := PStr (u "déjà là") ]} ].

Definition bulk_example_store : store := [ {[ "id" := u "B" ]} ].

Lemma bulk_create_accounting_witness :
  exists st',
    @bulk_create IsoRuntime.runtime true (fun _ => DateTime 738946 0)
      bulk_example_store bulk_example = Some ((1, 3)%nat, st')
    /\ length st' = 2%nat.
Proof.
  destruct (@bulk_create_accounting IsoRuntime.runtime true
              (fun _ => DateTime 738946 0) bulk_example_store bulk_example)
    as (documents & created & skipped & st' & Hacc & Hbulk & Hsum & Hw).
  { apply (bool_decide_unpack _). vm_compute. reflexivity. }
  exists st'.
  assert (option_map fst
            (@bulk_create IsoRuntime.runtime true
               (fun _ => DateTime 738946 0) bulk_example_store bulk_example)
          = Some (1, 3)%nat) as Hcounts by (vm_compute; reflexivity).
  assert (option_map (fun p => length p.2)
            (@bulk_create IsoRuntime.runtime true
               (fun _ => DateTime 738946 0) bulk_example_store bulk_example)
          = Some 2%nat) as Hlen by (vm_compute; reflexivity).
  rewrite Hbulk in Hcounts, Hlen. simpl in Hcounts, Hlen.
  injection Hcounts as -> ->. injection Hlen as Hlen.
  by split.
Defined.

End BulkFacts.

(** ** Escaping line breaks *)

Module EscapeFacts.

Import Repo.

Lemma replace_single_cons (c : char) (new : str) (x : char) (s : str) :
  replace [c] new (x :: s)
  = (if c =? x then new else [x]) ++ replace [c] new s.
Proof.
  unfold replace. cbn [replace_from startswith length pred].
  rewrite andb_true_r. by destruct (c =? x).
Qed.

Lemma replace_pair_cons (a b c x : char) (s : str) :
  replace [a; b] [c] (x :: s)
  = match s with
    | y :: s' =>
        if (a =? x) && (b =? y) then c :: replace [a; b] [c] s'
        else x :: replace [a; b] [c] s
    | [] => [x]
    end.
Proof.
  unfold replace. cbn [replace_from startswith length pred].
  destruct s as [|y s']; [by rewrite andb_false_r|].
  rewrite andb_true_r. by destruct ((a =? x) && (b =? y)).
Qed.

Lemma contains_pair_cons (a b x : char) (s : str) :
  contains [a; b] (x :: s) = false ->
  contains [a; b] s = false
  /\ match s with y :: _ => (a =? x) && (b =? y) = false | [] => True end.
Proof.
  cbn [contains startswith]. intros [Hhere Hrest]%orb_false_iff.
  split; [done|]. destruct s as [|y s']; [done|].
  by rewrite andb_true_r in Hhere.
Qed.

(** The two replacements of [_escape_newlines] taken together *)
Definition escape_char (x : char) : str :=
  if x =? 10 then NEWLINE_ESCAPE
  else if x =? 13 then CARRIAGE_RETURN_ESCAPE
  else [x].

Definition escape_return (x : char) : str :=
  if x =? 13 then CARRIAGE_RETURN_ESCAPE else [x].

Lemma escape_newlines_chars (t : str) :
  _escape_newlines t = flat_map escape_char t.
Proof.
  unfold _escape_newlines. induction t as [|x t IH]; [done|].
  rewrite replace_single_cons. cbn [flat_map]. rewrite <- IH.
  unfold escape_char, NEWLINE_ESCAPE, CARRIAGE_RETURN_ESCAPE.
  rewrite (N.eqb_sym x 10), (N.eqb_sym x 13).
  destruct (N.eqb_spec 10 x) as [<-|Hn]; cbn [app].
  - by rewrite !replace_single_cons.
  - rewrite replace_single_cons. by destruct (13 =? x).
Qed.

Lemma replace_pair_skip (a b c x : char) (s : str) :
  (forall y s', s = y :: s' -> (a =? x) && (b =? y) = false) ->
  replace [a; b] [c] (x :: s) = x :: replace [a; b] [c] s.
Proof.
  intros Hno. rewrite replace_pair_cons. destruct s as [|y s']; [done|].
  by rewrite (Hno y s').
Qed.

Lemma replace_pair_hit (a b c : char) (s : str) :
  replace [a; b] [c] (a :: b :: s) = c :: replace [a; b] [c] s.
Proof. rewrite replace_pair_cons. by rewrite !N.eqb_refl. Qed.

Lemma escape_char_head (x y : char) (s r : str) :
  escape_char x ++ s = y :: r -> y = 92 \/ (y = x /\ x <> 10 /\ x <> 13).
Proof.
  unfold escape_char, NEWLINE_ESCAPE, CARRIAGE_RETURN_ESCAPE.
  destruct (N.eqb_spec x 10); [intros [= <- _]; by left|].
  destruct (N.eqb_spec x 13); [intros [= <- _]; by left|].
  intros [= <- _]. by right.
Qed.

Lemma escape_return_head (x y : char) (s r : str) :
  escape_return x ++ s = y :: r -> y = 92 \/ (y = x /\ x <> 13).
Proof.
  unfold escape_return, CARRIAGE_RETURN_ESCAPE.
  destruct (N.eqb_spec x 13); [intros [= <- _]; by left|].
  intros [= <- _]. by right.
Qed.

Lemma unescape_newline_step (t : str) :
  contains NEWLINE_ESCAPE t = false ->
  replace NEWLINE_ESCAPE [10] (flat_map escape_char t)
  = flat_map escape_return t.
Proof.
  unfold NEWLINE_ESCAPE.
  induction t as [|x t IH]; [done|]. intros Hno.
  apply contains_pair_cons in Hno as [Hrest Hhere].
  specialize (IH Hrest). cbn [flat_map].
  unfold escape_char at 1, escape_return at 1.
  unfold NEWLINE_ESCAPE, CARRIAGE_RETURN_ESCAPE.
  destruct (N.eqb_spec x 10) as [->|Hn].
  - cbn [app N.eqb Pos.eqb].
    etrans; [apply replace_pair_hit|]. by f_equal.
  - destruct (N.eqb_spec x 13) as [->|Hr]; cbn [app].
    + etrans; [apply replace_pair_skip; intros ? ? [= <- _]; done|].
      f_equal.
      etrans; [apply replace_pair_skip; intros; done|]. by f_equal.
    + etrans; [apply replace_pair_skip|by f_equal].
      intros y s' Hflat. destruct t as [|z t]; [done|].
      cbn [flat_map] in Hflat.
      destruct (escape_char_head _ _ _ _ Hflat) as [->|(-> & _ & _)];
        [by rewrite andb_false_r|done].
Qed.

Lemma unescape_return_step (t : str) :
  contains CARRIAGE_RETURN_ESCAPE t = false ->
  replace CARRIAGE_RETURN_ESCAPE [13] (flat_map escape_return t) = t.
Proof.
  unfold CARRIAGE_RETURN_ESCAPE.
  induction t as [|x t IH]; [done|]. intros Hno.
  apply contains_pair_cons in Hno as [Hrest Hhere].
  specialize (IH Hrest). cbn [flat_map].
  unfold escape_return at 1. unfold CARRIAGE_RETURN_ESCAPE.
  destruct (N.eqb_spec x 13) as [->|Hr]; cbn [app].
  - etrans; [apply replace_pair_hit|]. by f_equal.
  - etrans; [apply replace_pair_skip|by f_equal].
    intros y s' Hflat. destruct t as [|z t]; [done|].
    cbn [flat_map] in Hflat.
    destruct (escape_return_head _ _ _ _ Hflat) as [->|(-> & _)];
      [by rewrite andb_false_r|done].
Qed.

(** X2: The escaping of line breaks is undone by the unescaping, for a text
    that holds neither of the two escape sequences (a backslash followed by
    [n] or by [r]) to begin with. *)
Theorem unescape_escape (t : str) :
  contains NEWLINE_ESCAPE t = false ->
  contains CARRIAGE_RETURN_ESCAPE t = false ->
  _unescape_newlines (_escape_newlines t) = t.
Proof.
  intros Hn Hr. unfold _unescape_newlines.
  rewrite escape_newlines_chars.
  etrans; [|by apply unescape_return_step].
  f_equal. by apply unescape_newline_step.
Qed.

Lemma unescape_escape_witness :
  _unescape_newlines (_escape_newlines [76; 10; 13; 92; 65; 10])
  = [76; 10; 13; 92; 65; 10].
Proof. apply unescape_escape; vm_compute; reflexivity. Defined.

(** X3: An escaped text holds no line feed and no carriage return: the value
    written in a cell never breaks the row. *)
Theorem escaped_has_no_line_break (t : str) :
  (10 ∉ _escape_newlines t) /\ (13 ∉ _escape_newlines t).
Proof.
  rewrite escape_newlines_chars.
  induction t as [|x t [IHn IHr]]; [split; apply not_elem_of_nil|].
  cbn [flat_map]. rewrite !elem_of_app.
  assert ((10 ∉ escape_char x) /\ (13 ∉ escape_char x)) as [Hn Hr].
  { unfold escape_char, NEWLINE_ESCAPE, CARRIAGE_RETURN_ESCAPE.
    destruct (N.eqb_spec x 10); [split; by apply (bool_decide_unpack _)|].
    destruct (N.eqb_spec x 13); [split; by apply (bool_decide_unpack _)|].
    rewrite !list_elem_of_singleton. split; congruence. }
  tauto.
Qed.

End EscapeFacts.


(** ** Creating a record *)

Module CreateFacts.

Import Repo PrepareFacts RepoFacts UpdateFacts ExampleFacts Queries.

(** The ids of the rows of the file, as [exists] reads them *)
Definition row_ids (st : store) : list pyval :=
  (fun r : row => from_option PStr PNone (r !! "id")) <$> st.

Section WithRuntime.
Context `{Runtime}.

Lemma known_keys_check (d : doc) :
  bool_decide (Forall (fun k => k ∈ fieldnames) (map_to_list d).*1) = true ->
  known_keys d.
Proof.
  intros Hall%bool_decide_eq_true k [v Hv].
  rewrite Forall_forall in Hall. apply Hall.
  apply list_elem_of_fmap. exists (k, v). split; [done|].
  by apply elem_of_map_to_list.
Qed.

Lemma exists_row_ids (st : store) (v : pyval) :
  exists_ st v = bool_decide (v ∈ row_ids st).
Proof.
  unfold exists_, _read_all_documents, row_ids.
  induction st as [|r st IH]; [done|].
  rewrite !fmap_cons. cbn [existsb]. rewrite IH, get_raw_doc.
  destruct (decide (from_option PStr PNone (r !! "id") = v)) as [Heq|Hne].
  - rewrite bool_decide_eq_true_2 by done. cbn [orb].
    symmetry. apply bool_decide_eq_true_2. rewrite <- Heq. by left.
  - rewrite (bool_decide_eq_false_2 _ Hne). cbn [orb].
    apply bool_decide_ext. rewrite elem_of_cons. split; [by right|].
    intros [->|?]; [done|done].
Qed.

Lemma row_ids_app (st st' : store) :
  row_ids (st ++ st') = row_ids st ++ row_ids st'.
Proof. unfold row_ids. by rewrite fmap_app. Qed.

(** *** What a prepared record holds *)

Lemma prepared_get (now : datetime) (d : doc) (k : string) (v : pyval) :
  d !! k = Some v ->
  k <> "updated_at"%string -> k <> "processed"%string ->
  get (finish now (staged d)) k = normalise k v.
Proof.
  intros Hv Hu Hp. unfold get.
  rewrite finish_lookup, unstamped_lookup, staged_lookup, Hv.
  rewrite (bool_decide_eq_false_2 (k = "processed"%string)) by done.
  rewrite (bool_decide_eq_false_2 (k = "updated_at"%string)) by done.
  cbn [andb fmap option_fmap option_map default].
  by case_bool_decide.
Qed.

Lemma prepared_get_blank (now : datetime) (d : doc) (k : string) :
  d !! k = None -> k ∈ fieldnames ->
  k <> "updated_at"%string -> k <> "processed"%string ->
  k <> "processing_status"%string ->
  get (finish now (staged d)) k = PStr [].
Proof.
  intros Hv Hk Hu Hp Hs. unfold get.
  rewrite finish_lookup, unstamped_lookup, staged_lookup, Hv.
  rewrite (bool_decide_eq_false_2 (k = "processed"%string)) by done.
  rewrite (bool_decide_eq_false_2 (k = "updated_at"%string)) by done.
  rewrite (bool_decide_eq_false_2 (k = "processing_status"%string)) by done.
  by rewrite (bool_decide_eq_true_2 (k ∈ fieldnames)).
Qed.

Lemma truthy_id_present (d : doc) :
  truthy (get d "id") = true -> d !! "id" <> None.
Proof. unfold get. by destruct (d !! "id"). Qed.

(** *** The outcome of [create] *)

Lemma create_unfold (disk : bool) (now : datetime) (st : store) (d : doc) :
  create disk now st d
  = if exists_ st (get d "id") || negb (truthy (get d "id")) || negb disk
    then (None, st)
    else match writer_row (finish now (staged d)) with
         | Some r => (Some (finish now (staged d)), st ++ [r])
         | None => (None, st)
         end.
Proof.
  unfold create. destruct (exists_ st (get d "id")); [done|].
  rewrite prepare_unfold.
  destruct (truthy (get d "id")) eqn:Hid; cbn [orb negb].
  - rewrite bool_decide_eq_false_2 by by apply truthy_id_present.
    by destruct disk.
  - by case_bool_decide.
Qed.

Lemma create_known (now : datetime) (st : store) (d : doc) :
  truthy (get d "id") = true ->
  exists_ st (get d "id") = false ->
  known_keys d ->
  exists r,
    create true now st d = (Some (finish now (staged d)), st ++ [r])
    /\ writer_row (finish now (staged d)) = Some r.
Proof.
  intros Hid Hnew Hd. rewrite create_unfold, Hid, Hnew. cbn [orb negb].
  rewrite writer_row_known by by apply finish_known_keys, staged_known_keys.
  by eexists.
Qed.

(** The id cell of the row of a record whose id is a string *)
Lemma created_row_id (now : datetime) (d : doc) (r : row) (i : str) :
  get d "id" = PStr i ->
  writer_row (finish now (staged d)) = Some r ->
  r !! "id" = Some i.
Proof.
  intros Hid Hw. apply writer_row_Some in Hw as [_ Hr].
  rewrite Hr. change (bool_decide ("id"%string ∈ fieldnames)) with true.
  cbn match. f_equal.
  assert (d !! "id" = Some (PStr i)) as Hlook.
  { unfold get in Hid. destruct (d !! "id") as [v|]; [|done].
    simpl in Hid. by subst. }
  by rewrite (prepared_get now d "id" (PStr i) Hlook).
Qed.

End WithRuntime.


(** X5: A record with a string id that no row carries, and with no key
    outside the columns, is created when the write goes through; a second
    [create] with the same id then returns nothing and leaves the file as
    the first one left it. *)
Theorem create_twice `{Runtime} (disk : bool) (now now' : datetime)
  (st : store) (d d' : doc) (i : str) :
  get d "id" = PStr i -> i <> [] -> get d' "id" = PStr i ->
  exists_ st (PStr i) = false ->
  known_keys d ->
  exists document st',
    create true now st d = (Some document, st')
    /\ exists_ st' (PStr i) = true
    /\ create disk now' st' d' = (None, st').
Proof.
  intros Hid Hi Hid' Hnew Hd.
  destruct (create_known now st d) as (r & Hcreate & Hw);
    [by rewrite Hid; destruct i|by rewrite Hid|done|].
  exists (finish now (staged d)), (st ++ [r]). split; [done|].
  assert (exists_ (st ++ [r]) (PStr i) = true) as Hex.
  { rewrite exists_row_ids. apply bool_decide_eq_true_2.
    rewrite row_ids_app, elem_of_app. right.
    unfold row_ids. rewrite fmap_cons, (created_row_id now d r i Hid Hw).
    by left. }
  split; [done|]. by rewrite create_unfold, Hid', Hex.
Qed.

Lemma create_twice_witness :
  exists document st',
    @create IsoRuntime.runtime true (DateTime 738946 0)
      [ {[ "id" := u "B" ]} ]
      {[ "id" := PStr (u "A"); "titre" := PStr (u "Avis") ]}
    = (Some document, st')
    /\ @exists_ IsoRuntime.runtime st' (PStr (u "A")) = true
    /\ @create IsoRuntime.runtime true (DateTime 738947 0) st'
         {[ "id" := PStr (u "A"); "titre" := PStr (u "Autre") ]}
       = (None, st').
Proof.
  apply (@create_twice IsoRuntime.runtime true (DateTime 738946 0)
           (DateTime 738947 0) [ {[ "id" := u "B" ]} ]
           {[ "id" := PStr (u "A"); "titre" := PStr (u "Avis") ]}
           {[ "id" := PStr (u "A"); "titre" := PStr (u "Autre") ]} (u "A")).
  - vm_compute; reflexivity.
  - discriminate.
  - vm_compute; reflexivity.
  - vm_compute; reflexivity.
  - apply known_keys_check. vm_compute; reflexivity.
Defined.

(** X6: [create] keeps the ids of the file pairwise distinct, for a record
    whose id, if it has one, is a string. *)
Theorem create_keeps_ids_distinct `{Runtime} (disk : bool) (now : datetime)
  (st : store) (d : doc) :
  (forall v, d !! "id" = Some v -> exists i, v = PStr i) ->
  NoDup (row_ids st) ->
  NoDup (row_ids (create disk now st d).2).
Proof.
  intros Hstr Hnd. rewrite create_unfold.
  destruct (exists_ st (get d "id")) eqn:Hex; [done|].
  destruct (truthy (get d "id")) eqn:Hid; [|done].
  destruct disk; [|done]. cbn [orb negb].
  destruct (writer_row _) as [r|] eqn:Hw; [|done]. cbn [snd].
  assert (exists i, get d "id" = PStr i) as [i Hi].
  { unfold get in *. destruct (d !! "id") as [v|] eqn:Hv; [|done].
    destruct (Hstr v eq_refl) as [i ->]. by exists i. }
  rewrite row_ids_app. apply NoDup_app. split; [done|].
  split; [|apply NoDup_singleton].
  intros x Hx Hx'. unfold row_ids in Hx'.
  rewrite fmap_cons, (created_row_id now d r i Hi Hw) in Hx'.
  apply list_elem_of_singleton in Hx'. subst x.
  rewrite Hi, exists_row_ids in Hex.
  by apply bool_decide_eq_false in Hex.
Qed.

Lemma create_keeps_ids_distinct_witness :
  NoDup (row_ids
           (@create IsoRuntime.runtime true (DateTime 738946 0)
              [ {[ "id" := u "B" ]} ]
              {[ "id" := PStr (u "A"); "titre" := PStr (u "Avis") ]}).2).
Proof.
  apply (@create_keeps_ids_distinct IsoRuntime.runtime).
  - intros v Hv. vm_compute in Hv. injection Hv as <-. by eexists.
  - apply (bool_decide_unpack _). vm_compute; reflexivity.
Defined.

End CreateFacts.

(** ** Reading a created record back *)

Module ReadBackFacts.

Import Repo PrepareFacts RepoFacts UpdateFacts ExampleFacts CreateFacts
  EscapeFacts.

Section WithRuntime.
Context `{Runtime}.

(** The keys [_parse_doc] converts to lists and times *)
Definition converted_fields : list string :=
  ["created_at"; "updated_at"; "processed"; "date"; "themes";
   "keywords"]%string.

Lemma parse_lookup (d : doc) (k : string) :
  k ∉ converted_fields ->
  _parse_doc d !! k
  = if bool_decide (k ∈ text_fields) then unescape_value <$> d !! k
    else d !! k.
Proof.
  unfold converted_fields. rewrite !not_elem_of_cons.
  intros (Hc & Hu & Hp & Hd & Ht & Hk & _). unfold _parse_doc.
  rewrite lookup_foldr_alter by (apply (bool_decide_unpack _); by vm_compute).
  rewrite bool_decide_eq_false_2
    by (rewrite !elem_of_cons, elem_of_nil; tauto).
  rewrite lookup_alter_at, (bool_decide_eq_false_2 (k = "date"%string))
    by done.
  rewrite option_fmap_id, !lookup_insert_ne by done.
  apply lookup_foldr_alter, text_fields_nodup.
Qed.

Lemma unescape_value_str (s : str) :
  unescape_value (PStr s) = PStr (_unescape_newlines s).
Proof. by destruct s. Qed.

Lemma parsed_id (r : row) :
  get (_parse_doc (raw_doc r)) "id" = get (raw_doc r) "id".
Proof.
  unfold get. rewrite parse_lookup
    by (apply (bool_decide_unpack _); by vm_compute).
  done.
Qed.

Lemma parsed_text (r : row) (k : string) (s : str) :
  k ∈ text_fields -> r !! k = Some s ->
  get (_parse_doc (raw_doc r)) k = PStr (_unescape_newlines s).
Proof.
  intros Hk Hs. unfold get. rewrite parse_lookup.
  - rewrite bool_decide_eq_true_2 by done.
    unfold raw_doc. rewrite lookup_fmap, Hs.
    cbn [fmap option_fmap option_map default]. apply unescape_value_str.
  - intros Hconv. revert Hk. unfold text_fields, converted_fields in *.
    rewrite !elem_of_cons, elem_of_nil in *.
    intros [->|[->|[->|[->|[]]]]];
      destruct Hconv as [?|[?|[?|[?|[?|[?|[]]]]]]]; discriminate.
Qed.

(** The record [get_by_id] returns once a row with a fresh id is added *)
Lemma get_by_id_appended (st : store) (r : row) (i : str) :
  exists_ st (PStr i) = false -> r !! "id" = Some i ->
  get_by_id (st ++ [r]) i = Some (_parse_doc (raw_doc r)).
Proof.
  intros Hnew Hid. unfold get_by_id, _read_all_documents.
  rewrite fmap_app, list_find_app_r.
  - rewrite fmap_cons. cbn [fmap list_fmap list_find].
    rewrite decide_True; [done|].
    rewrite parsed_id. by apply raw_id_matches.
  - apply list_find_None, Forall_fmap, Forall_forall. intros r' Hr'. simpl.
    rewrite parsed_id, get_raw_doc. intros Heq.
    rewrite exists_row_ids in Hnew. apply bool_decide_eq_false in Hnew.
    apply Hnew. rewrite <- Heq. unfold row_ids.
    by apply (list_elem_of_fmap_2
                (fun r : row => from_option PStr PNone (r !! "id"))).
Qed.

Lemma normalise_text (k : string) (t : str) :
  k ∈ text_fields ->
  normalise k (PStr t) = PStr (_escape_newlines (strip t)).
Proof.
  unfold text_fields. rewrite !elem_of_cons, elem_of_nil.
  intros [->|[->|[->|[->|[]]]]]; reflexivity.
Qed.

Lemma text_field_names (k : string) :
  k ∈ text_fields ->
  k ∈ fieldnames /\ k <> "updated_at"%string /\ k <> "processed"%string.
Proof.
  unfold text_fields. rewrite !elem_of_cons, elem_of_nil.
  intros [->|[->|[->|[->|[]]]]];
    (split; [apply (bool_decide_unpack _); by vm_compute|done]).
Qed.

(** The cell of a text field of a created record *)
Lemma created_row_text (now : datetime) (d : doc) (r : row) (k : string)
  (t : str) :
  k ∈ text_fields -> d !! k = Some (PStr t) ->
  writer_row (finish now (staged d)) = Some r ->
  r !! k = Some (_escape_newlines (strip t)).
Proof.
  intros Hk Ht Hw. destruct (text_field_names k Hk) as (Hf & Hu & Hp).
  apply writer_row_Some in Hw as [_ Hr].
  rewrite Hr, bool_decide_eq_true_2 by done. f_equal.
  by rewrite (prepared_get now d k (PStr t) Ht Hu Hp), normalise_text.
Qed.

(** *** The content cell *)

Lemma normalise_content (v : pyval) :
  truthy v = true ->
  normalise "content" v
  = if bool_decide (500 < len (py_str v))%nat then PStr []
    else PStr (py_str v).
Proof.
  intros Hv. unfold normalise.
  change (bool_decide ("content"%string ∈ text_fields)) with false.
  change (bool_decide ("content"%string = "content"%string)) with true.
  change (bool_decide ("content"%string = "keywords"%string)) with false.
  change (bool_decide ("content"%string = "themes"%string)) with false.
  cbv iota. unfold path_value. rewrite Hv. cbv zeta.
  by case_bool_decide.
Qed.

End WithRuntime.

(** X7: A record created with a fresh string id is what [get_by_id] returns
    for that id afterwards; the record read has the id, and each text
    field given as a string reads back stripped of surrounding whitespace,
    line breaks included, when the stripped text holds neither of the two
    escape sequences. *)
Theorem created_record_read_back `{Runtime} (now : datetime) (st : store)
  (d : doc) (i : str) :
  get d "id" = PStr i -> i <> [] ->
  exists_ st (PStr i) = false ->
  known_keys d ->
  exists document st' found,
    create true now st d = (Some document, st')
    /\ get_by_id st' i = Some found
    /\ get found "id" = PStr i
    /\ forall k t,
         k ∈ text_fields -> d !! k = Some (PStr t) ->
         contains NEWLINE_ESCAPE (strip t) = false ->
         contains CARRIAGE_RETURN_ESCAPE (strip t) = false ->
         get found k = PStr (strip t).
Proof.
  intros Hid Hi Hnew Hd.
  destruct (create_known now st d) as (r & Hcreate & Hw);
    [by rewrite Hid; destruct i|by rewrite Hid|done|].
  pose proof (created_row_id now d r i Hid Hw) as Hrid.
  exists (finish now (staged d)), (st ++ [r]), (_parse_doc (raw_doc r)).
  split; [done|]. split; [by apply get_by_id_appended|].
  split; [rewrite parsed_id; by apply raw_id_matches|].
  intros k t Hk Ht Hn Hr.
  rewrite (parsed_text r k _ Hk (created_row_text now d r k t Hk Ht Hw)).
  f_equal. by apply unescape_escape.
Qed.

Lemma created_record_read_back_witness :
  exists document st' found,
    @create IsoRuntime.runtime true (DateTime 738946 0)
      [ {[ "id" := u "B" ]} ]
      {[ "id" := PStr (u "A");
         "titre" := PStr ([32] ++ u "Avis" ++ [10; 13] ++ u "relatif" ++ [10]) ]}
    = (Some document, st')
    /\ @get_by_id IsoRuntime.runtime st' (u "A") = Some found
    /\ get found "id" = PStr (u "A")
    /\ get found "titre" = PStr (u "Avis" ++ [10; 13] ++ u "relatif").
Proof.
  destruct (@created_record_read_back IsoRuntime.runtime (DateTime 738946 0)
              [ {[ "id" := u "B" ]} ]
              {[ "id" := PStr (u "A");
                 "titre" := PStr ([32] ++ u "Avis" ++ [10; 13] ++ u "relatif"
                                    ++ [10]) ]}
              (u "A"))
    as (document & st' & found & Hcreate & Hget & Hid & Htext).
  - vm_compute; reflexivity.
  - discriminate.
  - vm_compute; reflexivity.
  - apply known_keys_check. vm_compute; reflexivity.
  - exists document, st', found. split; [exact Hcreate|].
    split; [exact Hget|]. split; [exact Hid|].
    apply (Htext "titre"%string
             ([32] ++ u "Avis" ++ [10; 13] ++ u "relatif" ++ [10])).
    + apply (bool_decide_unpack _). vm_compute; reflexivity.
    + vm_compute; reflexivity.
    + vm_compute; reflexivity.
    + vm_compute; reflexivity.
Defined.

(** X8: What [_prepare_doc_for_write] returns has every column of the file;
    its [updated_at] is the reading of the clock; its status is pending
    when the record gives none; and its [created_at] is empty when the
    record gives none: the clock is never used for it. *)
Theorem prepared_record_shape `{Runtime} (now : datetime)
  (d document : doc) :
  _prepare_doc_for_write now d = Some document ->
  (forall k, k ∈ fieldnames -> is_Some (document !! k))
  /\ get document "updated_at" = PStr (strftime DATE_FORMAT now)
  /\ (d !! "processing_status" = None ->
      get document "processing_status" = PStr (u "pending"))
  /\ (d !! "created_at" = None -> get document "created_at" = PStr []).
Proof.
  rewrite prepare_unfold. destruct (truthy (get d "id")); [|done].
  intros [= <-]. split; [intros k Hk; by apply finish_lookup_known|].
  split; [|split].
  - unfold get. by rewrite finish_lookup, unstamped_lookup.
  - intros Hno. unfold get.
    rewrite finish_lookup, unstamped_lookup, staged_lookup, Hno. done.
  - intros Hno. apply prepared_get_blank; try done.
    apply (bool_decide_unpack _). by vm_compute.
Qed.

Definition shape_example : doc :=
  {[ "id" := PStr (u "A"); "titre" := PStr (u "Avis") ]}.

Lemma prepared_example `{Runtime} (now : datetime) (d : doc) :
  truthy (get d "id") = true ->
  _prepare_doc_for_write now d = Some (finish now (staged d)).
Proof. intros Hid. by rewrite prepare_unfold, Hid. Qed.

Lemma prepared_record_shape_witness :
  exists document,
    @_prepare_doc_for_write IsoRuntime.runtime (DateTime 738946 0)
      shape_example = Some document
    /\ get document "updated_at" = PStr (u "2024-03-01 00:00:00")
    /\ get document "processing_status" = PStr (u "pending")
    /\ get document "created_at" = PStr [].
Proof.
  assert (@_prepare_doc_for_write IsoRuntime.runtime (DateTime 738946 0)
            shape_example
          = Some (@finish IsoRuntime.runtime (DateTime 738946 0)
                    (@staged IsoRuntime.runtime shape_example))) as Hprep
    by (apply (@prepared_example IsoRuntime.runtime); vm_compute; reflexivity).
  destruct (@prepared_record_shape IsoRuntime.runtime _ _ _ Hprep)
    as (_ & Hupdated & Hstatus & Hcreated).
  eexists. split; [exact Hprep|].
  split; [rewrite Hupdated; vm_compute; reflexivity|].
  split; [apply Hstatus|apply Hcreated]; vm_compute; reflexivity.
Defined.

(** X9: The content cell of a prepared record: a content value that is set is
    written as its text when that text has at most 500 characters, and as
    the empty string when it is longer; so the cell never holds more than
    500 characters. *)
Theorem prepared_content_is_bounded `{Runtime} (now : datetime)
  (d document : doc) (v : pyval) :
  _prepare_doc_for_write now d = Some document ->
  d !! "content" = Some v -> truthy v = true ->
  cell (get document "content")
  = (if bool_decide (500 < len (py_str v))%nat then [] else py_str v)
  /\ (len (cell (get document "content")) <= 500)%nat.
Proof.
  rewrite prepare_unfold. destruct (truthy (get d "id")); [|done].
  intros [= <-] Hv Htruthy.
  rewrite (prepared_get now d "content" v Hv) by done.
  rewrite normalise_content by done.
  case_bool_decide as Hlong; cbn [cell py_str]; [by split; [|simpl; lia]|].
  split; [done|lia].
Qed.

Definition long_content_example : doc :=
  {[ "id" := PStr (u "A"); "content" := PStr (replicate 501 97) ]}.

Lemma prepared_content_is_bounded_witness :
  exists document,
    @_prepare_doc_for_write IsoRuntime.runtime (DateTime 738946 0)
      long_content_example = Some document
    /\ @cell IsoRuntime.runtime (get document "content") = [].
Proof.
  assert (@_prepare_doc_for_write IsoRuntime.runtime (DateTime 738946 0)
            long_content_example
          = Some (@finish IsoRuntime.runtime (DateTime 738946 0)
                    (@staged IsoRuntime.runtime long_content_example)))
    as Hprep
    by (apply (@prepared_example IsoRuntime.runtime); vm_compute; reflexivity).
  destruct (@prepared_content_is_bounded IsoRuntime.runtime _ _ _
              (PStr (replicate 501 97)) Hprep) as [Hcell _].
  - vm_compute; reflexivity.
  - vm_compute; reflexivity.
  - eexists. split; [exact Hprep|]. rewrite Hcell.
    vm_compute; reflexivity.
Defined.

End ReadBackFacts.

(** ** Deleting, counting and updating rows *)

Module RowFacts.

Import Repo PrepareFacts RepoFacts UpdateFacts ExampleFacts CreateFacts
  Queries.

(** The row carries one of the ids to delete. *)
Definition targeted (ids : list str) (r : row) : bool :=
  bool_decide (from_option PStr PNone (r !! "id") ∈ (PStr <$> ids)).

(** Two rows with the same cells in every column *)
Definition same_cells (r r' : row) : Prop :=
  forall k, k ∈ fieldnames -> field r' k = field r k.

Lemma filter_all {A} (f : A -> bool) (l : list A) :
  length (List.filter f l) = length l -> List.filter f l = l.
Proof.
  induction l as [|x l IH]; [done|]. simpl.
  destruct (f x); simpl.
  - intros Hlen. f_equal. apply IH. lia.
  - pose proof (List.filter_length_le f l). lia.
Qed.

Section WithRuntime.
Context `{Runtime}.

Lemma filter_read (ids : list str) (st : store) :
  List.filter (fun d => negb (bool_decide (get d "id" ∈ (PStr <$> ids))))
              (_read_all_documents false st)
  = _read_all_documents false
      (List.filter (fun r => negb (targeted ids r)) st).
Proof.
  unfold _read_all_documents, targeted.
  induction st as [|r st IH]; [done|].
  rewrite fmap_cons. cbn [List.filter]. rewrite IH, get_raw_doc.
  by destruct (bool_decide _).
Qed.

Lemma read_length (parse : bool) (st : store) :
  length (_read_all_documents parse st) = length st.
Proof. unfold _read_all_documents. by rewrite length_fmap. Qed.

(** Writing the rows as they were read gives rows with the same cells. *)
Lemma write_raw (disk : bool) (st st' : store) :
  _write_all_documents disk (_read_all_documents false st) = Some st' ->
  Forall2 same_cells st st'.
Proof.
  unfold _write_all_documents. destruct disk; [|done].
  intros Hall%mapM_Some. unfold _read_all_documents in Hall.
  apply Forall2_fmap_l in Hall.
  eapply Forall2_impl; [exact Hall|]. intros r r' Hw k Hk. simpl in Hw.
  by rewrite (writer_row_field _ _ k Hw Hk), cell_raw.
Qed.

Lemma same_cells_refl (st : store) : Forall2 same_cells st st.
Proof. apply Forall_Forall2_diag, Forall_forall. by intros r _ k _. Qed.

Lemma delete_documents_unfold (disk : bool) (st : store)
  (document_ids : list str) :
  delete_documents disk st document_ids
  = let kept := List.filter (fun r => negb (targeted document_ids r)) st in
    let deleted := length (List.filter (targeted document_ids) st) in
    if (0 <? deleted)%nat
    then st' ← _write_all_documents disk (_read_all_documents false kept);
         Some (deleted, st')
    else Some (0%nat, st).
Proof.
  cbv zeta.
  pose proof (List.filter_length (targeted document_ids) st) as Hlen.
  destruct document_ids as [|i ids].
  - unfold delete_documents.
    assert (List.filter (targeted []) st = []) as ->; [|done].
    clear Hlen. induction st as [|r st IH]; [done|]. cbn [List.filter].
    assert (targeted [] r = false) as ->; [|done].
    apply bool_decide_eq_false_2. rewrite fmap_nil. apply not_elem_of_nil.
  - unfold delete_documents. rewrite filter_read, !read_length.
    assert (length st
              - length (List.filter (fun r => negb (targeted (i :: ids) r)) st)
            = length (List.filter (targeted (i :: ids)) st))%nat as ->
      by lia.
    destruct (0 <? _)%nat eqn:Hpos; [done|].
    apply Nat.ltb_ge in Hpos. do 2 f_equal. lia.
Qed.

End WithRuntime.

(** X10: [delete_documents] returns the number of rows that carry one of the
    ids; the file then holds the other rows, in order and with the cells
    they had; no row is left with one of the (non-empty) ids. *)
Theorem delete_documents_removes `{Runtime} (disk : bool) (st st' : store)
  (document_ids : list str) (n : nat) :
  delete_documents disk st document_ids = Some (n, st') ->
  n = length (List.filter (targeted document_ids) st)
  /\ Forall2 same_cells
       (List.filter (fun r => negb (targeted document_ids r)) st) st'
  /\ (length st' + n = length st)%nat
  /\ (forall r' i, r' ∈ st' -> i ∈ document_ids -> i <> [] ->
        field r' "id" <> i).
Proof.
  rewrite delete_documents_unfold. cbv zeta. intros Hdel.
  pose proof (List.filter_length (targeted document_ids) st) as Hlen.
  assert (n = length (List.filter (targeted document_ids) st)
          /\ Forall2 same_cells
               (List.filter (fun r => negb (targeted document_ids r)) st) st')
    as [Hn Hcells].
  { destruct (0 <? _)%nat eqn:Hpos.
    - destruct (_write_all_documents _ _) as [rows|] eqn:Hw; [|done].
      injection Hdel as <- <-. split; [done|]. by eapply write_raw.
    - injection Hdel as <- <-. apply Nat.ltb_ge in Hpos.
      split; [lia|]. rewrite filter_all by lia. apply same_cells_refl. }
  split; [done|]. split; [done|]. split.
  { apply Forall2_length in Hcells. lia. }
  intros r' i Hr' Hi Hne Hid.
  apply list_elem_of_lookup in Hr' as [j Hj].
  destruct (Forall2_lookup_r _ _ _ _ _ Hcells Hj) as (r & Hr & Hsame).
  apply list_elem_of_lookup_2, list_elem_of_In, List.filter_In in Hr
    as [_ Hkept].
  apply negb_true_iff, bool_decide_eq_false in Hkept. apply Hkept.
  rewrite Hsame in Hid by (apply (bool_decide_unpack _); by vm_compute).
  unfold field in Hid. destruct (r !! "id") as [s|]; simpl in *; [|done].
  subst s. by apply list_elem_of_fmap_2.
Qed.

Definition delete_example : store :=
  [ {[ "id" := u "A"; "titre" := u "Avis" ]};
    {[ "id" := u "B"; "titre" := u "Décret" ]};
    {[ "id" := u "A"; "titre" := u "Arrêté" ]} ].

Lemma delete_documents_removes_witness :
  exists st',
    @delete_documents IsoRuntime.runtime true delete_example [u "A"]
    = Some (2%nat, st')
    /\ length st' = 1%nat
    /\ forall r', r' ∈ st' -> field r' "id" <> u "A".
Proof.
  destruct (@delete_documents IsoRuntime.runtime true delete_example [u "A"])
    as [[n st']|] eqn:Hdel.
  2: { exfalso.
       assert (is_Some (@delete_documents IsoRuntime.runtime true
                          delete_example [u "A"])) as [x Hx].
       { apply (bool_decide_unpack _). vm_compute. reflexivity. }
       congruence. }
  destruct (@delete_documents_removes IsoRuntime.runtime _ _ _ _ _ Hdel)
    as (Hn & _ & Hlen & Hids).
  assert (n = 2%nat) as -> by (rewrite Hn; vm_compute; reflexivity).
  exists st'. split; [reflexivity|].
  split; [change (length delete_example) with 3%nat in Hlen; lia|].
  intros r' Hr'. apply Hids; [done|by left|discriminate].
Defined.

(** X11: A successful update changes one row only, the first that carries the
    id: the file keeps its length and every other row keeps its cells. *)
Theorem update_document_touches_one_row `{Runtime} (disk : bool)
  (t1 t2 : datetime) (st st' : store) (document_id : str) (updates : doc) :
  update_document disk t1 t2 st document_id updates = (true, st') ->
  exists i r,
    st !! i = Some r /\ r !! "id" = Some document_id
    /\ (forall j r0, (j < i)%nat -> st !! j = Some r0 ->
          r0 !! "id" <> Some document_id)
    /\ length st' = length st
    /\ (forall j r0, j <> i -> st !! j = Some r0 ->
          exists r0', st' !! j = Some r0' /\ same_cells r0 r0').
Proof.
  intros Hupd.
  destruct (list_find (fun d => get d "id" = PStr document_id)
                      (_read_all_documents false st))
    as [[i d]|] eqn:Hfind.
  2: { unfold update_document in Hupd. by rewrite Hfind in Hupd. }
  destruct (find_raw_row st document_id i d Hfind) as (r & Hr & -> & Hid).
  rewrite (update_document_found disk t1 t2 st document_id updates i r Hfind)
    in Hupd.
  destruct (truthy _); [|done].
  destruct (_write_all_documents _ _) as [rows|] eqn:Hw; [|done].
  injection Hupd as <-.
  exists i, r. split; [done|]. split; [done|]. split; [|split].
  - intros j r0 Hj Hr0. apply list_find_Some in Hfind as (_ & _ & Hfirst).
    rewrite <- raw_id_matches. apply (Hfirst j); [|done].
    unfold _read_all_documents. by rewrite list_lookup_fmap, Hr0.
  - rewrite (written_length _ _ _ Hw), length_insert. apply read_length.
  - intros j r0 Hj Hr0.
    destruct (written_row disk _ rows j (raw_doc r0) Hw) as (r0' & Hr0' & Hrow).
    { rewrite list_lookup_insert_ne by done.
      unfold _read_all_documents. by rewrite list_lookup_fmap, Hr0. }
    exists r0'. split; [done|]. intros k Hk.
    by rewrite (writer_row_field _ _ k Hrow Hk), cell_raw.
Qed.

Definition update_example : store :=
  [ {[ "id" := u "A"; "titre" := u "Avis" ]};
    {[ "id" := u "B"; "titre" := u "Décret" ]} ].

Definition update_example_result : bool * store :=
  @update_document IsoRuntime.runtime true (DateTime 738946 0)
    (DateTime 738946 0) update_example (u "B")
    {[ "titre" := PStr (u "Arrêté") ]}.

Lemma update_document_touches_one_row_witness :
  exists r0',
    update_example_result.2 !! 0%nat = Some r0'
    /\ field r0' "titre" = u "Avis"
    /\ length update_example_result.2 = 2%nat.
Proof.
  assert (@update_document IsoRuntime.runtime true (DateTime 738946 0)
            (DateTime 738946 0) update_example (u "B")
            {[ "titre" := PStr (u "Arrêté") ]}
          = (true, update_example_result.2)) as Hupd
    by (apply succeeded; vm_compute; reflexivity).
  destruct (@update_document_touches_one_row IsoRuntime.runtime _ _ _ _ _ _ _
              Hupd) as (i & r & Hr & Hid & _ & Hlen & Hothers).
  assert (i = 1%nat) as ->.
  { apply lookup_lt_Some in Hr as Hlt.
    change (length update_example) with 2%nat in Hlt.
    destruct i as [|[|i]]; [|done|simpl in Hlt; lia].
    exfalso. injection Hr as <-. vm_compute in Hid. discriminate Hid. }
  destruct (Hothers 0%nat {[ "id" := u "A"; "titre" := u "Avis" ]})
    as (r0' & Hr0' & Hsame); [done|reflexivity|].
  exists r0'. split; [exact Hr0'|]. split; [|exact Hlen].
  rewrite Hsame by (apply (bool_decide_unpack _); vm_compute; reflexivity).
  vm_compute; reflexivity.
Defined.

(** X12: Counting after a creation: the count of the source of the new record
    grows by one, the count of every other source stays. *)
Theorem create_counts_by_source `{Runtime} (now : datetime) (st : store)
  (d : doc) (i s : str) :
  get d "id" = PStr i -> i <> [] ->
  exists_ st (PStr i) = false ->
  known_keys d ->
  d !! "source" = Some (PStr s) ->
  exists document st',
    create true now st d = (Some document, st')
    /\ forall s',
         count_by_source st' s'
         = (count_by_source st s' + if bool_decide (s' = s) then 1 else 0)%nat.
Proof.
  intros Hid Hi Hnew Hd Hs.
  destruct (create_known now st d) as (r & Hcreate & Hw);
    [by rewrite Hid; destruct i|by rewrite Hid|done|].
  exists (finish now (staged d)), (st ++ [r]). split; [done|].
  intros s'. unfold count_by_source, _read_all_documents.
  rewrite fmap_app, List.filter_app, length_app. f_equal.
  rewrite fmap_cons. cbn [fmap list_fmap List.filter].
  rewrite get_raw_doc.
  apply writer_row_Some in Hw as [_ Hr]. rewrite Hr.
  change (bool_decide ("source"%string ∈ fieldnames)) with true. cbn match.
  rewrite (prepared_get now d "source" (PStr s) Hs) by done.
  change (normalise "source" (PStr s)) with (PStr s).
  cbn [cell py_str from_option].
  destruct (decide (s' = s)) as [->|Hne].
  - by rewrite !bool_decide_eq_true_2.
  - rewrite !bool_decide_eq_false_2; [done|done|congruence].
Qed.

Lemma create_counts_by_source_witness :
  exists document st',
    @create IsoRuntime.runtime true (DateTime 738946 0)
      [ {[ "id" := u "B"; "source" := u "JORF" ]} ]
      {[ "id" := PStr (u "A"); "source" := PStr (u "JORF") ]}
    = (Some document, st')
    /\ @count_by_source IsoRuntime.runtime st' (u "JORF") = 2%nat
    /\ @count_by_source IsoRuntime.runtime st' (u "EURLEX") = 0%nat.
Proof.
  destruct (@create_counts_by_source IsoRuntime.runtime (DateTime 738946 0)
              [ {[ "id" := u "B"; "source" := u "JORF" ]} ]
              {[ "id" := PStr (u "A"); "source" := PStr (u "JORF") ]}
              (u "A") (u "JORF"))
    as (document & st' & Hcreate & Hcount).
  - vm_compute; reflexivity.
  - discriminate.
  - vm_compute; reflexivity.
  - apply known_keys_check. vm_compute; reflexivity.
  - vm_compute; reflexivity.
  - exists document, st'. split; [exact Hcreate|].
    split; rewrite Hcount; vm_compute; reflexivity.
Defined.

End RowFacts.

(** ** The vocabulary of the applicability classification *)

Module VocabularyFacts.

Import Repo Processor ApplicabilityFacts.

(** Every [category/type] of [APPLICABILITY_CATEGORIES] *)
Definition vocabulary : list str :=
  p ← APPLICABILITY_CATEGORIES; (fun t => p.1 ++ [47] ++ t) <$> p.2.

Lemma lookup_category_elem (table : list (str * list str))
  (category : str) (valid_types : list str) :
  lookup_category table category = Some valid_types ->
  (category, valid_types) ∈ table.
Proof.
  induction table as [|[c types] table IH]; [done|]. cbn [lookup_category].
  case_bool_decide as Hc.
  - intros [= <-]. subst. by left.
  - intros Hl. right. by apply IH.
Qed.

Lemma typed_in_vocabulary (category : str) (valid_types : list str)
  (t : str) :
  lookup_category APPLICABILITY_CATEGORIES category = Some valid_types ->
  t ∈ valid_types ->
  category ++ [47] ++ t ∈ vocabulary.
Proof.
  intros Hl%lookup_category_elem Ht. unfold vocabulary.
  apply list_elem_of_bind. exists (category, valid_types).
  split; [|done]. simpl.
  by apply (list_elem_of_fmap_2 (fun t => category ++ [47] ++ t)).
Qed.

Lemma first_type_elem (category : str) (valid_types : list str) :
  lookup_category APPLICABILITY_CATEGORIES category = Some valid_types ->
  hd [] valid_types ∈ valid_types.
Proof.
  unfold APPLICABILITY_CATEGORIES. cbn [lookup_category].
  repeat case_bool_decide; intros Heq; try discriminate Heq;
    injection Heq as <-; by left.
Qed.

Lemma match_type_elem (valid_types : list str) (response t : str) :
  match_type valid_types response = Some t -> t ∈ valid_types.
Proof.
  unfold match_type. intros [Hin _]%List.find_some. by apply list_elem_of_In.
Qed.

Lemma fallback_in_vocabulary (response_lower : str) :
  match fallback_category response_lower with
  | Some category =>
      category ++ [47]
        ++ hd [] (default [] (lookup_category APPLICABILITY_CATEGORIES category))
  | None => u "information/Avis"
  end ∈ vocabulary.
Proof.
  unfold fallback_category. cbn [List.find].
  repeat match goal with
         | |- context [contains ?c response_lower] =>
             destruct (contains c response_lower)
         end;
    apply (bool_decide_unpack _); vm_compute; exact I.
Qed.

Lemma vocabulary_stored_as_is :
  Forall (fun a => _escape_newlines (strip a) = a) vocabulary.
Proof. apply (bool_decide_unpack _). vm_compute. exact I. Qed.

Lemma classification_of_elem (response : str) :
  classification_of response ∈ vocabulary.
Proof.
  unfold classification_of.
  destruct (contains [47] (clean_response response));
    [|apply fallback_in_vocabulary].
  destruct (split_once 47 (clean_response response)) as [part0 part1].
  destruct (lookup_category _ _) as [valid_types|] eqn:Hl;
    [|apply fallback_in_vocabulary].
  destruct (match_type _ _) as [t|] eqn:Hm.
  - apply (typed_in_vocabulary _ valid_types); [done|].
    by eapply match_type_elem.
  - apply (typed_in_vocabulary _ valid_types); [done|].
    by eapply first_type_elem.
Qed.

(** X13: Whatever the model answers, the classification is one of the
    [category/type] pairs of [APPLICABILITY_CATEGORIES], and the cleaning
    the repository applies to a text field leaves it as it is. *)
Theorem classification_in_vocabulary (response : str) :
  classification_of response ∈ vocabulary
  /\ _escape_newlines (strip (classification_of response))
     = classification_of response.
Proof.
  pose proof (classification_of_elem response) as Hin. split; [done|].
  pose proof vocabulary_stored_as_is as Hall. rewrite Forall_forall in Hall.
  by apply Hall.
Qed.

(** *** The excerpt sent for classification *)

(** X14: A content of at most 15000 characters goes in full; of a longer one
    the first 10000 and the last 5000 characters go, around a marker of
    nine characters. *)
Theorem excerpt_bounds (content : str) :
  ((len content <= 15000)%nat -> excerpt content = content)
  /\ ((15000 < len content)%nat ->
      len (excerpt content) = 15009%nat
      /\ prefix_of 10000 (excerpt content) = prefix_of 10000 content
      /\ suffix_of 5000 (excerpt content) = suffix_of 5000 content)
  /\ (len (excerpt content) <= 15009)%nat.
Proof.
  unfold excerpt, len, prefix_of, suffix_of.
  assert (length ELISION_MARKER = 9%nat) as Hmark by (by vm_compute).
  assert (15000 = 15 * 1000)%nat as H15 by (vm_compute; reflexivity).
  assert (10000 = 10 * 1000)%nat as H10 by (vm_compute; reflexivity).
  assert (15009 = 15 * 1000 + 9)%nat as H159 by (vm_compute; reflexivity).
  assert (5000 = 5 * 1000)%nat as H5 by (vm_compute; reflexivity).
  rewrite H15, H10, H159, H5.
  case_bool_decide as Hlong.
  - assert (length (take (10 * 1000) content ++ ELISION_MARKER
                      ++ drop (length content - 5 * 1000) content)
            = 15 * 1000 + 9)%nat as Hlen.
    { rewrite !length_app, length_take, length_drop, Hmark. lia. }
    split; [lia|]. split; [|lia]. intros _.
    split; [done|]. split.
    + rewrite take_app_le by (rewrite length_take; lia).
      rewrite take_take. f_equal; lia.
    + rewrite Hlen. rewrite app_assoc.
      rewrite drop_app_ge by (rewrite length_app, length_take, Hmark; lia).
      rewrite length_app, length_take, Hmark.
      rewrite drop_drop. f_equal; lia.
  - split; [done|]. split; lia.
Qed.

Lemma excerpt_bounds_witness :
  len (excerpt (replicate 15001 97)) = 15009%nat
  /\ excerpt (replicate 15000 97) = replicate 15000 97.
Proof.
  destruct (excerpt_bounds (replicate 15001 97)) as (_ & Hlong & _).
  destruct (excerpt_bounds (replicate 15000 97)) as (Hshort & _).
  split.
  - apply Hlong. unfold len. rewrite length_replicate.
    apply Nat.ltb_lt. vm_compute. reflexivity.
  - apply Hshort. unfold len. rewrite length_replicate.
    apply Nat.leb_le. vm_compute. reflexivity.
Defined.

End VocabularyFacts.

(** ** What an update writes, and the enrichment of a record *)

Module PipelineFacts.

Import Repo Processor PrepareFacts RepoFacts UpdateFacts ExampleFacts
  CreateFacts ReadBackFacts RowFacts VocabularyFacts.

Section WithRuntime.
Context `{Runtime}.

(** The columns [update_document] does not take from the prepared record
    as they are *)
Definition stamped_fields : list string :=
  ["id"; "created_at"; "updated_at"; "processed"]%string.

Lemma updated_cell (t1 t2 : datetime) (r r' : row) (updates : doc)
  (k : string) (v : pyval) :
  writer_row (updated_doc t1 t2 r updates) = Some r' ->
  k ∈ fieldnames -> k ∉ stamped_fields ->
  (updates ∪ raw_doc r) !! k = Some v ->
  field r' k = cell (normalise k v).
Proof.
  intros Hw Hk Hno Hv. unfold stamped_fields in Hno.
  rewrite !not_elem_of_cons in Hno. destruct Hno as (Hid & Hc & Hu & Hp & _).
  rewrite (writer_row_field _ _ k Hw Hk), updated_doc_get by done. cbv zeta.
  rewrite bool_decide_eq_false_2
    by (rewrite !elem_of_cons, elem_of_nil; tauto).
  rewrite (bool_decide_eq_false_2 (k = "updated_at"%string)) by done.
  rewrite (bool_decide_eq_false_2 (k = "processed"%string)) by done.
  cbn [andb]. by rewrite (prepared_get t1 _ k v Hv Hu Hp).
Qed.

Lemma updated_cell_blank (t1 t2 : datetime) (r r' : row) (updates : doc)
  (k : string) :
  writer_row (updated_doc t1 t2 r updates) = Some r' ->
  k ∈ fieldnames -> k ∉ stamped_fields -> k <> "processing_status"%string ->
  (updates ∪ raw_doc r) !! k = None ->
  field r' k = [].
Proof.
  intros Hw Hk Hno Hs Hv. unfold stamped_fields in Hno.
  rewrite !not_elem_of_cons in Hno. destruct Hno as (Hid & Hc & Hu & Hp & _).
  rewrite (writer_row_field _ _ k Hw Hk), updated_doc_get by done. cbv zeta.
  rewrite bool_decide_eq_false_2
    by (rewrite !elem_of_cons, elem_of_nil; tauto).
  rewrite (bool_decide_eq_false_2 (k = "updated_at"%string)) by done.
  rewrite (bool_decide_eq_false_2 (k = "processed"%string)) by done.
  cbn [andb]. by rewrite (prepared_get_blank t1 _ k Hv Hk Hu Hp Hs).
Qed.

(** The text the formatting steps make of a stored cell *)
Definition renormalised (k : string) (s : str) : str :=
  if bool_decide (k ∈ text_fields) then _escape_newlines (strip s)
  else if bool_decide (k = "content"%string) && (500 <? len s)%nat then []
  else s.

Lemma text_field_not_content (k : string) :
  k ∈ text_fields -> k <> "content"%string.
Proof.
  unfold text_fields. rewrite !elem_of_cons, elem_of_nil.
  by intros [->|[->|[->|[->|[]]]]].
Qed.

Lemma normalise_str (k : string) (s : str) :
  normalise k (PStr s) = PStr (renormalised k s).
Proof.
  unfold renormalised.
  destruct (decide (k = "content"%string)) as [->|Hc].
  - change (bool_decide ("content"%string ∈ text_fields)) with false.
    change (bool_decide ("content"%string = "content"%string)) with true.
    cbn [andb]. destruct s as [|c s]; [reflexivity|].
    rewrite normalise_content by done. cbn [py_str].
    destruct (Nat.ltb_spec 500 (len (c :: s))).
    + by rewrite bool_decide_eq_true_2.
    + by rewrite bool_decide_eq_false_2 by lia.
  - rewrite (bool_decide_eq_false_2 (k = "content"%string)) by done.
    cbn [andb].
    destruct (decide (k ∈ text_fields)) as [Hk|Hk].
    { rewrite bool_decide_eq_true_2 by done. by apply normalise_text. }
    rewrite bool_decide_eq_false_2 by done. unfold normalise.
    rewrite (bool_decide_eq_false_2 (k ∈ text_fields)) by done.
    rewrite (bool_decide_eq_false_2 (k = "content"%string)) by done.
    cbn [format_date]. by repeat case_bool_decide.
Qed.

Lemma renormalised_empty (k : string) : renormalised k [] = [].
Proof. unfold renormalised. by repeat case_bool_decide. Qed.

Lemma field_Some (r : row) (k : string) (s : str) :
  r !! k = Some s -> field r k = s.
Proof. intros Hs. apply (f_equal (default [])) in Hs. exact Hs. Qed.

Lemma field_None (r : row) (k : string) : r !! k = None -> field r k = [].
Proof. intros Hs. apply (f_equal (default [])) in Hs. exact Hs. Qed.

(** *** Finding the row of a record *)

Lemma get_by_id_raw (st : store) (document_id : str) (d : doc) :
  get_by_id st document_id = Some d ->
  exists i r,
    list_find (fun d => get d "id" = PStr document_id)
              (_read_all_documents false st) = Some (i, raw_doc r)
    /\ st !! i = Some r /\ d = _parse_doc (raw_doc r).
Proof.
  unfold get_by_id.
  destruct (list_find _ _) as [[i d']|] eqn:Hfind; [|done].
  intros [= <-]. apply list_find_Some in Hfind as (Hi & Hid & Hfirst).
  unfold _read_all_documents in Hi. rewrite list_lookup_fmap in Hi.
  destruct (st !! i) as [r|] eqn:Hr; [|done]. injection Hi as <-.
  exists i, r. split; [|done]. apply list_find_Some.
  split; [|split].
  - unfold _read_all_documents. by rewrite list_lookup_fmap, Hr.
  - by rewrite <- parsed_id.
  - intros j y Hy Hj. unfold _read_all_documents in Hy.
    rewrite list_lookup_fmap in Hy.
    destruct (st !! j) as [rj|] eqn:Hrj; [|done]. injection Hy as <-.
    rewrite <- parsed_id. apply (Hfirst j); [|done].
    unfold _read_all_documents. by rewrite list_lookup_fmap, Hrj.
Qed.

Lemma update_document_succeeds (t1 t2 : datetime) (st : store)
  (document_id : str) (updates : doc) (i : nat) (r : row) :
  list_find (fun d => get d "id" = PStr document_id)
            (_read_all_documents false st) = Some (i, raw_doc r) ->
  document_id <> [] -> updates !! "id" = None ->
  Forall known_keys st ->
  exists st', update_document true t1 t2 st document_id updates = (true, st').
Proof.
  intros Hfind Hid Hno Hknown.
  rewrite (update_document_found true t1 t2 st document_id updates i r Hfind).
  apply list_find_Some in Hfind as (Hi & Hget & _).
  assert (known_keys r) as Hr.
  { unfold _read_all_documents in Hi. rewrite list_lookup_fmap in Hi.
    destruct (st !! i) as [r0|] eqn:Hr0; [|done]. injection Hi as Heq.
    rewrite Forall_forall in Hknown.
    assert (known_keys r0) as Hr0k
      by (apply Hknown; by eapply list_elem_of_lookup_2).
    intros k [s Hs]. apply Hr0k.
    assert (raw_doc r0 !! k = raw_doc r !! k) as Hk by by rewrite Heq.
    unfold raw_doc in Hk. rewrite !lookup_fmap, Hs in Hk.
    destruct (r0 !! k); [by eexists|done]. }
  assert (truthy (get (updates ∪ raw_doc r) "id") = true) as ->.
  { unfold get in *. rewrite lookup_union_r by done.
    destruct (raw_doc r !! "id") as [v|]; [|done]. simpl in Hget. subst v.
    by destruct document_id. }
  destruct (write_known
              (<[i := updated_doc t1 t2 r updates]>
                 (_read_all_documents false st))) as [st' Hw].
  { apply Forall_insert; [|by apply updated_doc_known].
    unfold _read_all_documents. apply Forall_fmap.
    eapply Forall_impl; [exact Hknown|]. intros r0 Hr0. simpl.
    by apply raw_doc_known. }
  exists st'. by rewrite Hw.
Qed.

End WithRuntime.

(** X15: What a successful update makes of the columns its dictionary does not
    name: a text field is stripped and has its line breaks escaped again,
    a content cell of more than 500 characters is emptied, and every other
    cell is kept.  ([id], [created_at], [updated_at], [processed] and
    [processing_status] have their own rules.) *)
Theorem update_document_renormalises `{Runtime} (disk : bool)
  (t1 t2 : datetime) (st st' : store) (document_id : str) (updates : doc) :
  update_document disk t1 t2 st document_id updates = (true, st') ->
  exists i r r',
    st !! i = Some r /\ r !! "id" = Some document_id /\ st' !! i = Some r'
    /\ forall k,
         k ∈ fieldnames -> k ∉ stamped_fields ->
         k <> "processing_status"%string -> updates !! k = None ->
         field r' k
         = if bool_decide (k ∈ text_fields)
           then _escape_newlines (strip (field r k))
           else if bool_decide (k = "content"%string)
                   && (500 <? len (field r k))%nat
           then []
           else field r k.
Proof.
  intros Hupd.
  destruct (update_document_true disk t1 t2 st st' document_id updates Hupd)
    as (i & r & r' & Hr & Hid & Hr' & Hrow & _).
  exists i, r, r'. split; [done|]. split; [done|]. split; [done|].
  intros k Hk Hno Hs Hupdk.
  change (field r' k = renormalised k (field r k)).
  destruct (r !! k) as [s|] eqn:Hrk.
  - rewrite (updated_cell t1 t2 r r' updates k (PStr s) Hrow Hk Hno).
    + by rewrite normalise_str, (field_Some r k s Hrk).
    + rewrite lookup_union_r by done. unfold raw_doc.
      by rewrite lookup_fmap, Hrk.
  - rewrite (updated_cell_blank t1 t2 r r' updates k Hrow Hk Hno Hs).
    + by rewrite (field_None r k Hrk), renormalised_empty.
    + rewrite lookup_union_r by done. unfold raw_doc.
      by rewrite lookup_fmap, Hrk.
Qed.

Definition padded_example : store :=
  [ {[ "id" := u "A"; "titre" := u " Avis "; "url" := u " u " ]} ].

Definition padded_result : bool * store :=
  @update_document IsoRuntime.runtime true (DateTime 738946 0)
    (DateTime 738946 0) padded_example (u "A")
    {[ "processing_status" := PStr (u "error") ]}.

Lemma update_document_renormalises_witness :
  exists r',
    padded_result.2 !! 0%nat = Some r'
    /\ field r' "titre" = u "Avis"
    /\ field r' "url" = u " u ".
Proof.
  assert (@update_document IsoRuntime.runtime true (DateTime 738946 0)
            (DateTime 738946 0) padded_example (u "A")
            {[ "processing_status" := PStr (u "error") ]}
          = (true, padded_result.2)) as Hupd
    by (apply succeeded; vm_compute; reflexivity).
  destruct (@update_document_renormalises IsoRuntime.runtime _ _ _ _ _ _ _
              Hupd) as (i & r & r' & Hr & _ & Hr' & Hcells).
  assert (i = 0%nat) as ->.
  { apply lookup_lt_Some in Hr.
    change (length padded_example) with 1%nat in Hr. lia. }
  exists r'. split; [exact Hr'|]. split.
  - rewrite (Hcells "titre"%string);
      [rewrite (field_cell_at _ _ _ _ Hr); vm_compute; reflexivity
      |apply (bool_decide_unpack _); vm_compute; reflexivity
      |apply (bool_decide_unpack _); vm_compute; reflexivity
      |discriminate
      |vm_compute; reflexivity].
  - rewrite (Hcells "url"%string);
      [rewrite (field_cell_at _ _ _ _ Hr); vm_compute; reflexivity
      |apply (bool_decide_unpack _); vm_compute; reflexivity
      |apply (bool_decide_unpack _); vm_compute; reflexivity
      |discriminate
      |vm_compute; reflexivity].
Defined.

Section WithService.
Context `{Runtime} `{LLMService}.
Variable one_shot_limit_tokens : nat.

Lemma enrichment_Some (content : str) (d updates : doc) :
  enrichment one_shot_limit_tokens content d = Some updates ->
  exists summary applicability,
    _generate_one_shot_summary one_shot_limit_tokens content d = Some summary
    /\ _classify_applicability content d = Some applicability
    /\ updates !! "summary" = Some (PStr summary)
    /\ updates !! "applicability" = Some (PStr applicability)
    /\ updates !! "themes" = Some (PList (_classify_themes content d))
    /\ updates !! "keywords" = Some PNone
    /\ updates !! "processing_status" = Some (PStr (u "processed")).
Proof.
  unfold enrichment.
  destruct (_generate_one_shot_summary _ _ _) as [summary|]; [|done].
  destruct (_classify_applicability _ _) as [applicability|]; [|done].
  cbn [mbind option_bind]. intros [= <-].
  exists summary, applicability. repeat split; reflexivity.
Qed.

Lemma enrichment_None (content : str) (d : doc) :
  _generate_one_shot_summary one_shot_limit_tokens content d = None
  \/ _classify_applicability content d = None ->
  enrichment one_shot_limit_tokens content d = None.
Proof.
  unfold enrichment. intros [->|Hc]; [done|].
  destruct (_generate_one_shot_summary _ _ _); [|done].
  cbn [mbind option_bind]. by rewrite Hc.
Qed.

Lemma applicability_in_vocabulary (content : str) (d : doc) (a : str) :
  _classify_applicability content d = Some a ->
  a ∈ vocabulary /\ _escape_newlines (strip a) = a.
Proof.
  unfold _classify_applicability.
  destruct (generate _ _ _) as [response|]; [|done].
  cbn [mbind option_bind]. intros [= <-].
  pose proof (classification_of_elem response) as Hin. split; [done|].
  pose proof vocabulary_stored_as_is as Hall. rewrite Forall_forall in Hall.
  by apply Hall.
Qed.

Lemma process_document_unfold (fs : str -> option str) (disk : bool)
  (t1 t2 : datetime) (st : store) (document_id : str) :
  process_document one_shot_limit_tokens fs disk t1 t2 st document_id
  = match get_by_id st document_id with
    | None => (false, st)
    | Some d =>
        match read_content_from_file fs (get d "content") with
        | Some ((_ :: _) as content) =>
            match enrichment one_shot_limit_tokens content d with
            | Some updates =>
                update_document disk t1 t2 st document_id updates
            | None =>
                (false,
                 (update_processing_status disk t1 t2 st document_id
                    (u "error")).2)
            end
        | _ => (false, st)
        end
    end.
Proof.
  unfold process_document.
  destruct (get_by_id st document_id) as [d|]; [|done].
  case_bool_decide as Hempty.
  { subst d. unfold get. by rewrite lookup_empty. }
  destruct (get d "content") as [|[|c p]|l|t|day] eqn:Hc;
    [done|done| |by destruct l|done|done].
  cbn [truthy nonempty negb read_content_from_file].
  destruct (fs (c :: p)) as [[|x content]|]; done.
Qed.

End WithService.

Ltac column := apply (bool_decide_unpack _); by vm_compute.

(** X16: A successful [process_document]: the content of the record was read,
    both generation calls answered, and the row of the record now has the
    status processed, the summary (stripped, line breaks escaped), the
    applicability, which is one of the vocabulary, the themes joined by a
    comma and a space, and no keywords. *)
Theorem process_document_success `{Runtime} `{LLMService} (limit : nat)
  (fs : str -> option str) (disk : bool) (t1 t2 : datetime)
  (st st' : store) (document_id : str) :
  process_document limit fs disk t1 t2 st document_id = (true, st') ->
  exists d content summary applicability i r r',
    get_by_id st document_id = Some d
    /\ read_content_from_file fs (get d "content") = Some content
    /\ _generate_one_shot_summary limit content d = Some summary
    /\ _classify_applicability content d = Some applicability
    /\ applicability ∈ vocabulary
    /\ st !! i = Some r /\ r !! "id" = Some document_id
    /\ st' !! i = Some r'
    /\ field r' "processing_status" = u "processed"
    /\ field r' "summary" = _escape_newlines (strip summary)
    /\ field r' "applicability" = applicability
    /\ field r' "themes" = join (u ", ") (_classify_themes content d)
    /\ field r' "keywords" = [].
Proof.
  rewrite process_document_unfold.
  destruct (get_by_id st document_id) as [d|] eqn:Hget; [|done].
  destruct (read_content_from_file fs (get d "content"))
    as [[|c content]|] eqn:Hread; [done| |done].
  destruct (enrichment limit (c :: content) d) as [updates|] eqn:Henr;
    [|done].
  intros Hupd.
  destruct (enrichment_Some limit _ _ _ Henr)
    as (summary & applicability & Hsum & Happ & Hs & Ha & Ht & Hk & Hp).
  destruct (applicability_in_vocabulary _ _ _ Happ) as [Hvoc Hclean].
  destruct (update_document_true disk t1 t2 st st' document_id updates Hupd)
    as (i & r & r' & Hr & Hid & Hr' & Hrow & _).
  exists d, (c :: content), summary, applicability, i, r, r'.
  do 8 (split; [done|]).
  assert (forall k v, k ∈ fieldnames -> k ∉ stamped_fields ->
            updates !! k = Some v -> field r' k = cell (normalise k v))
    as Hcell.
  { intros k v Hkf Hks Hkv.
    apply (updated_cell t1 t2 r r' updates k v Hrow Hkf Hks).
    rewrite (lookup_union_l' updates) by by rewrite Hkv. done. }
  split; [|split; [|split; [|split]]].
  - etrans; [eapply (Hcell "processing_status"%string); [column|column|exact Hp]|].
    reflexivity.
  - etrans; [eapply (Hcell "summary"%string); [column|column|exact Hs]|].
    reflexivity.
  - etrans; [eapply (Hcell "applicability"%string); [column|column|exact Ha]|].
    exact Hclean.
  - etrans; [eapply (Hcell "themes"%string); [column|column|exact Ht]|].
    reflexivity.
  - etrans; [eapply (Hcell "keywords"%string); [column|column|exact Hk]|].
    reflexivity.
Qed.

Definition pipeline_example : store :=
  [ {[ "id" := u "A"; "content" := u "content_files/A.txt";
       "keywords" := u "machines" ]} ].

Definition example_files (path : str) : option str :=
  if bool_decide (path = u "content_files/A.txt")
  then Some (u "Article 1er. Les machines.") else None.

Definition answering_service : LLMService :=
  {| generate := fun _ _ _ => Some (u "obligation/Décret");
     classify := fun _ _ _ _ => None |}.

Definition failing_service : LLMService :=
  {| generate := fun _ _ _ => None;
     classify := fun _ _ _ _ => None |}.

Definition processed_example : bool * store :=
  @process_document IsoRuntime.runtime answering_service 1000 example_files
    true (DateTime 738946 0) (DateTime 738946 0) pipeline_example (u "A").

Lemma process_document_success_witness :
  exists r',
    processed_example.2 !! 0%nat = Some r'
    /\ field r' "processing_status" = u "processed"
    /\ field r' "keywords" = []
    /\ field r' "applicability" ∈ vocabulary.
Proof.
  assert (@process_document IsoRuntime.runtime answering_service 1000
            example_files true (DateTime 738946 0) (DateTime 738946 0)
            pipeline_example (u "A")
          = (true, processed_example.2)) as Hrun
    by (apply succeeded; vm_compute; reflexivity).
  destruct (@process_document_success IsoRuntime.runtime answering_service
              _ _ _ _ _ _ _ _ Hrun)
    as (d & content & summary & applicability & i & r & r' & _ & _ & _ & _
        & Hvoc & Hr & _ & Hr' & Hstatus & _ & Happ & _ & Hkeywords).
  assert (i = 0%nat) as ->.
  { apply lookup_lt_Some in Hr.
    change (length pipeline_example) with 1%nat in Hr. lia. }
  exists r'. split; [exact Hr'|]. split; [exact Hstatus|].
  split; [exact Hkeywords|]. rewrite Happ. exact Hvoc.
Defined.

(** X17: When no content can be read for the record (no record with the id, no
    content path, no readable file, or an empty file), [process_document]
    returns false and the file is what it was: the status of the record is
    not set to error. *)
Theorem process_document_without_content `{Runtime} `{LLMService}
  (limit : nat) (fs : str -> option str) (disk : bool) (t1 t2 : datetime)
  (st : store) (document_id : str) :
  (forall d content,
     get_by_id st document_id = Some d ->
     read_content_from_file fs (get d "content") = Some content ->
     content = []) ->
  process_document limit fs disk t1 t2 st document_id = (false, st).
Proof.
  intros Hno. rewrite process_document_unfold.
  destruct (get_by_id st document_id) as [d|] eqn:Hget; [|done].
  destruct (read_content_from_file fs (get d "content"))
    as [[|c content]|] eqn:Hread; [done| |done].
  by specialize (Hno d (c :: content) eq_refl Hread).
Qed.

Lemma process_document_without_content_witness :
  @process_document IsoRuntime.runtime answering_service 1000
    (fun _ => None) true (DateTime 738946 0) (DateTime 738946 0)
    pipeline_example (u "A")
  = (false, pipeline_example).
Proof.
  apply (@process_document_without_content IsoRuntime.runtime
           answering_service).
  intros d content _ Hread.
  destruct (get d "content") as [|[|c p]|l|t|day]; discriminate Hread.
Defined.

(** X18: When the content was read and one of the two generation calls fails,
    [process_document] returns false and the file is what
    [update_processing_status] with the status error leaves; on a file
    whose rows have no unknown column and with the write going through,
    the row of the record then has the status error. *)
Theorem process_document_generation_failure `{Runtime} `{LLMService}
  (limit : nat) (fs : str -> option str) (disk : bool) (t1 t2 : datetime)
  (st : store) (document_id : str) (d : doc) (content : str) :
  get_by_id st document_id = Some d ->
  read_content_from_file fs (get d "content") = Some content ->
  content <> [] ->
  (_generate_one_shot_summary limit content d = None
   \/ _classify_applicability content d = None) ->
  process_document limit fs disk t1 t2 st document_id
  = (false,
     (update_processing_status disk t1 t2 st document_id (u "error")).2)
  /\ (disk = true -> Forall known_keys st -> document_id <> [] ->
      exists i r r',
        st !! i = Some r /\ r !! "id" = Some document_id
        /\ (update_processing_status disk t1 t2 st document_id (u "error")).2
             !! i = Some r'
        /\ field r' "processing_status" = u "error").
Proof.
  intros Hget Hread Hcontent Hfail. split.
  - rewrite process_document_unfold, Hget, Hread.
    destruct content as [|c content]; [done|].
    by rewrite enrichment_None.
  - intros -> Hknown Hid.
    destruct (get_by_id_raw st document_id d Hget) as (i & r & Hfind & _ & _).
    unfold update_processing_status.
    destruct (update_document_succeeds t1 t2 st document_id
                {[ "processing_status" := PStr (u "error") ]} i r Hfind Hid)
      as [st' Hupd]; [done|done|].
    rewrite Hupd. cbn [snd].
    destruct (update_document_true true t1 t2 st st' document_id _ Hupd)
      as (i' & r0 & r' & Hr0 & Hid0 & Hr' & Hrow & _).
    exists i', r0, r'. split; [done|]. split; [done|]. split; [done|].
    rewrite (updated_cell t1 t2 r0 r' _ "processing_status"
               (PStr (u "error")) Hrow).
    + reflexivity.
    + apply (bool_decide_unpack _). by vm_compute.
    + apply (bool_decide_unpack _). by vm_compute.
    + rewrite (lookup_union_l' _ _ "processing_status") by (by eexists).
      reflexivity.
Qed.

Lemma known_row_check {V} (m : gmap string V) :
  bool_decide (Forall (fun k => k ∈ fieldnames) (map_to_list m).*1) = true ->
  known_keys m.
Proof.
  intros Hall%bool_decide_eq_true k [v Hv].
  rewrite Forall_forall in Hall. apply Hall.
  apply list_elem_of_fmap. exists (k, v). split; [done|].
  by apply elem_of_map_to_list.
Qed.

Definition failed_example : store :=
  (@update_processing_status IsoRuntime.runtime true (DateTime 738946 0)
     (DateTime 738946 0) pipeline_example (u "A") (u "error")).2.

Lemma process_document_generation_failure_witness :
  @process_document IsoRuntime.runtime failing_service 1000 example_files
    true (DateTime 738946 0) (DateTime 738946 0) pipeline_example (u "A")
  = (false, failed_example)
  /\ exists r',
       failed_example !! 0%nat = Some r'
       /\ field r' "processing_status" = u "error".
Proof.
  destruct (@process_document_generation_failure IsoRuntime.runtime
              failing_service 1000 example_files true (DateTime 738946 0)
              (DateTime 738946 0) pipeline_example (u "A")
              (@_parse_doc IsoRuntime.runtime
                 (raw_doc
                    {[ "id" := u "A"; "content" := u "content_files/A.txt";
                       "keywords" := u "machines" ]}))
              (u "Article 1er. Les machines."))
    as [Hrun Herror].
  - reflexivity.
  - vm_compute; reflexivity.
  - discriminate.
  - left. reflexivity.
  - split; [exact Hrun|].
    destruct Herror as (i & r & r' & Hr & _ & Hr' & Hstatus).
    + reflexivity.
    + constructor; [|constructor].
      apply known_row_check. vm_compute; reflexivity.
    + discriminate.
    + assert (i = 0%nat) as ->.
      { apply lookup_lt_Some in Hr.
        change (length pipeline_example) with 1%nat in Hr. lia. }
      exists r'. split; [exact Hr'|exact Hstatus].
Defined.

End PipelineFacts.

(** ** The days a range visits *)

Module RangeDayFacts.

Import Repo Scraper RangeFacts.

(** A call for each day, followed by a pause while the day is before the
    end of the range *)
Definition day_events (series : Series) (scrape_details : bool)
  (end_date : datetime) (days : list datetime) : list event :=
  flat_map (fun t => ScrapeDailyView series scrape_details t
                     :: (if datetime_ltb t end_date then [Sleep 2] else []))
           days.

(** The number of days from [start_date] on that are not after
    [end_date] *)
Definition days_in_range (start_date end_date : datetime) : nat :=
  (Pos.to_nat (dt_day end_date) - Pos.to_nat (dt_day start_date)
   + (if (dt_time end_date <? dt_time start_date)%N then 0 else 1))%nat.

Lemma days_from_before (t : datetime) (n : nat) :
  Forall (fun x => (Pos.to_nat (dt_day x) < Pos.to_nat (dt_day t) + n)%nat)
         (days_from t n).
Proof.
  revert t. induction n as [|n IH]; intros t; simpl; [constructor|].
  constructor; [lia|].
  eapply Forall_impl; [apply IH|]. intros x Hx. simpl in Hx.
  rewrite Pos2Nat.inj_succ in Hx. lia.
Qed.

Section WithNetwork.
Context `{Runtime}.
Variable daily_view : Series -> bool -> datetime -> list doc.

Lemma range_loop_visits series sd (n : nat) :
  forall cur en acc tr,
    (Pos.to_nat (dt_day en)
     + (if (dt_time en <? dt_time cur)%N then 0 else 1)
     = Pos.to_nat (dt_day cur) + n)%nat ->
    range_loop daily_view series sd cur en acc tr
    = (acc ++ flat_map (daily_view series sd) (days_from cur n),
       tr ++ day_events series sd en (days_from cur n)).
Proof.
  induction n as [|n IH]; intros cur en acc tr Hn;
    rewrite range_loop_unfold.
  - assert (datetime_leb cur en = false) as ->.
    { unfold datetime_leb, datetime_ltb.
      destruct cur as [cd ct], en as [ed et]; simpl in *.
      destruct (N.ltb_spec et ct), (Pos.ltb_spec ed cd),
        (Pos.eqb_spec ed cd); simpl; try done; lia. }
    simpl. by rewrite !app_nil_r.
  - assert (datetime_leb cur en = true) as ->.
    { unfold datetime_leb, datetime_ltb.
      destruct cur as [cd ct], en as [ed et]; simpl in *.
      destruct (N.ltb_spec et ct), (Pos.ltb_spec ed cd),
        (Pos.eqb_spec ed cd); simpl; try done; lia. }
    rewrite IH.
    + cbn [days_from flat_map day_events]. unfold day_events.
      by rewrite <- !app_assoc.
    + destruct cur as [cd ct]. simpl in *. rewrite Pos2Nat.inj_succ. lia.
Qed.

End WithNetwork.



End RangeDayFacts.

(** ** The records that await processing *)

Module PendingFacts.

Import Repo Queries PrepareFacts RepoFacts UpdateFacts ExampleFacts
  CreateFacts ReadBackFacts RowFacts PipelineFacts.

Section WithRuntime.
Context `{Runtime}.

(** A column [_parse_doc] leaves as it is *)
Lemma parsed_plain (r : row) (k : string) (s : str) :
  k ∉ converted_fields -> k ∉ text_fields -> r !! k = Some s ->
  get (_parse_doc (raw_doc r)) k = PStr s.
Proof.
  intros Hc Ht Hs. unfold get. rewrite parse_lookup by done.
  rewrite bool_decide_eq_false_2 by done.
  unfold raw_doc. rewrite lookup_fmap.
  apply (f_equal (fun o : option str => default PNone (PStr <$> o))) in Hs.
  exact Hs.
Qed.

Lemma written_cell (d : doc) (r : row) (k : string) :
  writer_row d = Some r -> k ∈ fieldnames -> r !! k = Some (cell (get d k)).
Proof.
  intros Hw Hk. apply writer_row_Some in Hw as [_ Hr].
  by rewrite Hr, bool_decide_eq_true_2.
Qed.

Lemma pending_app (path_exists : str -> bool) (st : store) (r : row)
  (limit : nat) :
  is_pending path_exists (_parse_doc (raw_doc r)) = true ->
  (length (get_pending_for_processing path_exists st limit) < limit)%nat ->
  get_pending_for_processing path_exists (st ++ [r]) limit
  = get_pending_for_processing path_exists st limit
      ++ [_parse_doc (raw_doc r)].
Proof.
  unfold get_pending_for_processing, _read_all_documents.
  intros Hp Hlen. rewrite fmap_app, List.filter_app.
  rewrite fmap_cons. cbn [fmap list_fmap List.filter]. rewrite Hp.
  rewrite length_take in Hlen.
  rewrite (take_ge (List.filter _ _)) by lia.
  apply take_ge. rewrite length_app. simpl. lia.
Qed.

End WithRuntime.

(** X20: A record created without a status, with a fresh id and the path of
    an existing file as content, awaits processing: it is added at the end
    of what [get_pending_for_processing] returns, when the limit leaves
    room for it. *)
Theorem created_record_is_pending `{Runtime} (path_exists : str -> bool)
  (now : datetime) (st : store) (d : doc) (i p : str) (limit : nat) :
  get d "id" = PStr i -> i <> [] ->
  exists_ st (PStr i) = false ->
  known_keys d ->
  d !! "processing_status" = None ->
  d !! "content" = Some (PStr p) ->
  p <> [] -> (len p <= 500)%nat -> path_exists p = true ->
  (length (get_pending_for_processing path_exists st limit) < limit)%nat ->
  exists document st' found,
    create true now st d = (Some document, st')
    /\ get_by_id st' i = Some found
    /\ get_pending_for_processing path_exists st' limit
       = get_pending_for_processing path_exists st limit ++ [found].
Proof.
  intros Hid Hi Hnew Hd Hstatus Hcontent Hp Hlen Hexists Hroom.
  destruct (create_known now st d) as (r & Hcreate & Hw);
    [by rewrite Hid; destruct i|by rewrite Hid|done|].
  pose proof (created_row_id now d r i Hid Hw) as Hrid.
  exists (finish now (staged d)), (st ++ [r]), (_parse_doc (raw_doc r)).
  split; [done|]. split; [by apply get_by_id_appended|].
  apply pending_app; [|done].
  unfold is_pending.
  assert (get (_parse_doc (raw_doc r)) "processing_status"
          = PStr (u "pending")) as ->.
  { apply parsed_plain;
      [apply (bool_decide_unpack _); by vm_compute
      |apply (bool_decide_unpack _); by vm_compute|].
    rewrite (written_cell _ _ "processing_status" Hw)
      by (apply (bool_decide_unpack _); by vm_compute).
    rewrite TimestampFacts.prepared_status, Hstatus. reflexivity. }
  assert (get (_parse_doc (raw_doc r)) "content" = PStr p) as ->.
  { apply parsed_plain;
      [apply (bool_decide_unpack _); by vm_compute
      |apply (bool_decide_unpack _); by vm_compute|].
    rewrite (written_cell _ _ "content" Hw)
      by (apply (bool_decide_unpack _); by vm_compute).
    rewrite (prepared_get now d "content" (PStr p) Hcontent) by done.
    rewrite normalise_content by (by destruct p).
    cbn [py_str]. rewrite bool_decide_eq_false_2 by lia. reflexivity. }
  rewrite bool_decide_eq_true_2 by done. rewrite Hexists.
  by destruct p.
Qed.

Lemma created_record_is_pending_witness :
  exists document st' found,
    @create IsoRuntime.runtime true (DateTime 738946 0) []
      {[ "id" := PStr (u "A"); "content" := PStr (u "content_files/A.txt") ]}
    = (Some document, st')
    /\ @get_by_id IsoRuntime.runtime st' (u "A") = Some found
    /\ @get_pending_for_processing IsoRuntime.runtime (fun _ => true) st' 10
       = [found].
Proof.
  apply (@created_record_is_pending IsoRuntime.runtime (fun _ => true)
           (DateTime 738946 0) []
           {[ "id" := PStr (u "A");
              "content" := PStr (u "content_files/A.txt") ]}
           (u "A") (u "content_files/A.txt") 10).
  - vm_compute; reflexivity.
  - discriminate.
  - vm_compute; reflexivity.
  - apply known_keys_check. vm_compute; reflexivity.
  - vm_compute; reflexivity.
  - vm_compute; reflexivity.
  - discriminate.
  - vm_compute. lia.
  - reflexivity.
  - vm_compute. lia.
Defined.

(** X21: A successful update that sets another status than pending takes the
    record out of the records that await processing: read back, its row
    fails the test of [get_pending_for_processing], whatever files exist. *)
Theorem updated_status_not_pending `{Runtime} (disk : bool)
  (t1 t2 : datetime) (st st' : store) (document_id status : str)
  (updates : doc) :
  update_document disk t1 t2 st document_id updates = (true, st') ->
  updates !! "processing_status" = Some (PStr status) ->
  status <> u "pending" ->
  exists i r r',
    st !! i = Some r /\ r !! "id" = Some document_id /\ st' !! i = Some r'
    /\ field r' "processing_status" = status
    /\ forall path_exists,
         is_pending path_exists (_parse_doc (raw_doc r')) = false.
Proof.
  intros Hupd Hstatus Hne.
  destruct (update_document_true disk t1 t2 st st' document_id updates Hupd)
    as (i & r & r' & Hr & Hid & Hr' & Hrow & _).
  exists i, r, r'. split; [done|]. split; [done|]. split; [done|].
  assert (field r' "processing_status" = status) as Hfield.
  { etrans; [apply (updated_cell t1 t2 r r' updates "processing_status"
                      (PStr status) Hrow)|reflexivity].
    - apply (bool_decide_unpack _). by vm_compute.
    - apply (bool_decide_unpack _). by vm_compute.
    - rewrite (lookup_union_l' updates) by (by rewrite Hstatus). done. }
  split; [done|]. intros path_exists. unfold is_pending.
  assert (get (_parse_doc (raw_doc r')) "processing_status" = PStr status)
    as ->.
  { apply parsed_plain;
      [apply (bool_decide_unpack _); by vm_compute
      |apply (bool_decide_unpack _); by vm_compute|].
    rewrite (written_cell _ _ "processing_status" Hrow)
      by (apply (bool_decide_unpack _); by vm_compute).
    f_equal. rewrite <- Hfield.
    by rewrite (writer_row_field _ _ "processing_status" Hrow)
      by (apply (bool_decide_unpack _); by vm_compute). }
  rewrite bool_decide_eq_false_2; [done|]. congruence.
Qed.

Definition queue_example : store :=
  [ {[ "id" := u "A"; "content" := u "content_files/A.txt";
       "processing_status" := u "pending" ]} ].

Definition queue_result : bool * store :=
  @update_processing_status IsoRuntime.runtime true (DateTime 738946 0)
    (DateTime 738946 0) queue_example (u "A") (u "error").

Lemma updated_status_not_pending_witness :
  length (@get_pending_for_processing IsoRuntime.runtime (fun _ => true)
            queue_example 10) = 1%nat
  /\ exists r',
       queue_result.2 !! 0%nat = Some r'
       /\ field r' "processing_status" = u "error"
       /\ is_pending (fun _ => true)
            (@_parse_doc IsoRuntime.runtime (raw_doc r')) = false.
Proof.
  split; [vm_compute; reflexivity|].
  assert (@update_document IsoRuntime.runtime true (DateTime 738946 0)
            (DateTime 738946 0) queue_example (u "A")
            {[ "processing_status" := PStr (u "error") ]}
          = (true, queue_result.2)) as Hupd
    by (apply succeeded; vm_compute; reflexivity).
  destruct (@updated_status_not_pending IsoRuntime.runtime _ _ _ _ _ _
              (u "error") _ Hupd)
    as (i & r & r' & Hr & _ & Hr' & Hfield & Hpending).
  - reflexivity.
  - discriminate.
  - assert (i = 0%nat) as ->.
    { apply lookup_lt_Some in Hr.
      change (length queue_example) with 1%nat in Hr. lia. }
    exists r'. split; [exact Hr'|]. split; [exact Hfield|]. apply Hpending.
Defined.

End PendingFacts.

(** ** Lists of themes and keywords, and failed writes *)

Module ListFieldFacts.

Import Repo Queries PrepareFacts RepoFacts UpdateFacts ExampleFacts
  CreateFacts ReadBackFacts RowFacts PipelineFacts PendingFacts.

(** An entry that the joining with [", "] and the splitting at commas give
    back: it has no comma, no surrounding whitespace, and is not empty. *)
Definition plain_entry (x : str) : Prop :=
  (44 ∉ x) /\ strip x = x /\ x <> [].

Lemma split_no_sep (c : char) (s : str) : c ∉ s -> split c s = [s].
Proof.
  induction s as [|x s IH]; [done|]. intros [Hx Hs]%not_elem_of_cons.
  simpl. rewrite (proj2 (N.eqb_neq x c)) by congruence. by rewrite IH.
Qed.

Lemma split_app_sep (c : char) (a s : str) :
  c ∉ a -> split c (a ++ c :: s) = a :: split c s.
Proof.
  induction a as [|x a IH]; intros Ha; simpl.
  - by rewrite N.eqb_refl.
  - apply not_elem_of_cons in Ha as [Hx Ha].
    rewrite (proj2 (N.eqb_neq x c)) by congruence. by rewrite IH.
Qed.

Lemma strip_after_space (w : str) : strip (32 :: w) = strip w.
Proof. reflexivity. Qed.

Lemma join_cons2 (sep x y : str) (l : list str) :
  join sep (x :: y :: l) = x ++ sep ++ join sep (y :: l).
Proof. reflexivity. Qed.

Lemma split_join (l : list str) :
  Forall plain_entry l -> l <> [] ->
  strip <$> split 44 (join [44; 32] l) = l.
Proof.
  induction l as [|x l IH]; [done|]. intros Hall _.
  apply Forall_cons in Hall as [(Hcomma & Hstrip & Hx) Hall].
  destruct l as [|y l].
  - simpl. rewrite split_no_sep by done. simpl. by rewrite Hstrip.
  - rewrite join_cons2. cbn [app]. rewrite split_app_sep by done.
    rewrite fmap_cons, Hstrip. f_equal.
    specialize (IH Hall ltac:(done)).
    change (split 44 (32 :: join [44; 32] (y :: l)))
      with (match split 44 (join [44; 32] (y :: l)) with
            | [] => [[32]]
            | w :: ws => (32 :: w) :: ws
            end).
    destruct (split 44 (join [44; 32] (y :: l))) as [|w ws]; [done|].
    rewrite fmap_cons in IH. rewrite fmap_cons, strip_after_space. exact IH.
Qed.

Lemma filter_plain (l : list str) :
  Forall plain_entry l -> List.filter nonempty l = l.
Proof.
  induction 1 as [|x l (_ & _ & Hx) _ IH]; [done|]. simpl.
  destruct x; [done|]. simpl. by rewrite IH.
Qed.

Section WithRuntime.
Context `{Runtime}.

Lemma parse_list_join (l : list str) :
  Forall plain_entry l -> parse_list (PStr (join (u ", ") l)) = PList l.
Proof.
  intros Hall. change (u ", ") with [44; 32].
  destruct l as [|x l]; [done|].
  pose proof (split_join (x :: l) Hall ltac:(done)) as Hsplit.
  assert (join [44; 32] (x :: l) <> []) as Hne.
  { apply Forall_cons in Hall as [(_ & _ & Hx) _].
    destruct x; [done|]. by destruct l. }
  destruct (join [44; 32] (x :: l)) as [|c s] eqn:Hjoin; [done|].
  unfold parse_list. by rewrite Hsplit, filter_plain.
Qed.

Lemma parsed_themes (d : doc) :
  get (_parse_doc d) "themes" = parse_list (get d "themes").
Proof.
  unfold get at 1. unfold _parse_doc.
  rewrite lookup_foldr_alter by (apply (bool_decide_unpack _); by vm_compute).
  change (bool_decide ("themes"%string
                       ∈ ["created_at"; "updated_at"; "processed"]%string))
    with false. cbv iota.
  rewrite lookup_alter_at.
  change (bool_decide ("themes"%string = "date"%string)) with false.
  cbv iota. rewrite option_fmap_id, lookup_insert_eq. cbn [default].
  f_equal. unfold get. rewrite lookup_insert_ne by done.
  rewrite lookup_foldr_alter by apply text_fields_nodup. done.
Qed.

Lemma parsed_keywords (d : doc) :
  get (_parse_doc d) "keywords" = parse_list (get d "keywords").
Proof.
  unfold get at 1. unfold _parse_doc.
  rewrite lookup_foldr_alter by (apply (bool_decide_unpack _); by vm_compute).
  change (bool_decide ("keywords"%string
                       ∈ ["created_at"; "updated_at"; "processed"]%string))
    with false. cbv iota.
  rewrite lookup_alter_at.
  change (bool_decide ("keywords"%string = "date"%string)) with false.
  cbv iota. rewrite option_fmap_id, lookup_insert_ne by done.
  rewrite lookup_insert_eq. cbn [default].
  f_equal. unfold get.
  rewrite lookup_foldr_alter by apply text_fields_nodup. done.
Qed.

Lemma get_raw_Some (r : row) (k : string) (s : str) :
  r !! k = Some s -> get (raw_doc r) k = PStr s.
Proof.
  intros Hs. rewrite get_raw_doc.
  apply (f_equal (from_option PStr PNone)) in Hs. exact Hs.
Qed.

End WithRuntime.

(** X22: The themes and the keywords of a created record, given as lists whose
    entries have no comma, no surrounding whitespace and are not empty,
    read back as the same lists. *)
Theorem created_lists_read_back `{Runtime} (now : datetime) (st : store)
  (d : doc) (i : str) (themes keywords : list str) :
  get d "id" = PStr i -> i <> [] ->
  exists_ st (PStr i) = false ->
  known_keys d ->
  d !! "themes" = Some (PList themes) ->
  d !! "keywords" = Some (PList keywords) ->
  Forall plain_entry themes -> Forall plain_entry keywords ->
  exists document st' found,
    create true now st d = (Some document, st')
    /\ get_by_id st' i = Some found
    /\ get found "themes" = PList themes
    /\ get found "keywords" = PList keywords.
Proof.
  intros Hid Hi Hnew Hd Hthemes Hkeywords Hplain_t Hplain_k.
  destruct (create_known now st d) as (r & Hcreate & Hw);
    [by rewrite Hid; destruct i|by rewrite Hid|done|].
  pose proof (created_row_id now d r i Hid Hw) as Hrid.
  exists (finish now (staged d)), (st ++ [r]), (_parse_doc (raw_doc r)).
  split; [done|]. split; [by apply get_by_id_appended|]. split.
  - rewrite parsed_themes.
    rewrite (get_raw_Some r "themes" (join (u ", ") themes)).
    + by apply parse_list_join.
    + rewrite (written_cell _ _ "themes" Hw)
        by (apply (bool_decide_unpack _); by vm_compute).
      by rewrite (prepared_get now d "themes" _ Hthemes).
  - rewrite parsed_keywords.
    rewrite (get_raw_Some r "keywords" (join (u ", ") keywords)).
    + by apply parse_list_join.
    + rewrite (written_cell _ _ "keywords" Hw)
        by (apply (bool_decide_unpack _); by vm_compute).
      by rewrite (prepared_get now d "keywords" _ Hkeywords).
Qed.

Lemma plain_entry_check (l : list str) :
  forallb (fun x => bool_decide (44 ∉ x) && bool_decide (strip x = x)
                    && nonempty x) l = true ->
  Forall plain_entry l.
Proof.
  intros Hall. apply Forall_forall. intros x Hx%list_elem_of_In.
  rewrite forallb_forall in Hall. specialize (Hall x Hx).
  apply andb_true_iff in Hall as [[Hc Hs]%andb_true_iff Hn].
  apply bool_decide_eq_true in Hc, Hs. repeat split; [done|done|].
  by destruct x.
Qed.

Lemma created_lists_read_back_witness :
  exists document st' found,
    @create IsoRuntime.runtime true (DateTime 738946 0) []
      {[ "id" := PStr (u "A");
         "themes" := PList [u "Risque chimique"; u "Machines"];
         "keywords" := PList [] ]}
    = (Some document, st')
    /\ @get_by_id IsoRuntime.runtime st' (u "A") = Some found
    /\ get found "themes" = PList [u "Risque chimique"; u "Machines"]
    /\ get found "keywords" = PList [].
Proof.
  apply (@created_lists_read_back IsoRuntime.runtime (DateTime 738946 0) []
           {[ "id" := PStr (u "A");
              "themes" := PList [u "Risque chimique"; u "Machines"];
              "keywords" := PList [] ]}
           (u "A")).
  - vm_compute; reflexivity.
  - discriminate.
  - vm_compute; reflexivity.
  - apply known_keys_check. vm_compute; reflexivity.
  - vm_compute; reflexivity.
  - vm_compute; reflexivity.
  - apply plain_entry_check. vm_compute; reflexivity.
  - constructor.
Defined.


End ListFieldFacts.


(** ** Recent records *)

Module RecentFacts.

Import Repo PrepareFacts RepoFacts SortFacts Recent.

(** The date of a record, where it has one *)
Definition date_of (d : doc) : option positive :=
  match get d "date" with
  | PDate day => Some day
  | _ => None
  end.

Definition dated_from (cutoff_date : positive) (d : doc) : bool :=
  match date_of d with
  | Some day => (cutoff_date <=? day)%positive
  | None => false
  end.

Section WithRuntime.
Context `{Runtime}.

Lemma parsed_date (r : row) :
  get (_parse_doc (raw_doc r)) "date"
  = from_option (fun s => parse_date (PStr s)) PNone (r !! "date").
Proof.
  unfold get, _parse_doc.
  rewrite lookup_foldr_alter by (apply (bool_decide_unpack _); by vm_compute).
  change (bool_decide ("date"%string
                       ∈ ["created_at"; "updated_at"; "processed"]%string))
    with false. cbv iota.
  rewrite lookup_alter_at.
  change (bool_decide ("date"%string = "date"%string)) with true. cbv iota.
  rewrite !lookup_insert_ne by done.
  rewrite lookup_foldr_alter by apply text_fields_nodup.
  change (bool_decide ("date"%string ∈ text_fields)) with false. cbv iota.
  unfold raw_doc. rewrite lookup_fmap. by destruct (r !! "date").
Qed.

Lemma parsed_date_no_time (r : row) (t : datetime) :
  get (_parse_doc (raw_doc r)) "date" <> PDateTime t.
Proof.
  rewrite parsed_date. destruct (r !! "date") as [s|]; [|done].
  cbn [from_option]. unfold parse_date. destruct s as [|c s]; [done|].
  by destruct (strptime DATE_ONLY_FORMAT (prefix_of 10 (c :: s))).
Qed.

Lemma recent_loop_filter (cutoff_date : positive) (documents : list doc) :
  Forall (fun d => forall t, get d "date" <> PDateTime t) documents ->
  recent_loop cutoff_date documents
  = Some (List.filter (dated_from cutoff_date) documents).
Proof.
  induction 1 as [|d documents Hd _ IH]; [done|].
  cbn [recent_loop List.filter]. rewrite IH.
  unfold recent_test, dated_from, date_of.
  destruct (get d "date") as [|s|l|t|day]; try done. by destruct (Hd t).
Qed.

Lemma read_no_time (st : store) :
  Forall (fun d => forall t, get d "date" <> PDateTime t)
         (_read_all_documents true st).
Proof.
  unfold _read_all_documents. apply Forall_fmap, Forall_forall.
  intros r _ t. apply parsed_date_no_time.
Qed.

End WithRuntime.

(** X24: [get_recent] returns whenever the cutoff date is in the calendar,
    with at most [limit] records; each has a date, not before the cutoff; a
    record whose date is missing or did not parse is never among them; and
    they come latest date first. *)
Theorem get_recent_dated_sorted `{Runtime} (now : datetime) (st : store)
  (days limit : nat) :
  (Z.of_nat days < Z.pos (dt_day now))%Z ->
  exists result,
    get_recent now st days limit = Some result
    /\ (length result <= limit)%nat
    /\ Forall (fun d => d ∈ _read_all_documents true st
                        /\ exists day,
                             date_of d = Some day
                             /\ (Z.pos (dt_day now) - Z.of_nat days
                                 <= Z.pos day)%Z)
              result
    /\ (forall i j di dj dayi dayj,
          (i < j)%nat -> result !! i = Some di -> result !! j = Some dj ->
          date_of di = Some dayi -> date_of dj = Some dayj ->
          (dayj <= dayi)%positive).
Proof.
  intros Hdays. unfold get_recent.
  rewrite bool_decide_eq_false_2 by lia. cbv zeta.
  rewrite recent_loop_filter by apply read_no_time.
  cbn [mbind option_bind]. eexists. split; [done|].
  set (cutoff := Z.to_pos (Z.pos (dt_day now) - Z.of_nat days)).
  set (recent := List.filter (dated_from cutoff) (_read_all_documents true st)).
  split; [rewrite length_take; lia|]. split.
  - apply Forall_take. rewrite (sort_desc_perm date_key recent).
    apply Forall_forall. intros d Hd.
    apply list_elem_of_In, List.filter_In in Hd as [Hin Hkeep].
    split; [by apply list_elem_of_In|].
    unfold dated_from in Hkeep. destruct (date_of d) as [day|]; [|done].
    exists day. split; [done|]. apply Pos.leb_le in Hkeep.
    subst cutoff. lia.
  - intros i j di dj dayi dayj Hij Hi Hj Hdi Hdj.
    apply lookup_take_Some in Hi as [Hi _].
    apply lookup_take_Some in Hj as [Hj _].
    pose proof (sorted_lookup date_key _ i j di dj
                  (sort_desc_sorted date_key recent) Hij Hi Hj) as Hnew.
    unfold newer, dt_le, datetime_leb, datetime_ltb, date_key in Hnew.
    unfold date_of in Hdi, Hdj.
    destruct (get di "date") as [| | | |a]; try done.
    destruct (get dj "date") as [| | | |b]; try done.
    injection Hdi as ->. injection Hdj as ->. simpl in Hnew.
    rewrite N.ltb_irrefl, andb_false_r, orb_false_r in Hnew.
    apply negb_true_iff, Pos.ltb_ge in Hnew. done.
Qed.

Definition recent_example : store :=
  [ {[ "id" := u "A"; "date" := u "2024-02-01" ]};
    {[ "id" := u "B"; "date" := u "inconnu" ]};
    {[ "id" := u "C"; "date" := u "2024-03-01" ]};
    {[ "id" := u "D"; "date" := u "2024-03-02" ]} ].

Lemma get_recent_dated_sorted_witness :
  exists result,
    @get_recent IsoRuntime.runtime (DateTime 738948 0) recent_example 7 10
    = Some result
    /\ (fun d => get d "id") <$> result = [PStr (u "D"); PStr (u "C")].
Proof.
  destruct (@get_recent_dated_sorted IsoRuntime.runtime (DateTime 738948 0)
              recent_example 7 10) as (result & Hget & _).
  - reflexivity.
  - exists result. split; [exact Hget|].
    assert (option_map (fmap (fun d => get d "id"))
              (@get_recent IsoRuntime.runtime (DateTime 738948 0)
                 recent_example 7 10)
            = Some [PStr (u "D"); PStr (u "C")]) as Hids
      by (vm_compute; reflexivity).
    rewrite Hget in Hids. simpl in Hids. by injection Hids.
Defined.

End RecentFacts.


(** ** The typology of a JORF act *)

Module JorfFacts.

Import Jorf.

Lemma startswith_app (p q s : str) :
  startswith (p ++ q) s = true -> startswith p s = true.
Proof.
  revert s. induction p as [|a p IH]; intros s; [done|].
  destruct s as [|b s]; [done|]. simpl.
  intros [Hab Hrest]%andb_true_iff. rewrite Hab. by apply IH.
Qed.

Lemma contains_app (p q s : str) :
  contains (p ++ q) s = true -> contains p s = true.
Proof.
  induction s as [|b s IH]; cbn [contains].
  - rewrite !orb_false_r. apply startswith_app.
  - intros [Hhere|Hrest]%orb_true_iff.
    + by rewrite (startswith_app _ _ _ Hhere).
    + rewrite (IH Hrest). apply orb_true_r.
Qed.

(** X25: The typology is never [Communication]: a title that holds one of the
    two texts tested for it holds [Avis], which is tested before.  The
    typology is one of the seven other values; and a title that holds
    [Décret] is a [Décret] whatever else it holds. *)
Theorem typology_never_communication (full_text : str) :
  _determine_typology full_text <> COMMUNICATION
  /\ _determine_typology full_text
       ∈ [DECRET; ARRETE; DECISION; AVIS; ANNONCE; INFORMATION; AUTRE]
  /\ (contains DECRET full_text = true ->
      _determine_typology full_text = DECRET).
Proof.
  assert (contains (u "Avis relatif à") full_text
          || contains (u "Avis de") full_text = true ->
          contains AVIS full_text = true) as Havis.
  { intros [H1|H2]%orb_true_iff.
    - apply (contains_app AVIS (u " relatif à")). exact H1.
    - apply (contains_app AVIS (u " de")). exact H2. }
  unfold _determine_typology. cbn [List.find].
  destruct (contains DECRET full_text);
    [split; [done|split; [|done]]; apply (bool_decide_unpack _); by vm_compute|].
  destruct (contains ARRETE full_text);
    [split; [done|split; [|done]]; apply (bool_decide_unpack _); by vm_compute|].
  destruct (contains DECISION full_text);
    [split; [done|split; [|done]]; apply (bool_decide_unpack _); by vm_compute|].
  destruct (contains AVIS full_text);
    [split; [done|split; [|done]]; apply (bool_decide_unpack _); by vm_compute|].
  destruct (contains (u "Demandes de changement de nom") full_text);
    [split; [done|split; [|done]]; apply (bool_decide_unpack _); by vm_compute|].
  destruct (existsb _ _);
    [split; [done|split; [|done]]; apply (bool_decide_unpack _); by vm_compute|].
  destruct (contains (u "Avis relatif à") full_text
            || contains (u "Avis de") full_text);
    [by specialize (Havis eq_refl)|].
  split; [done|split; [|done]]. apply (bool_decide_unpack _). by vm_compute.
Qed.

Lemma typology_never_communication_witness :
  _determine_typology (u "Avis relatif à la nomination d'un notaire") = AVIS
  /\ _determine_typology (u "Décret portant Avis de vacance") = DECRET.
Proof.
  destruct (typology_never_communication (u "Décret portant Avis de vacance"))
    as (_ & _ & Hdecret).
  split; [vm_compute; reflexivity|]. apply Hdecret. vm_compute; reflexivity.
Defined.

End JorfFacts.


(** ** Chunks of a text *)

Module ChunkFacts.

Import Service Chunking.

Lemma startswith_prefix (p s : str) :
  startswith p s = true -> s = p ++ drop (length p) s.
Proof.
  revert s. induction p as [|a p IH]; intros s; [done|].
  destruct s as [|b s]; [done|]. simpl.
  intros [Hab Hrest]%andb_true_iff. apply N.eqb_eq in Hab. subst b.
  f_equal. by apply IH.
Qed.

Lemma split_from_skip (sep q part s : str) :
  split_from sep (length q) part (q ++ s) = split_from sep 0 part s.
Proof.
  induction q as [|c q IH]; [by destruct s|]. simpl. exact IH.
Qed.

Lemma split_from_nonempty (sep : str) (s : str) :
  forall skip part, split_from sep skip part s <> [].
Proof.
  induction s as [|c s IH]; intros skip part; [done|]. simpl.
  destruct skip; [|apply IH]. destruct (startswith sep (c :: s)); [done|].
  apply IH.
Qed.

Lemma join_cons_nonempty (sep x : str) (l : list str) :
  l <> [] -> join sep (x :: l) = x ++ sep ++ join sep l.
Proof. by destruct l. Qed.

Lemma join_split_from (sep : str) (n : nat) :
  sep <> [] ->
  forall s part,
    (length s <= n)%nat ->
    join sep (split_from sep 0 part s) = reverse part ++ s.
Proof.
  intros Hsep. induction n as [|n IH]; intros s part Hlen.
  { destruct s; [|simpl in Hlen; lia]. simpl. by rewrite app_nil_r. }
  destruct s as [|c s]; [simpl; by rewrite app_nil_r|].
  cbn [split_from]. destruct (startswith sep (c :: s)) eqn:Hstart.
  - apply startswith_prefix in Hstart.
    destruct sep as [|a q]; [done|]. simpl in Hstart.
    injection Hstart as <- Hs. cbn [length pred].
    rewrite Hs, split_from_skip.
    rewrite join_cons_nonempty by apply split_from_nonempty.
    rewrite IH.
    + rewrite reverse_nil. cbn [app]. rewrite <- Hs. done.
    + rewrite length_drop. simpl in Hlen. lia.
  - rewrite IH by (simpl in Hlen; lia).
    rewrite reverse_cons, <- app_assoc. done.
Qed.

Lemma join_split_str (sep s : str) :
  sep <> [] -> join sep (split_str sep s) = s.
Proof.
  intros Hsep. unfold split_str.
  by rewrite (join_split_from sep (length s) Hsep s []).
Qed.

Lemma join_snoc (sep x : str) (l : list str) :
  l <> [] -> join sep (l ++ [x]) = join sep l ++ sep ++ x.
Proof.
  induction l as [|a l IH]; [done|]. intros _.
  destruct l as [|b l]; [done|].
  change (join sep ((a :: b :: l) ++ [x]))
    with (a ++ sep ++ join sep ((b :: l) ++ [x])).
  rewrite IH by done.
  change (join sep (a :: b :: l)) with (a ++ sep ++ join sep (b :: l)).
  by rewrite <- !app_assoc.
Qed.

Lemma join_snoc_app (sep x y : str) (l : list str) :
  join sep (l ++ [x ++ y]) = join sep (l ++ [x]) ++ y.
Proof.
  induction l as [|a l IH]; [done|].
  destruct l as [|b l]; [simpl; by rewrite <- !app_assoc|].
  change (join sep ((a :: b :: l) ++ [x ++ y]))
    with (a ++ sep ++ join sep ((b :: l) ++ [x ++ y])).
  rewrite IH.
  change (join sep ((a :: b :: l) ++ [x]))
    with (a ++ sep ++ join sep ((b :: l) ++ [x])).
  by rewrite <- !app_assoc.
Qed.

(** The text of the chunks and the current chunk is the text of the
    paragraphs read so far. *)
Definition keeps_text (chunks current_chunk consumed : list str) : Prop :=
  (consumed = [] /\ chunks = [] /\ current_chunk = [])
  \/ (consumed <> [] /\ current_chunk <> []
      /\ join PARAGRAPH_BREAK
           (chunks ++ [join PARAGRAPH_BREAK current_chunk])
         = join PARAGRAPH_BREAK consumed).

Lemma chunk_loop_keeps_text (max_chunk_tokens : Z) (paragraphs : list str) :
  forall chunks current_chunk current_tokens consumed,
    keeps_text chunks current_chunk consumed ->
    keeps_text
      (chunk_loop max_chunk_tokens paragraphs chunks current_chunk
                  current_tokens).1
      (chunk_loop max_chunk_tokens paragraphs chunks current_chunk
                  current_tokens).2
      (consumed ++ paragraphs).
Proof.
  induction paragraphs as [|para rest IH];
    intros chunks current_chunk current_tokens consumed Hinv.
  { simpl. by rewrite app_nil_r. }
  cbn [chunk_loop]. cbv zeta.
  replace (consumed ++ para :: rest) with ((consumed ++ [para]) ++ rest)
    by (by rewrite <- app_assoc).
  destruct (_ <? _)%Z; apply IH; right.
  - split; [by destruct consumed|]. split; [done|].
    destruct Hinv as [(-> & -> & ->)|(Hc & Hcur & Hjoin)]; [done|].
    unfold closed. destruct current_chunk as [|x current_chunk]; [done|].
    rewrite join_snoc by (by destruct chunks).
    rewrite Hjoin. by rewrite join_snoc.
  - split; [by destruct consumed|]. split; [by destruct current_chunk|].
    destruct Hinv as [(-> & -> & ->)|(Hc & Hcur & Hjoin)]; [done|].
    rewrite (join_snoc _ para current_chunk) by done.
    rewrite join_snoc_app, Hjoin. by rewrite join_snoc.
Qed.

(** X26: Chunking loses no text: the chunks, joined by a blank line, are the
    text, whatever the limit. *)
Theorem chunk_text_keeps_text (text : str) (max_chunk_tokens : Z) :
  join PARAGRAPH_BREAK (chunk_text text max_chunk_tokens) = text
  /\ chunk_text text max_chunk_tokens <> [].
Proof.
  unfold chunk_text.
  pose proof (chunk_loop_keeps_text max_chunk_tokens
                (split_str PARAGRAPH_BREAK text) [] [] 0 []) as Hinv.
  destruct (chunk_loop _ _ _ _ _) as [chunks current_chunk].
  destruct Hinv as [(Hnil & _ & _)|(_ & Hcur & Hjoin)];
    [by left| |].
  { exfalso. simpl in Hnil. by apply (split_from_nonempty _ _ _ _ Hnil). }
  simpl in Hcur, Hjoin. unfold closed.
  destruct current_chunk as [|x current_chunk]; [done|].
  split; [|by destruct chunks].
  rewrite Hjoin. by apply join_split_str.
Qed.

End ChunkFacts.
